(* ===== verification/_CoqProject ===== *)
-Q . S2P
Prelude.v
PyStr.v
PyFloat.v
Catalog.v
Copago.v
Validate.v
Dates.v
Frame.v
Beneficiary.v
Handler.v
Generate.v
Titular.v
Controller.v
