(* ===== verification/Prelude.v ===== *)
(** * A verification development for [generar_recibi.py]

    The program ([src/generar_recibi.py], one class [DocumentGenerator]) is a
    Tk form that reads beneficiaries from an Excel workbook, lets an operator
    choose an aid code, an amount, a professional and a payment method, and
    fills a Word template to produce a receipt ("recibí").  Its parts, leaves
    first, and the file of this library that models each:

    - [Prelude] (this file): the scope [py_scope] with the notations of the
      development, Python dictionaries as association lists with the
      semantics of [d[k] = v] and [dict.update] ([py_set], [py_update]), the
      hint databases [pyglue] and [pyrw] and the tactics shared by every
      file.
    - [PyStr]: Python [str] over UTF-8 encoded Rocq strings: code points
      ([chars]), [strip], [replace], slicing [s[:n]], [upper], truthiness,
      [str(int)] and zero padding: the builtins the source calls.
    - [PyFloat]: Python [float] as IEEE binary64 through the Standard
      Library's [SpecFloat]: the [float(s)] constructor with its exact
      grammar and correctly rounded conversion, [float > int], [*], [-] and
      the [f"{x:.2f}"] format (exact, round-half-even).
    - [Catalog]: [setup_constants] (lines 38-207): the dictionaries
      [codigos_ayuda_descripcion], [cuantias_predefinidas], [maximos_ayuda]
      and [EDAD_MAYORIA], in a [Record Constants]; the class [AidCatalog]
      with its laws [AidCatalogLaws], the interface the validation and
      co-payment code rely on, discharged by the instance
      [source_catalog_laws] on the source's tables.
    - [Copago]: the co-payment block of [generate_document] (lines 525-536)
      and the label of [calculate_copago] (lines 573-588).
    - [Validate]: [validate_input] (lines 440-456).
    - [Dates]: datetimes, [relativedelta(now, birth).years] translated from
      dateutil's [_set_months], [__add__] and the adjustment loop of its
      constructor, and the three [strftime] formats the source uses.
    - [Frame]: pandas cells, rows and frames; [df[col] == v] (with the
      [KeyError] of a missing column) and [.iloc[0]] (lines 247-252),
      [astype(str)] of the identifier column (line 219),
      [pd.to_datetime] of a cell, [load_professional_values] (lines
      226-234).
    - [Beneficiary]: [calculate_age] (236-243), [is_minor] (245-258) and
      [get_person_data] (393-438), in a Section over dateutil's string
      parser.
    - [Handler]: the effects of a Tk callback: the trace monad [M] whose
      events are the dialogs, the saved document and [os.startfile], with
      early [return]s and uncaught exceptions as results, and its
      Hoare-style trace logic ([extends], [bind_inv]).
    - [Generate]: the handler [generate_document] (458-571) in [M], with
      the holder's resolution [resolver_titular] (472-489) and the dialog
      [prompt_for_titular] (358-391); the environment (clock, the user's
      answers, the template's presence, render failures) is a record
      [Env]; the form operations [set_max_cuantia] (603-613) and
      [update_cuantia] (590-601).
    - [Titular]: the specification's two-state holder protocol
      (tentative, then confirmed or typed) as the inductive relation
      [resolucion], against which [resolver_titular] is proved a
      refinement.
    - [Controller]: start-up ([__init__], [init_ui], the widgets' initial
      values, the window icon found by [resource_path] (13-21), and
      [DocumentGenerator()] itself as [arranque]), [load_excel_file]
      (209-224) as a state transformer, and the widget events as one step
      function [paso] on the application state [App]; the reachable states
      as the inductive [desde] from start-up.

    How the parts interact: at start-up the workbook is loaded into [App];
    each widget event then runs one handler.  Typing and choosing a code
    recompute the label with [calculate_copago]; "Generar recibí" runs
    [generate_document], which calls [validate_input], [is_minor] and
    [get_person_data] on the loaded frame, asks for the holder of a minor,
    applies the co-payment and saves the document.  The catalogue is read by
    validation, by the label and by the context.

    The theorems, by group:
    - the handler (Generate): a document is saved only for a minor (the
      adult path always raises [KeyError('menor_nombre')]), with the
      co-pay adjusted amount in the context; the exact run of a minor's
      receipt and its file name; the keys and values of every saved
      template context; the holder protocol and its failures; validation
      failures and a blank SIRIA number; no file at all when the template,
      rendering or an early save fails, a truncated file left by a save
      that fails after opening it, and the error shown after a saved
      document when opening it fails; the amount buttons.  They rest on
      a small Hoare-style logic of the handler monad ([extends],
      [bind_inv]) and on inversion lemmas of each branch;
    - the holder protocol (Titular): [resolver_titular] refines the
      specification's protocol whenever the sheet's holder cell is not an
      empty text, and for the empty text the answer to the question is
      ignored;
    - the running program (Controller): the form invariant in every
      reachable state (the label always computed for the selected code,
      from an amount that may be stale), what happens when the file
      dialog is cancelled or the workbook loads only partly, and that run
      as a script the program needs the icon in its working directory;
    - validation (Validate): the exact acceptance condition, the maximum
      accepted and one cent over rejected for every bounded code, and what
      the guard lets through (NaN, negative amounts, unbounded codes);
    - co-payment (Copago): exact on every whole-euro amount a co-pay code
      accepts, for the receipt and for the label, and within half a cent
      in general;
    - catalogue (Catalog): the consistency of the three tables;
    - people (Frame, Beneficiary): the identifier round trip of
      [astype(str)], [is_minor] against the reference definition of
      minority by the 18th anniversary, the
      totality of [calculate_age], and the exclusivity of the protection
      markers;
    - dates (Dates): the ["%Y.%m.%d"] stamp of the file name is ten
      characters and reads back to the date by splitting at the dots.

    Bounds and fuel: string functions recurse structurally; the float
    parser recurses on the character list; [float(s)] shortcuts decimal
    exponents whose value is outside [10^-400, 10^400] straight to zero or
    infinity (every binary64 is within those bounds, so the rounded result is
    the same).  The only fuel is that of dateutil's adjustment loop,
    [rd_fuel = 1]: [Dates.rd_loop_backward] and [Dates.rd_loop_forward]
    show the loop body runs at most once on valid dates.  The exhaustive
    checks run by [vm_compute] cover every amount a co-pay code accepts
    (their maxima are at most 400 euros, [Copago.maximo_copago]), and
    every four-digit year and every month or day number for the stamp
    ([Dates.anyos_ok], [Dates.dos_cifras_ok]).

    Not modelled: the widgets' layout (grid, pack, sizes and label
    texts, which decide nothing the program does); the file dialog and
    [pd.read_excel] (their results are inputs); the holder prompt's
    widgets (its answer is an input, [Generate.prompt_for_titular]
    returns it); whether Tk can read an icon file (an input predicate of
    [Controller.arranque]); Windows' [os.path.join] beyond a plain file
    name joined to the absolute directories [abspath] and [_MEIPASS]
    produce ([Controller.ntpath_join]); dateutil's parser of date strings
    (a Section variable); the docx rendering and [os.startfile] (events of
    the trace); and the debug [print]s.  The handler reads the clock once,
    where the source calls [datetime.now()] three times (lines 241, 522
    and 539); no theorem relates the dates these calls give. *)

From Stdlib Require Import String List ZArith Bool Lia.
Import ListNotations.

Declare Scope py_scope.
Delimit Scope py_scope with py.
Open Scope string_scope.

(** ** Python dictionaries

    A [dict] whose keys are strings, as the source uses them: the
    order of insertion is kept (it is observable through [keys()]), a
    key appears once, assignment replaces the value in place. *)

Definition pydict (V : Type) := list (string * V).

Section PyDict.
Context {V : Type}.

(** [k in d] / [d.get(k)] *)
Fixpoint py_get (d : pydict V) (k : string) : option V :=
  match d with
  | [] => None
  | (k', v) :: d' => if String.eqb k k' then Some v else py_get d' k
  end.

Definition py_in (d : pydict V) (k : string) : bool :=
  match py_get d k with Some _ => true | None => false end.

(** [d[k] = v] *)
Fixpoint py_set (d : pydict V) (k : string) (v : V) : pydict V :=
  match d with
  | [] => [(k, v)]
  | (k', v') :: d' =>
      if String.eqb k k' then (k', v) :: d' else (k', v') :: py_set d' k v
  end.

(** [d.update(e)] *)
Definition py_update (d e : pydict V) : pydict V :=
  fold_left (fun acc kv => py_set acc (fst kv) (snd kv)) e d.

Definition py_keys (d : pydict V) : list string := map fst d.
End PyDict.

Notation "d .[ k ]" := (py_get d k) (at level 1, left associativity) : py_scope.
Notation "d .[ k := v ]" := (py_set d k v) (at level 1, left associativity) : py_scope.
Open Scope py_scope.

(** ** Shared tactics *)

(** Turn the boolean tests of the source into propositions. *)
Ltac bool_to_prop :=
  repeat match goal with
  | H : String.eqb _ _ = true |- _ => apply String.eqb_eq in H; subst
  | H : String.eqb _ _ = false |- _ => apply String.eqb_neq in H
  | H : Z.ltb _ _ = true |- _ => apply Z.ltb_lt in H
  | H : Z.ltb _ _ = false |- _ => apply Z.ltb_ge in H
  | H : Z.leb _ _ = true |- _ => apply Z.leb_le in H
  | H : Z.leb _ _ = false |- _ => apply Z.leb_gt in H
  | H : Z.eqb _ _ = true |- _ => apply Z.eqb_eq in H
  | H : Z.eqb _ _ = false |- _ => apply Z.eqb_neq in H
  | H : andb _ _ = true |- _ => apply andb_true_iff in H as [? ?]
  | H : orb _ _ = false |- _ => apply orb_false_iff in H as [? ?]
  end.

(** Case on the string comparisons a goal or hypothesis mentions. *)
Ltac case_streq :=
  repeat match goal with
  | |- context [String.eqb ?a ?b] =>
      let E := fresh "E" in destruct (String.eqb a b) eqn:E; bool_to_prop
  end.

(** [lia] after recording, for every [x / c] and [x mod c] of the goal and
    hypotheses, the division facts [x = c * (x / c) + x mod c] and
    [0 <= x mod c < c]. *)
Ltac divmod_facts :=
  repeat match goal with
  | |- context [Z.div ?x ?c] =>
      lazymatch goal with
      | _ : (x = c * (x / c) + x mod c)%Z |- _ => fail
      | _ => pose proof (Z.div_mod x c ltac:(lia)); pose proof (Z.mod_pos_bound x c ltac:(lia))
      end
  | _ : context [Z.div ?x ?c] |- _ =>
      lazymatch goal with
      | _ : (x = c * (x / c) + x mod c)%Z |- _ => fail
      | _ => pose proof (Z.div_mod x c ltac:(lia)); pose proof (Z.mod_pos_bound x c ltac:(lia))
      end
  | |- context [Z.modulo ?x ?c] =>
      lazymatch goal with
      | _ : (x = c * (x / c) + x mod c)%Z |- _ => fail
      | _ => pose proof (Z.div_mod x c ltac:(lia)); pose proof (Z.mod_pos_bound x c ltac:(lia))
      end
  end.

Ltac zlia := divmod_facts; lia.

Create HintDb pyglue.
Create Rewrite HintDb pyrw.

(** ** Lemmas on dictionaries *)

Section PyDictLemmas.
Context {V : Type}.
Implicit Types (d : pydict V) (k : string) (v : V).

Lemma py_get_set_eq d k v : (py_set d k v).[k] = Some v.
Proof.
  induction d as [|[k' v'] d IH]; simpl; rewrite ?String.eqb_refl; auto.
  destruct (String.eqb k k') eqn:E; simpl; rewrite ?E; bool_to_prop;
    rewrite ?String.eqb_refl; auto.
Qed.

Lemma py_get_set_ne d k k' v : k <> k' -> (py_set d k v).[k'] = d.[k'].
Proof.
  intros Hne. induction d as [|[k0 v0] d IH]; simpl.
  - apply String.eqb_neq in Hne. rewrite String.eqb_sym, Hne. reflexivity.
  - destruct (String.eqb k k0) eqn:E; simpl; bool_to_prop.
    + apply String.eqb_neq in Hne. rewrite String.eqb_sym, Hne. reflexivity.
    + destruct (String.eqb k' k0); auto.
Qed.

Lemma py_get_set d k k' v :
  (py_set d k v).[k'] = if String.eqb k' k then Some v else d.[k'].
Proof.
  destruct (String.eqb k' k) eqn:E; bool_to_prop.
  - apply py_get_set_eq.
  - apply py_get_set_ne. congruence.
Qed.

Lemma py_keys_set d k v :
  py_keys (py_set d k v) =
    if py_in d k then py_keys d else (py_keys d ++ [k])%list.
Proof.
  unfold py_in. induction d as [|[k0 v0] d IH]; simpl; auto.
  destruct (String.eqb k k0) eqn:E; simpl; auto.
  rewrite IH. destruct (py_get d k); reflexivity.
Qed.

Lemma py_set_nodup d k v :
  NoDup (py_keys d) -> NoDup (py_keys (py_set d k v)).
Proof.
  intros H. rewrite py_keys_set. unfold py_in.
  destruct (py_get d k) eqn:E; auto.
  apply NoDup_app; auto using NoDup_cons, NoDup_nil.
  intros x Hx [<- | []].
  induction d as [|[k0 v0] d IH]; simpl in *; [contradiction|].
  destruct (String.eqb k k0) eqn:E'; [discriminate|bool_to_prop].
  inversion H; subst. destruct Hx as [-> | Hx]; [congruence|auto].
Qed.

Lemma py_get_In d k v : d.[k] = Some v -> In (k, v) d.
Proof.
  induction d as [|[k0 v0] d IH]; simpl; [discriminate|].
  destruct (String.eqb k k0) eqn:E; bool_to_prop; [injection 1 as ->|]; auto.
Qed.

Lemma py_get_None d k : ~ In k (py_keys d) -> d.[k] = None.
Proof.
  induction d as [|[k0 v0] d IH]; simpl; intros H; auto.
  destruct (String.eqb k k0) eqn:E; bool_to_prop; [tauto|auto].
Qed.

(** A key set by [d.update(e)] takes the value [e] has for it. *)
Lemma py_get_update d e k :
  NoDup (py_keys e) ->
  (py_update d e).[k] = match e.[k] with Some v => Some v | None => d.[k] end.
Proof.
  unfold py_update. revert d.
  induction e as [|[k0 v0] e IH]; intros d Hnd; simpl; auto.
  inversion Hnd as [|? ? Hnin Hnd']; subst.
  rewrite IH, py_get_set by exact Hnd'.
  destruct (String.eqb k k0) eqn:E; bool_to_prop; auto.
  rewrite py_get_None; auto.
Qed.

Lemma py_update_nodup d e :
  NoDup (py_keys d) -> NoDup (py_keys (py_update d e)).
Proof.
  unfold py_update. revert d.
  induction e as [|kv e IH]; intros d H; simpl; auto using py_set_nodup.
Qed.
(** A key of the dictionary has a value. *)
Lemma py_get_Some_keys d k : In k (py_keys d) -> exists v, d.[k] = Some v.
Proof.
  induction d as [|[k0 v0] d IH]; simpl; [tauto|]. intros H.
  destruct (String.eqb k k0) eqn:E; [eauto|]. bool_to_prop.
  destruct H as [->|H]; [congruence | auto].
Qed.

Lemma py_keys_set_In d k v k' : In k' (py_keys (py_set d k v)) <-> k' = k \/ In k' (py_keys d).
Proof.
  rewrite py_keys_set. unfold py_in. destruct (d.[k]) as [v0|] eqn:Hk.
  - apply py_get_In in Hk. apply (in_map fst) in Hk. simpl in Hk.
    split; [auto|]. intros [->|H]; auto.
  - rewrite in_app_iff. simpl. intuition.
Qed.

Lemma py_keys_update_In d e k : In k (py_keys (py_update d e)) <-> In k (py_keys d) \/ In k (py_keys e).
Proof.
  unfold py_update. revert d.
  induction e as [|[k0 v0] e IH] using rev_ind; intros d; [cbn [fold_left py_keys map In]; tauto|].
  rewrite fold_left_app. simpl. rewrite py_keys_set_In, IH.
  unfold py_keys. rewrite map_app, in_app_iff. simpl. intuition (subst; auto).
Qed.

End PyDictLemmas.

#[export] Hint Rewrite @py_get_set_eq : pyrw.
#[export] Hint Resolve py_set_nodup py_update_nodup : pyglue.

(** ** Lemmas on lists and booleans *)

(** Duplicate-free lists of strings, decided. *)
(** [f] holds on the [n] integers from [z].  The exhaustive checks of the
    development are stated with it: the counter is a [Z], so that checking
    them does not convert unary numbers. *)
Fixpoint forall_from (f : Z -> bool) (z : Z) (n : nat) : bool :=
  match n with
  | O => true
  | S n' => f z && forall_from f (Z.succ z) n'
  end.

Fixpoint nodupb (l : list string) : bool :=
  match l with
  | [] => true
  | x :: l' => negb (existsb (String.eqb x) l') && nodupb l'
  end.

Lemma nodupb_NoDup l : nodupb l = true -> NoDup l.
Proof.
  induction l as [|x l IH]; simpl; intros H; [constructor|].
  apply andb_true_iff in H as [H1 H2]. constructor; auto.
  intros Hin. apply negb_true_iff in H1.
  assert (existsb (String.eqb x) l = true) by (apply existsb_exists; exists x; rewrite String.eqb_refl; auto).
  congruence.
Qed.

Lemma existsb_eqb_In x l : existsb (String.eqb x) l = true <-> In x l.
Proof.
  rewrite existsb_exists. split.
  - intros [y [Hy E]]. apply String.eqb_eq in E. subst. auto.
  - intros H. exists x. rewrite String.eqb_refl. auto.
Qed.

Lemma forallb_In_true {A} (f : A -> bool) (l : list A) x :
  forallb f l = true -> In x l -> f x = true.
Proof. rewrite forallb_forall. auto. Qed.

(** A boolean check run over [0 .. N-1] holds at every integer of that
    range: the bridge from an exhaustive computation to a statement. *)
Lemma forall_from_spec (f : Z -> bool) (z : Z) (n : nat) (k : Z) :
  forall_from f z n = true -> (z <= k < z + Z.of_nat n)%Z -> f k = true.
Proof.
  revert z. induction n as [|n IH]; simpl; intros z H Hk; [lia|].
  apply andb_true_iff in H as [H1 H2].
  destruct (Z.eq_dec k z) as [->|Hne]; [exact H1|].
  apply (IH (Z.succ z)); [exact H2 | lia].
Qed.

Lemma NoDup_app_disjoint {A} (l1 l2 : list A) x :
  NoDup (l1 ++ l2) -> In x l1 -> ~ In x l2.
Proof.
  induction l1 as [|y l1 IH]; simpl; [tauto|].
  intros Hnd [-> | Hin] Hin2; inversion Hnd as [|? ? Hnot Hnd']; subst.
  - apply Hnot, in_or_app. auto.
  - exact (IH Hnd' Hin Hin2).
Qed.

#[export] Hint Resolve forallb_In_true : pyglue.
