(* ===== verification/PyStr.v ===== *)
(** * Python [str] over UTF-8 encoded strings

    The source's strings (cells of the workbook, contents of the Tk entries,
    literals such as ["Manutención UC 1"]) are Python [str], sequences of
    code points.  They are modelled as Rocq [string]s holding their UTF-8
    encoding, and [chars] splits one into its code points, so that
    indexing, slicing and [upper] act on code points as in Python.  The
    methods the source calls are here: [strip()], [replace(old, new)],
    [s[:n]], [upper()], truth value, [str(int)], and the zero padding of
    [strftime]'s [%d]/[%m]. *)

From Stdlib Require Import String Ascii List ZArith Bool Lia.
From S2P Require Import Prelude.
Import ListNotations.
Open Scope string_scope.

(** ** Bytes and code points *)

Definition byte_of (a : ascii) : Z := Z.of_N (N_of_ascii a).

(** The string made of the given byte values. *)
Definition bytes (l : list nat) : string :=
  fold_right (fun n s => String (ascii_of_nat n) s) EmptyString l.

Definition is_continuation (a : ascii) : bool :=
  (128 <=? byte_of a)%Z && (byte_of a <? 192)%Z.

Definition starts_with_continuation (s : string) : bool :=
  match s with String a _ => is_continuation a | EmptyString => false end.

(** Split a UTF-8 string into its code points: a byte starts a new code
    point unless it is a continuation byte ([10xxxxxx]), which belongs to
    the code point before it. *)
Fixpoint chars (s : string) : list string :=
  match s with
  | EmptyString => []
  | String a s' =>
      match chars s' with
      | c :: cs => if starts_with_continuation c then String a c :: cs
                   else String a EmptyString :: c :: cs
      | [] => [String a EmptyString]
      end
  end.

Definition concat_str (l : list string) : string :=
  fold_right append EmptyString l.

(** ** [str.isspace()] and [str.strip()]

    The code points for which Python's [str.isspace()] holds: ASCII
    whitespace and the separators [\x1c]-[\x1f], NEL, NBSP and the Unicode
    space separators. *)
Definition python_whitespace : list string :=
  map bytes
    [[9]; [10]; [11]; [12]; [13]; [28]; [29]; [30]; [31]; [32];
     [194; 133]; [194; 160]; [225; 154; 128];
     [226; 128; 128]; [226; 128; 129]; [226; 128; 130]; [226; 128; 131];
     [226; 128; 132]; [226; 128; 133]; [226; 128; 134]; [226; 128; 135];
     [226; 128; 136]; [226; 128; 137]; [226; 128; 138];
     [226; 128; 168]; [226; 128; 169]; [226; 128; 175]; [226; 129; 159];
     [227; 128; 128]].

Definition is_space (c : string) : bool :=
  existsb (String.eqb c) python_whitespace.

Fixpoint drop_while {A} (p : A -> bool) (l : list A) : list A :=
  match l with
  | [] => []
  | x :: l' => if p x then drop_while p l' else l
  end.

(** [s.strip()] *)
Definition py_strip (s : string) : string :=
  concat_str (rev (drop_while is_space (rev (drop_while is_space (chars s))))).

(** ** [str.replace(old, new)]

    Left to right, non-overlapping; an empty [old] inserts [new] before
    every code point and at the end. *)
Fixpoint list_prefixb (p l : list string) : bool :=
  match p, l with
  | [], _ => true
  | x :: p', y :: l' => String.eqb x y && list_prefixb p' l'
  | _ :: _, [] => false
  end.

Fixpoint replace_aux (old : list string) (new : string) (skip : nat)
    (l : list string) : list string :=
  match l with
  | [] => []
  | c :: l' =>
      match skip with
      | S k => replace_aux old new k l'
      | O => if list_prefixb old l
             then new :: replace_aux old new (pred (length old)) l'
             else c :: replace_aux old new O l'
      end
  end.

Definition py_replace (s old new : string) : string :=
  match chars old with
  | [] => new ++ concat_str (map (fun c => c ++ new) (chars s))
  | oc => concat_str (replace_aux oc new O (chars s))
  end.

(** ** Slicing, truth value, [upper()] *)

(** [s[:n]] *)
Definition py_take (n : nat) (s : string) : string := concat_str (firstn n (chars s)).

(** [bool(s)], [not s] *)
Definition py_truthy (s : string) : bool := negb (String.eqb s "").

(** [str.upper()] on one code point, for the scripts of the workbook's
    names: ASCII and Latin-1 (accented vowels, ñ, ç, ü, ...), with
    Python's special cases [ß -> SS], [ÿ -> Ÿ], [µ -> Μ].  Code points of
    other scripts are returned unchanged. *)
Definition upper_char (c : string) : string :=
  match c with
  | String a EmptyString =>
      let b := byte_of a in
      if ((97 <=? b) && (b <=? 122))%Z
      then String (ascii_of_N (Z.to_N (b - 32))) EmptyString else c
  | String a (String a2 EmptyString) =>
      let b1 := byte_of a in let b2 := byte_of a2 in
      if (b1 =? 195)%Z then
        if (b2 =? 159)%Z then "SS"
        else if (b2 =? 191)%Z then bytes [197; 184]
        else if ((160 <=? b2) && (b2 <=? 190) && negb (b2 =? 183))%Z
        then String a (String (ascii_of_N (Z.to_N (b2 - 32))) EmptyString)
        else c
      else if ((b1 =? 194) && (b2 =? 181))%Z then bytes [206; 156]
      else c
  | _ => c
  end.

Definition py_upper (s : string) : string := concat_str (map upper_char (chars s)).

(** ** [str(int)] and the zero padding of [strftime] *)

Definition digit_char (d : Z) : string := String (ascii_of_N (Z.to_N (48 + d))) EmptyString.

Fixpoint pos_digits (fuel : nat) (p : Z) (acc : string) : string :=
  match fuel with
  | O => acc
  | S f => let acc' := digit_char (p mod 10) ++ acc in
           if (p <? 10)%Z then acc' else pos_digits f (p / 10) acc'
  end.

(** [str(n)] for a Python [int]. *)
Definition py_str_int (z : Z) : string :=
  let s := pos_digits (S (Z.to_nat (Z.log2 (Z.abs z)))) (Z.abs z) "" in
  if (z <? 0)%Z then "-" ++ s else s.

(** [%02d]: at least two digits. *)
Definition pad2 (z : Z) : string :=
  if (z <? 10)%Z then "0" ++ py_str_int z else py_str_int z.

(** ** Lemmas *)

Lemma str_app_assoc (a b c : string) : a ++ (b ++ c) = (a ++ b) ++ c.
Proof. induction a as [|x a IH]; simpl; congruence. Qed.

Lemma str_length_app (a b : string) : String.length (a ++ b) = (String.length a + String.length b)%nat.
Proof. induction a as [|x a IH]; simpl; auto. Qed.

Lemma str_app_nil_r (a : string) : a ++ "" = a.
Proof. induction a as [|x a IH]; simpl; congruence. Qed.

Lemma concat_str_app l1 l2 : concat_str (l1 ++ l2) = concat_str l1 ++ concat_str l2.
Proof.
  induction l1 as [|x l1 IH]; simpl; auto.
  rewrite IH, str_app_assoc. reflexivity.
Qed.

(** Splitting into code points loses nothing. *)
Lemma concat_chars s : concat_str (chars s) = s.
Proof.
  induction s as [|a s IH]; simpl; auto.
  destruct (chars s) as [|c cs]; simpl in *; [subst; reflexivity|].
  destruct (starts_with_continuation c); simpl; rewrite IH; reflexivity.
Qed.

Lemma chars_nil s : chars s = [] <-> s = "".
Proof.
  split; [|intros ->; reflexivity].
  destruct s as [|a s]; simpl; auto.
  destruct (chars s) as [|c cs]; [discriminate|].
  destruct (starts_with_continuation c); discriminate.
Qed.

Lemma py_truthy_false s : py_truthy s = false <-> s = "".
Proof.
  unfold py_truthy. rewrite negb_false_iff, String.eqb_eq. tauto.
Qed.

Lemma digit_char_length d : String.length (digit_char d) = 1%nat.
Proof. reflexivity. Qed.

#[export] Hint Rewrite concat_chars concat_str_app : pyrw.
