(* ===== verification/PyFloat.v ===== *)
(** * Python [float]: IEEE binary64 through [SpecFloat]

    A Python [float] is an IEEE 754 binary64 number, rounded to nearest
    with ties to even.  The Standard Library's [SpecFloat] is an executable
    specification of that arithmetic (it is Flocq's [Binary] without NaN
    payloads); this file instantiates it at [prec = 53], [emax = 1024] and
    adds what the source uses of Python's [float] type:
    - [py_float s], the constructor [float(s)] on a [str]: surrounding
      whitespace, an optional sign, [inf]/[infinity]/[nan] in any case, or a
      decimal literal with optional [_] between digits, a fraction and an
      exponent; the result is correctly rounded, and [None] is the
      [ValueError] the source catches;
    - [py_float_gt_int], the mixed comparison [float > int] (exact, as
      CPython compares them);
    - [f_mul], [f_sub] for [*] and [-];
    - [py_format_2f] for [f"{x:.2f}"] (exact decimal value, rounded half to
      even, with the sign of negative zero kept). *)

From Stdlib Require Import String Ascii List ZArith Bool Lia SpecFloat.
From S2P Require Import Prelude PyStr.
Import ListNotations.
Open Scope string_scope.

Definition prec : Z := 53.
Definition emax : Z := 1024.

Abbreviation pyfloat := spec_float.

Definition f_mul : pyfloat -> pyfloat -> pyfloat := SFmul prec emax.
Definition f_sub : pyfloat -> pyfloat -> pyfloat := SFsub prec emax.

(** ** Exact decimal to binary64 *)

(** [n / d] rounded to nearest-even, with sign [neg]. *)
Definition round_ratio (neg : bool) (n d : Z) : pyfloat :=
  let '(m, e, l) := SFdiv_core_binary prec emax n 0 d 0 in
  binary_round_aux prec emax neg m e l.

(** The float nearest to [(-1)^neg * n * 10^e10], where [n] has at most
    [ndigits] decimal digits.  Values of exponent above [10^400] or below
    [10^-400] are beyond every finite binary64 and its rounding threshold:
    they give infinity and zero directly. *)
Definition float_of_decimal (neg : bool) (n e10 ndigits : Z) : pyfloat :=
  if (n =? 0)%Z then S754_zero neg
  else if (400 <=? e10)%Z then S754_infinity neg
  else if (ndigits + e10 <? -400)%Z then S754_zero neg
  else if (0 <=? e10)%Z
  then binary_normalize prec emax (if neg then - (n * 10 ^ e10) else n * 10 ^ e10)%Z 0 false
  else round_ratio neg n (10 ^ (- e10)).

(** ** The grammar of [float(s)] *)

Definition digit_of (c : string) : option Z :=
  match c with
  | String a EmptyString =>
      let b := byte_of a in
      if ((48 <=? b) && (b <=? 57))%Z then Some (b - 48)%Z else None
  | _ => None
  end.

(** [digitpart ::= digit (["_"] digit)*]: the digits read and the rest. *)
Fixpoint digitpart_rest (l : list string) (acc : list Z) : list Z * list string :=
  match l with
  | c :: l' =>
      match digit_of c with
      | Some d => digitpart_rest l' (d :: acc)
      | None =>
          if String.eqb c "_" then
            match l' with
            | c2 :: l'' =>
                match digit_of c2 with
                | Some d => digitpart_rest l'' (d :: acc)
                | None => (rev acc, l)
                end
            | [] => (rev acc, l)
            end
          else (rev acc, l)
      end
  | [] => (rev acc, [])
  end.

Definition digitpart (l : list string) : option (list Z * list string) :=
  match l with
  | c :: l' =>
      match digit_of c with
      | Some d => Some (digitpart_rest l' [d])
      | None => None
      end
  | [] => None
  end.

Definition digits_value (ds : list Z) : Z := fold_left (fun acc d => acc * 10 + d)%Z ds 0%Z.

(** [number ::= [digitpart] "." digitpart | digitpart ["."]]:
    integer digits, fraction digits and the rest. *)
Definition parse_number (l : list string) : option (list Z * list Z * list string) :=
  match digitpart l with
  | Some (ip, r) =>
      match r with
      | c :: r' =>
          if String.eqb c "." then
            match digitpart r' with
            | Some (fp, r'') => Some (ip, fp, r'')
            | None => Some (ip, [], r')
            end
          else Some (ip, [], r)
      | [] => Some (ip, [], r)
      end
  | None =>
      match l with
      | c :: r' =>
          if String.eqb c "." then
            match digitpart r' with
            | Some (fp, r'') => Some ([], fp, r'')
            | None => None
            end
          else None
      | [] => None
      end
  end.

(** A sign: [true] for ["-"]. *)
Definition parse_sign (l : list string) : bool * list string :=
  match l with
  | c :: l' => if String.eqb c "-" then (true, l')
               else if String.eqb c "+" then (false, l') else (false, l)
  | [] => (false, [])
  end.

(** [exponent ::= ("e" | "E") ["+" | "-"] digitpart], then the end. *)
Definition parse_exponent (l : list string) : option Z :=
  match l with
  | [] => Some 0%Z
  | c :: l' =>
      if String.eqb c "e" || String.eqb c "E" then
        let '(eneg, l'') := parse_sign l' in
        match digitpart l'' with
        | Some (ds, []) => Some (if eneg then - digits_value ds else digits_value ds)%Z
        | _ => None
        end
      else None
  end.

Definition lower_ascii (c : string) : string :=
  match c with
  | String a EmptyString =>
      let b := byte_of a in
      if ((65 <=? b) && (b <=? 90))%Z then String (ascii_of_N (Z.to_N (b + 32))) EmptyString
      else c
  | _ => c
  end.

(** [float(s)]; [None] is the [ValueError]. *)
Definition py_float (s : string) : option pyfloat :=
  let '(neg, l) := parse_sign (chars (py_strip s)) in
  let word := concat_str (map lower_ascii l) in
  if String.eqb word "inf" || String.eqb word "infinity" then Some (S754_infinity neg)
  else if String.eqb word "nan" then Some S754_nan
  else
    match parse_number l with
    | Some (ip, fp, r) =>
        match parse_exponent r with
        | Some e =>
            Some (float_of_decimal neg (digits_value (ip ++ fp))
                    (e - Z.of_nat (length fp)) (Z.of_nat (length (ip ++ fp))))
        | None => None
        end
    | None => None
    end.

(** ** Comparison with an [int] *)

(** The exact value of a finite float as a fraction [num / 2^k]. *)
Definition signed_mantissa (s : bool) (m : positive) : Z := if s then Zneg m else Zpos m.

(** [x > n] for a float [x] and an int [n]. *)
Definition py_float_gt_int (x : pyfloat) (n : Z) : bool :=
  match x with
  | S754_nan => false
  | S754_infinity s => negb s
  | S754_zero _ => (n <? 0)%Z
  | S754_finite s m e =>
      if (0 <=? e)%Z then (n <? signed_mantissa s m * 2 ^ e)%Z
      else (n * 2 ^ (- e) <? signed_mantissa s m)%Z
  end.

(** ** [f"{x:.2f}"] *)

(** [a / b] rounded to the nearest integer, ties to even ([0 <= a], [0 < b]). *)
Definition div_half_even (a b : Z) : Z :=
  let q := (a / b)%Z in
  match Z.compare (2 * (a mod b)) b with
  | Lt => q
  | Gt => q + 1
  | Eq => if Z.even q then q else q + 1
  end%Z.

(** The magnitude of a finite float in hundredths, rounded half to even. *)
Definition cents_of (m : positive) (e : Z) : Z :=
  if (0 <=? e)%Z then (Zpos m * 100 * 2 ^ e)%Z
  else div_half_even (Zpos m * 100) (2 ^ (- e)).

Definition show_cents (neg : bool) (c : Z) : string :=
  (if neg then "-" else "") ++ py_str_int (c / 100) ++ "." ++ pad2 (c mod 100).

Definition py_format_2f (x : pyfloat) : string :=
  match x with
  | S754_nan => "nan"
  | S754_infinity s => if s then "-inf" else "inf"
  | S754_zero s => show_cents s 0
  | S754_finite s m e => show_cents s (cents_of m e)
  end.
