(* ===== verification/Catalog.v ===== *)
(** * The aid catalog: [setup_constants]

    [setup_constants] (lines 38-207) fills four attributes of the
    [DocumentGenerator]: the age of majority [EDAD_MAYORIA], the widget
    width, and three dictionaries keyed by aid code: the description shown
    on the form and the receipt, the predefined amount, and the maximum the
    validation enforces.  They are modelled as the record [Constants] built
    by [setup_constants], with the dictionary literals copied in source
    order (their order is the order of the code combobox).

    The contract the rest of the program relies on (spec 4.1: describe a
    code, its default amount, its maximum) is the class [AidCatalog] with
    its laws [AidCatalogLaws]; [Constants] implements it, and the laws are
    discharged on the source's tables by computation. *)

From Stdlib Require Import String List ZArith Bool Lia.
From S2P Require Import Prelude PyStr.
Import ListNotations.
Open Scope string_scope.
Open Scope Z_scope.

(** ** The constants of [DocumentGenerator] *)

Record Constants := {
  WIDGET_WIDTH : Z;
  EDAD_MAYORIA : Z;
  codigos_ayuda_descripcion : pydict string;
  cuantias_predefinidas : pydict Z;
  maximos_ayuda : pydict Z
}.

(** [self.codigos_ayuda_descripcion] *)
Definition tabla_descripciones : pydict string := [
     ("1FGBI", "Gastos de bolsillo");
     ("1FGBM", "Gastos de bolsillo menores 18 años");
     ("1FMI", "Manutención UC 1");
     ("1FMUC2", "Manutención UC 2");
     ("1FMUC3", "Manutención UC 3");
     ("1FMUC4", "Manutención UC 4");
     ("1FMUC5", "Manutención UC 5");
     ("1FMUC6", "Manutención UC 6");
     ("1FMUC7", "Manutención UC 7");
     ("1FMUC8", "Manutención UC 8");
     ("1FMUC9", "Manutención UC 9 o más");
     ("ATNH", "Nacimiento hijos/as");
     ("ATSANMED", "Medicamentos");
     ("ATSANGA", "Gafas");
     ("ATSANMO", "Material ortoprotésico");
     ("ATSANTDE", "Tratamientos dentales");
     ("ATSANPR", "Prótesis dentales removibles");
     ("ATVES", "Adquisición vestuario");
     ("ATTPINCO", "Transporte Incorporación dispositivo");
     ("ATTPTIN", "Transporte Intraprovincial");
     ("ATTPTEXT", "Transporte Intraprovincial");
     ("ATTPTEXA", "Transporte Intraprovincial");
     ("ATTPTEXM", "Transporte Intraprovincial");
     ("ATEDUGUME", "Guardería Mensualidad");
     ("ATEDUGUMA", "Guardería Matrícula");
     ("ATEDURMA", "Educación reglada Matrícula");
     ("ATEDURMATE", "Educación reglada Material escolar");
     ("ATEDURUNI", "Educación reglada Uniformes escolares");
     ("ATEDURCOM", "Educación reglada Comedor escolar");
     ("ATEDUREXTR", "Educación reglada Actividades extraescolares");
     ("ATEDURTPT", "Educación reglada Transporte escolar");
     ("ATEDURSEO", "Educación reglada Seguro escolar obligatorio");
     ("ATEDURAMPA", "Educación reglada AMPA");
     ("ATCONMM", "Contextualiz y habilidades sociales Matrícula y/o mensualidades");
     ("ATCONMAT", "Contextualiz y habilidades sociales Material didáctico");
     ("ATOCCAMP", "Campamentos de verano infantil y juvenil");
     ("ATDOCU", "Obtención de documentos");
     ("ATREADOCU", "Reagrupación familiar Obtención de documentos");
     ("ATREALLEG", "Reagrupación familiar Viajes, traslados, estancias para llegar a España");
     ("ATREAESTA", "Reagrupación familiar Viajes, traslados, estancias en España");
     ("ATEMPEDUGUME", "Empleo Facilitar formación Mensualidad guardería");
     ("ATEMPEDUGUMA", "Empleo Facilitar formación Matrícula de guardería");
     ("ATEMPEDUCOM", "Empleo Facilitar formación Comedor escolar");
     ("ATPREMAME", "Empleo Preformación Matrícula y/o mensualidades");
     ("ATPREMAT", "Empleo Preformación Material didáctico");
     ("ATFORMAME", "Empleo Formación ocupacional Matrícula y/o mensualidades");
     ("ATFORMAT", "Empleo Formación ocupacional Material didáctico para la formación");
     ("ATTPT", "Empleo Transporte asistencia cursos o búsqueda empleo");
     ("ATEHT", "Empleo Obtención documentos (expedición, homologación, tramitación…)");
     ("2FNB1", "Necesidades básicas UC1");
     ("2FNB2", "Necesidades básicas UC2");
     ("2FNB3", "Necesidades básicas UC3");
     ("2FNB4", "Necesidades básicas UC4");
     ("2FNB5", "Necesidades básicas UC5");
     ("2FNB6", "Necesidades básicas UC6");
     ("2FNB7", "Necesidades básicas UC7");
     ("2FNB8", "Necesidades básicas UC8");
     ("2FNB9", "Necesidades básicas UC9 o más");
     ("2FAV1", "Alquiler UC1");
     ("2FAV2", "Alquiler UC2");
     ("2FAV3", "Alquiler UC3");
     ("2FAV4", "Alquiler UC4");
     ("2FAV5", "Alquiler UC5");
     ("2FAV6", "Alquiler UC6");
     ("2FAV7", "Alquiler UC7");
     ("2FAV8", "Alquiler UC8");
     ("2FAV9", "Alquiler UC9 o más")
  ].

(** [self.cuantias_predefinidas] *)
Definition tabla_cuantias : pydict Z := [
     ("1FGBI", 56);
     ("1FGBM", 22);
     ("1FMI", 226);
     ("1FMUC2", 338);
     ("1FMUC3", 362);
     ("1FMUC4", 386);
     ("1FMUC5", 454);
     ("1FMUC6", 504);
     ("1FMUC7", 555);
     ("1FMUC8", 604);
     ("1FMUC9", 654);
     ("ATNH", 201);
     ("ATSANGA", 200);
     ("ATVES", 100);
     ("ATSANTDE", 400);
     ("ATEDURMATE", 279);
     ("ATEDUREXTR", 33);
     ("ATCONMM", 600);
     ("ATCONMAT", 100);
     ("ATOCCAMP", 223);
     ("ATPREMAME", 1364);
     ("ATPREMAT", 250);
     ("ATFORMAME", 1364);
     ("ATFORMAT", 250);
     ("2FNB1", 466);
     ("2FNB2", 692);
     ("2FNB3", 758);
     ("2FNB4", 825);
     ("2FNB5", 891);
     ("2FNB6", 958);
     ("2FNB7", 1024);
     ("2FNB8", 1091);
     ("2FNB9", 1157);
     ("2FAV1", 445);
     ("2FAV2", 578);
     ("2FAV3", 668);
     ("2FAV4", 758);
     ("2FAV5", 848);
     ("2FAV6", 848);
     ("2FAV7", 848);
     ("2FAV8", 923);
     ("2FAV9", 923)
  ].

(** [self.maximos_ayuda] *)
Definition tabla_maximos : pydict Z := [
     ("1FGBI", 56);
     ("1FGBM", 22);
     ("1FMI", 226);
     ("1FMUC2", 338);
     ("1FMUC3", 362);
     ("1FMUC4", 386);
     ("1FMUC5", 454);
     ("1FMUC6", 504);
     ("1FMUC7", 555);
     ("1FMUC8", 604);
     ("1FMUC9", 654);
     ("ATNH", 201);
     ("ATSANGA", 200);
     ("ATVES", 100);
     ("ATSANTDE", 400);
     ("ATEDURMATE", 279);
     ("ATEDUREXTR", 33);
     ("ATCONMM", 600);
     ("ATCONMAT", 100);
     ("ATOCCAMP", 223);
     ("ATPREMAME", 1364);
     ("ATPREMAT", 250);
     ("ATFORMAME", 1364);
     ("ATFORMAT", 250);
     ("2FNB1", 466);
     ("2FNB2", 692);
     ("2FNB3", 758);
     ("2FNB4", 825);
     ("2FNB5", 891);
     ("2FNB6", 958);
     ("2FNB7", 1024);
     ("2FNB8", 1091);
     ("2FNB9", 1157);
     ("2FAV1", 445);
     ("2FAV2", 578);
     ("2FAV3", 668);
     ("2FAV4", 758);
     ("2FAV5", 848);
     ("2FAV6", 848);
     ("2FAV7", 848);
     ("2FAV8", 923);
     ("2FAV9", 923)
  ].

Definition setup_constants : Constants := {|
  WIDGET_WIDTH := 40;
  EDAD_MAYORIA := 18;
  codigos_ayuda_descripcion := tabla_descripciones;
  cuantias_predefinidas := tabla_cuantias;
  maximos_ayuda := tabla_maximos
|}.

(** The code the combobox shows first ([current(0)]): the first key. *)
Definition codigo_por_defecto (k : Constants) : option string :=
  hd_error (py_keys (codigos_ayuda_descripcion k)).

(** The codes for which [generate_document] and [calculate_copago] deduct
    the co-payment ([codigo_ayuda in ["ATSANGA", "ATSANTDE"]]). *)
Definition codigos_copago : list string := ["ATSANGA"; "ATSANTDE"].

Definition requiere_copago (codigo : string) : bool :=
  existsb (String.eqb codigo) codigos_copago.

(** ** The contract of the catalog (spec 4.1) *)

Class AidCatalog := {
  describe : string -> option string;
  default_amount : string -> option Z;
  max_amount : string -> option Z
}.

(** What validation, the "Máximo" button and the co-payment rely on: every
    code with an amount is described, a default never exceeds the maximum,
    maxima are positive integers small enough to be exact in binary64, and
    the co-pay codes have a maximum. *)
Class AidCatalogLaws (C : AidCatalog) : Prop := {
  max_described : forall c m, max_amount c = Some m -> describe c <> None;
  default_within_max : forall c d, default_amount c = Some d ->
    describe c <> None /\ exists m, max_amount c = Some m /\ 0 <= d <= m;
  max_range : forall c m, max_amount c = Some m -> 0 < m < 2 ^ 53;
  copago_bounded : forall c, requiere_copago c = true -> exists m, max_amount c = Some m
}.

(** The dictionaries of a [Constants] read as the contract. *)
Definition catalog_of (k : Constants) : AidCatalog := {|
  describe := py_get (codigos_ayuda_descripcion k);
  default_amount := py_get (cuantias_predefinidas k);
  max_amount := py_get (maximos_ayuda k)
|}.

#[export] Instance source_catalog : AidCatalog := catalog_of setup_constants.

(** Well-formed constants: the laws, and no code written twice in a
    dictionary literal (Python would keep the last one silently). *)
Record constants_wf (k : Constants) : Prop := {
  wf_desc_nodup : NoDup (py_keys (codigos_ayuda_descripcion k));
  wf_cuant_nodup : NoDup (py_keys (cuantias_predefinidas k));
  wf_max_nodup : NoDup (py_keys (maximos_ayuda k));
  wf_laws : AidCatalogLaws (catalog_of k);
  wf_majority : EDAD_MAYORIA k = 18
}.

Definition max_entry_ok (k : Constants) (e : string * Z) : bool :=
  py_in (codigos_ayuda_descripcion k) (fst e) && (0 <? snd e) && (snd e <? 2 ^ 53).

Definition default_entry_ok (k : Constants) (e : string * Z) : bool :=
  py_in (codigos_ayuda_descripcion k) (fst e) &&
  match (maximos_ayuda k).[fst e] with
  | Some m => (0 <=? snd e) && (snd e <=? m)
  | None => false
  end.

Definition constants_checkb (k : Constants) : bool :=
  nodupb (py_keys (codigos_ayuda_descripcion k)) &&
  nodupb (py_keys (cuantias_predefinidas k)) &&
  nodupb (py_keys (maximos_ayuda k)) &&
  forallb (max_entry_ok k) (maximos_ayuda k) &&
  forallb (default_entry_ok k) (cuantias_predefinidas k) &&
  forallb (py_in (maximos_ayuda k)) codigos_copago &&
  (EDAD_MAYORIA k =? 18).

Lemma py_in_Some {V} (d : pydict V) c : py_in d c = true <-> d.[c] <> None.
Proof. unfold py_in. destruct (d.[c]); split; congruence. Qed.

Lemma constants_checkb_sound k : constants_checkb k = true -> constants_wf k.
Proof.
  unfold constants_checkb. intros H. bool_to_prop.
  rewrite forallb_forall in *.
  constructor; auto using nodupb_NoDup. constructor; simpl.
  - intros c m Hm. apply py_get_In in Hm.
    match goal with Hf : forall x, In x (maximos_ayuda k) -> _ |- _ =>
      specialize (Hf _ Hm); unfold max_entry_ok in Hf; simpl in Hf; bool_to_prop end.
    apply py_in_Some. assumption.
  - intros c d Hd. apply py_get_In in Hd.
    match goal with Hf : forall x, In x (cuantias_predefinidas k) -> _ |- _ =>
      specialize (Hf _ Hd); unfold default_entry_ok in Hf; simpl in Hf; bool_to_prop end.
    split; [apply py_in_Some; assumption|].
    destruct ((maximos_ayuda k).[c]) as [m|]; [|discriminate]. bool_to_prop. eauto.
  - intros c m Hm. apply py_get_In in Hm.
    match goal with Hf : forall x, In x (maximos_ayuda k) -> _ |- _ =>
      specialize (Hf _ Hm); unfold max_entry_ok in Hf; simpl in Hf; bool_to_prop end.
    lia.
  - intros c Hc. unfold requiere_copago in Hc. apply existsb_eqb_In in Hc.
    match goal with Hf : forall x, In x codigos_copago -> _ |- _ => specialize (Hf _ Hc) end.
    unfold py_in in *. destruct ((maximos_ayuda k).[c]); [eauto|discriminate].
Qed.

Lemma setup_constants_checked : constants_checkb setup_constants = true.
Proof. vm_compute. reflexivity. Qed.

(** The two amount dictionaries of the source are the same table. *)
Lemma cuantias_son_maximos : cuantias_predefinidas setup_constants = maximos_ayuda setup_constants.
Proof. vm_compute. reflexivity. Qed.

#[export] Instance source_catalog_laws : AidCatalogLaws source_catalog :=
  wf_laws _ (constants_checkb_sound _ setup_constants_checked).

(** C14: The constants [setup_constants] builds are well formed: no aid code
    is written twice in any of the three dictionary literals, every code
    with a predefined amount or a maximum has a description, every
    predefined amount lies between 0 and the code's maximum, maxima are
    positive and below [2^53], both co-pay codes have a maximum, and the
    age of majority is 18. *)
Theorem setup_constants_wf : constants_wf setup_constants.
Proof. apply constants_checkb_sound. vm_compute. reflexivity. Qed.

(** The first code of the combobox, selected when the form opens, is
    ["1FGBI"], and the predefined amount of every code equals its maximum:
    the two amount dictionaries of the source are the same table. *)
Example catalog_defaults :
  codigo_por_defecto setup_constants = Some "1FGBI" /\
  cuantias_predefinidas setup_constants = maximos_ayuda setup_constants.
Proof. split; [vm_compute; reflexivity | exact cuantias_son_maximos]. Qed.
