(* ===== verification/Copago.v ===== *)
(** * The co-payment

    Two places of the source compute the 15% co-payment of the codes
    ["ATSANGA"] and ["ATSANTDE"]:
    - the block of [generate_document] (lines 525-536) that writes the
      receipt's ['cuantia']: the amount typed, read with [float] after
      replacing [','] by ['.'], minus [cuantia * 0.15], printed with
      [:.2f]; the text typed unchanged for the other codes or when [float]
      raises [ValueError];
    - [calculate_copago] (lines 573-588), the label beside the amount: the
      co-payment itself for those codes, the code's description otherwise.
    Both are functions of the form's fields here.  The arithmetic is binary64
    ([PyFloat]), so the theorems below say how far the printed amount is
    from the decimal 85%. *)

From Stdlib Require Import String List ZArith Bool Lia SpecFloat.
From S2P Require Import Prelude PyStr PyFloat Catalog.
Import ListNotations.
Open Scope string_scope.

(** The literal [0.15] of the source, as the compiler rounds it. *)
Definition literal_0_15 : pyfloat := float_of_decimal false 15 (-2) 2.

(** [cuantia_final = cuantia - cuantia * 0.15] *)
Definition cuantia_final (cuantia : pyfloat) : pyfloat :=
  f_sub cuantia (f_mul cuantia literal_0_15).

(** The value [generate_document] stores in [context['cuantia']], from the
    selected code and the text of the amount entry. *)
Definition cuantia_contexto (codigo_ayuda entrada : string) : string :=
  if requiere_copago codigo_ayuda then
    match py_float (py_replace entrada "," ".") with
    | Some cuantia => py_format_2f (cuantia_final cuantia)
    | None => entrada
    end
  else entrada.

(** The text of [self.copago_label] after [calculate_copago]. *)
Definition calculate_copago (k : Constants) (codigo_ayuda entrada : string) : string :=
  if requiere_copago codigo_ayuda then
    match py_float (py_replace entrada "," ".") with
    | Some cuantia =>
        "Copago (15%): " ++ py_format_2f (f_mul cuantia literal_0_15) ++
        "€. Introduce total factura."
    | None => ""
    end
  else
    let descripcion := match (codigos_ayuda_descripcion k).[codigo_ayuda] with
                       | Some d => d | None => "" end in
    if py_truthy descripcion then descripcion else "".

(** ** Exhaustive checks behind the theorems *)

Definition euros_ok (n : Z) : bool :=
  String.eqb (cuantia_contexto "ATSANGA" (py_str_int n)) (show_cents false (85 * n)) &&
  String.eqb (calculate_copago setup_constants "ATSANGA" (py_str_int n))
    ("Copago (15%): " ++ show_cents false (15 * n) ++ "€. Introduce total factura.").

(** The printed amount is one of the two cents around [0.85 n] and at
    most half a cent away from it. *)
Definition half_cent_ok (n : Z) : bool :=
  let out := cuantia_contexto "ATSANGA" (show_cents false n) in
  let lo := (85 * n / 100)%Z in
  (String.eqb out (show_cents false lo) && (85 * n - 100 * lo <=? 50)%Z) ||
  (String.eqb out (show_cents false (lo + 1)) && (100 * (lo + 1) - 85 * n <=? 50)%Z).

(** ** Lemmas *)

Lemma requiere_copago_cases c :
  requiere_copago c = true -> c = "ATSANGA" \/ c = "ATSANTDE".
Proof.
  unfold requiere_copago, codigos_copago. simpl.
  case_streq; simpl; intros H; auto; discriminate.
Qed.

Lemma cuantia_contexto_sin_copago c e :
  requiere_copago c = false -> cuantia_contexto c e = e.
Proof. unfold cuantia_contexto. intros ->. reflexivity. Qed.

(** Both co-pay codes are treated alike. *)
Lemma cuantia_contexto_atsanga c e :
  requiere_copago c = true -> cuantia_contexto c e = cuantia_contexto "ATSANGA" e.
Proof. unfold cuantia_contexto. intros ->. reflexivity. Qed.

Lemma calculate_copago_atsanga k c e :
  requiere_copago c = true -> calculate_copago k c e = calculate_copago k "ATSANGA" e.
Proof. unfold calculate_copago. intros ->. reflexivity. Qed.

Lemma maximo_copago c m :
  requiere_copago c = true -> (maximos_ayuda setup_constants).[c] = Some m -> (m <= 400)%Z.
Proof.
  intros Hc Hm. destruct (requiere_copago_cases c Hc) as [-> | ->];
    vm_compute in Hm; injection Hm as <-; lia.
Qed.

Lemma euros_ok_all : forall_from euros_ok 0 401 = true.
Proof. vm_compute. reflexivity. Qed.

Lemma half_cent_ok_all : forall_from half_cent_ok 0 40001 = true.
Proof. vm_compute. reflexivity. Qed.

(** The exhaustive check covers every whole-euro amount a co-pay code
    accepts. *)
Lemma euros_ok_rango c m n :
  requiere_copago c = true -> (maximos_ayuda setup_constants).[c] = Some m ->
  (0 <= n <= m)%Z -> euros_ok n = true.
Proof.
  intros Hc Hm Hn. pose proof (maximo_copago c m Hc Hm).
  exact (forall_from_spec euros_ok 0 401 n euros_ok_all ltac:(change (Z.of_nat 401) with 401%Z; lia)).
Qed.

(** ** Theorems *)

(** C5: On every whole-euro amount a co-pay code accepts (from 0 up to the
    code's maximum), the receipt's amount is exactly 85% of it, printed
    with two decimals: the binary64 error of [cuantia - cuantia * 0.15]
    never shows. *)
Theorem copago_euros_exactos c m n :
  requiere_copago c = true ->
  (maximos_ayuda setup_constants).[c] = Some m ->
  (0 <= n <= m)%Z ->
  cuantia_contexto c (py_str_int n) = show_cents false (85 * n).
Proof.
  intros Hc Hm Hn. pose proof (euros_ok_rango c m n Hc Hm Hn) as Hchk.
  rewrite (cuantia_contexto_atsanga c _ Hc).
  unfold euros_ok in Hchk. bool_to_prop. assumption.
Qed.

(** C13: For every amount typed with two decimals up to 400.00 (the largest
    maximum of a co-pay code), the receipt's amount is one of the two
    cents around 85% of it, at most half a cent away. *)
Theorem copago_medio_centimo c n :
  requiere_copago c = true ->
  (0 <= n <= 40000)%Z ->
  exists r, cuantia_contexto c (show_cents false n) = show_cents false r /\
            (Z.abs (100 * r - 85 * n) <= 50)%Z.
Proof.
  intros Hc Hn. rewrite (cuantia_contexto_atsanga c _ Hc).
  pose proof (forall_from_spec half_cent_ok 0 40001 n half_cent_ok_all
                ltac:(change (Z.of_nat 40001) with 40001%Z; lia)) as Hchk.
  unfold half_cent_ok in Hchk. cbv zeta in Hchk.
  apply orb_true_iff in Hchk as [Hchk | Hchk];
    apply andb_true_iff in Hchk as [Heq Hle];
    apply String.eqb_eq in Heq; apply Z.leb_le in Hle;
    (eexists; split; [exact Heq|]);
    pose proof (Z.mul_div_le (85 * n) 100 ltac:(lia));
    pose proof (Z.mul_succ_div_gt (85 * n) 100 ltac:(lia)); lia.
Qed.

(** Half-cent ties are not rounded by a fixed rule: the binary value of
    [0.50 - 0.50 * 0.15] is below [0.425] and prints [0.42], that of
    [0.10 - 0.10 * 0.15] is above [0.085] and prints [0.09]. *)
Example copago_empates_en_ambos_sentidos :
  cuantia_contexto "ATSANGA" "0.50" = "0.42" /\
  cuantia_contexto "ATSANTDE" "0.10" = "0.09".
Proof. split; vm_compute; reflexivity. Qed.

(** C34: The label beside the amount shows 15% of every whole-euro amount a
    co-pay code accepts, exactly, with two decimals. *)
Theorem calculate_copago_euros c m n :
  requiere_copago c = true ->
  (maximos_ayuda setup_constants).[c] = Some m ->
  (0 <= n <= m)%Z ->
  calculate_copago setup_constants c (py_str_int n) =
    "Copago (15%): " ++ show_cents false (15 * n) ++ "€. Introduce total factura.".
Proof.
  intros Hc Hm Hn. pose proof (euros_ok_rango c m n Hc Hm Hn) as Hchk.
  rewrite (calculate_copago_atsanga _ c _ Hc).
  unfold euros_ok in Hchk. bool_to_prop. assumption.
Qed.

(** Witnesses: the spec's examples, 100.00 and 50.00. *)
Lemma copago_euros_exactos_witness :
  cuantia_contexto "ATSANGA" (py_str_int 100) = "85.00" /\
  cuantia_contexto "ATSANTDE" (py_str_int 50) = "42.50".
Proof.
  split.
  - exact (copago_euros_exactos "ATSANGA" 200 100 eq_refl eq_refl ltac:(lia)).
  - exact (copago_euros_exactos "ATSANTDE" 400 50 eq_refl eq_refl ltac:(lia)).
Defined.

Lemma copago_medio_centimo_witness :
  exists r, cuantia_contexto "ATSANGA" (show_cents false 10) = show_cents false r /\
            (Z.abs (100 * r - 85 * 10) <= 50)%Z.
Proof. exact (copago_medio_centimo "ATSANGA" 10 eq_refl ltac:(lia)). Defined.

Lemma calculate_copago_euros_witness :
  calculate_copago setup_constants "ATSANTDE" (py_str_int 400) =
    "Copago (15%): 60.00€. Introduce total factura.".
Proof. exact (calculate_copago_euros "ATSANTDE" 400 400 eq_refl eq_refl ltac:(lia)). Defined.
