(* ===== verification/Validate.v ===== *)
(** * Validation of the form: [validate_input]

    [validate_input] (lines 440-456) reads the three entries, replaces
    [','] by ['.'] in the amount, and answers [(is_valid, error_message)]:
    - an empty field gives the "introduce todos los datos" message;
    - an amount [float] rejects gives the "cuantía válida" message;
    - for a code of [maximos_ayuda], an amount [>] its maximum gives the
      message naming the code and the maximum;
    - otherwise [(True, "")].
    It changes no state.  The theorems show the acceptance condition at the
    maximum, one cent over it, and what the guard does not reject: NaN,
    negative amounts, and every parseable amount of a code without
    maximum. *)

From Stdlib Require Import String List ZArith Bool Lia SpecFloat.
From S2P Require Import Prelude PyStr PyFloat Catalog.
Import ListNotations.
Open Scope string_scope.

Definition msg_faltan_datos : string := "Por favor, introduce todos los datos necesarios.".
Definition msg_cuantia_invalida : string := "Por favor, introduce una cuantía válida en euros.".
Definition msg_supera_maximo (codigo : string) (maximo : Z) : string :=
  "La cuantía para la ayuda " ++ codigo ++ " no puede superar los " ++
  py_str_int maximo ++ " euros.".

(** [validate_input], on the texts of the SIRIA entry, the code combobox
    and the amount entry. *)
Definition validate_input (k : Constants) (numero_siria codigo_ayuda cuantia_entry : string)
    : bool * string :=
  let cuantia_str := py_replace cuantia_entry "," "." in
  if negb (forallb py_truthy [numero_siria; codigo_ayuda; cuantia_str])
  then (false, msg_faltan_datos)
  else
    match py_float cuantia_str with
    | None => (false, msg_cuantia_invalida)
    | Some cuantia =>
        match (maximos_ayuda k).[codigo_ayuda] with
        | Some maximo =>
            if py_float_gt_int cuantia maximo
            then (false, msg_supera_maximo codigo_ayuda maximo)
            else (true, "")
        | None => (true, "")
        end
    end.

(** The described codes that [maximos_ayuda] does not bound. *)
Definition codigos_sin_maximo (k : Constants) : list string :=
  filter (fun c => negb (py_in (maximos_ayuda k) c)) (py_keys (codigos_ayuda_descripcion k)).

(** A float that is not above zero: every finite negative, both zeros,
    minus infinity. *)
Definition float_nonpos (x : pyfloat) : bool :=
  match x with
  | S754_zero _ | S754_infinity true | S754_finite true _ _ => true
  | _ => false
  end.

(** Equality of two answers of [validate_input], decided. *)
Definition answer_eqb (r1 r2 : bool * string) : bool :=
  Bool.eqb (fst r1) (fst r2) && String.eqb (snd r1) (snd r2).

(** The three boundary amounts of a bounded code, checked on every entry
    of the table. *)
Definition boundary_ok (k : Constants) (e : string * Z) : bool :=
  answer_eqb (validate_input k "x" (fst e) (py_str_int (snd e))) (true, "") &&
  answer_eqb (validate_input k "x" (fst e) (py_str_int (snd e) ++ ".01"))
    (false, msg_supera_maximo (fst e) (snd e)) &&
  answer_eqb (validate_input k "x" (fst e) (py_str_int (snd e) ++ ",01"))
    (false, msg_supera_maximo (fst e) (snd e)).

(** ** Lemmas *)

Lemma answer_eqb_eq r1 r2 : answer_eqb r1 r2 = true -> r1 = r2.
Proof.
  destruct r1 as [b1 s1], r2 as [b2 s2]. unfold answer_eqb. simpl.
  intros H. bool_to_prop. apply Bool.eqb_prop in H. subst. reflexivity.
Qed.

Lemma py_float_empty : py_float "" = None.
Proof. reflexivity. Qed.

Lemma py_float_truthy s x : py_float s = Some x -> py_truthy s = true.
Proof.
  destruct (py_truthy s) eqn:E; auto.
  apply py_truthy_false in E. subst. rewrite py_float_empty. discriminate.
Qed.

(** Only whether the SIRIA number is empty matters to validation. *)
Lemma validate_input_siria k s s' c e :
  py_truthy s = py_truthy s' -> validate_input k s c e = validate_input k s' c e.
Proof. unfold validate_input. simpl. intros ->. reflexivity. Qed.

Lemma gt_int_nonpos x m : float_nonpos x = true -> (0 <= m)%Z -> py_float_gt_int x m = false.
Proof.
  intros Hx Hm. destruct x as [s|[|]| |[|] mx ex];
    cbn [py_float_gt_int float_nonpos signed_mantissa negb] in *; try discriminate;
    try (apply Z.ltb_ge; lia); try reflexivity.
  pose proof (Pos2Z.neg_is_neg mx).
  destruct (0 <=? ex)%Z eqn:E; bool_to_prop; apply Z.ltb_ge.
  - pose proof (Z.pow_pos_nonneg 2 ex ltac:(lia) ltac:(lia)). nia.
  - pose proof (Z.pow_pos_nonneg 2 (- ex) ltac:(lia) ltac:(lia)). nia.
Qed.

Lemma boundary_ok_all : forallb (boundary_ok setup_constants) tabla_maximos = true.
Proof. vm_compute. reflexivity. Qed.

(** The boundary checks of a code with a maximum. *)
Lemma boundary_at c m :
  (maximos_ayuda setup_constants).[c] = Some m -> boundary_ok setup_constants (c, m) = true.
Proof. intros Hm. apply py_get_In in Hm. exact (forallb_In_true _ _ _ boundary_ok_all Hm). Qed.

(** ** Theorems *)

(** C4: [validate_input] accepts exactly when the SIRIA number and the code
    are not empty, [float] reads the amount (with [','] as decimal point),
    and the code has no maximum or the amount is not above it. *)
Theorem validate_input_ok_iff k s c e :
  validate_input k s c e = (true, "") <->
  py_truthy s = true /\ py_truthy c = true /\
  exists x, py_float (py_replace e "," ".") = Some x /\
            forall m, (maximos_ayuda k).[c] = Some m -> py_float_gt_int x m = false.
Proof.
  unfold validate_input. simpl.
  destruct (py_float (py_replace e "," ".")) as [x|] eqn:Hx.
  - rewrite (py_float_truthy _ _ Hx).
    destruct (py_truthy s), (py_truthy c); simpl;
      try (split; [discriminate | intros (? & ? & _); discriminate]).
    destruct ((maximos_ayuda k).[c]) as [m|].
    + destruct (py_float_gt_int x m) eqn:G.
      * split; [discriminate|]. intros (_ & _ & y & Hy & H).
        injection Hy as <-. rewrite H in G; congruence.
      * split; auto. intros _. repeat split; eauto. exists x; split; congruence.
    + split; auto. intros _. repeat split; eauto. exists x; split; congruence.
  - split.
    + destruct (py_truthy s && (py_truthy c && (py_truthy (py_replace e "," ".") && true)));
        discriminate.
    + intros (_ & _ & y & Hy & _). discriminate.
Qed.

(** C10: For every code with a maximum, the maximum itself is accepted and
    one cent more is rejected with the message naming the code and the
    maximum, whether the cent is written with ['.'] or with [',']. *)
Theorem validate_maximo_y_un_centimo s c m :
  py_truthy s = true ->
  (maximos_ayuda setup_constants).[c] = Some m ->
  validate_input setup_constants s c (py_str_int m) = (true, "") /\
  validate_input setup_constants s c (py_str_int m ++ ".01") = (false, msg_supera_maximo c m) /\
  validate_input setup_constants s c (py_str_int m ++ ",01") = (false, msg_supera_maximo c m).
Proof.
  intros Hs Hm. pose proof (boundary_at c m Hm) as Hb.
  assert (Hx : forall e, validate_input setup_constants s c e = validate_input setup_constants "x" c e)
    by (intros; apply validate_input_siria; rewrite Hs; reflexivity).
  rewrite !Hx.
  unfold boundary_ok in Hb. cbn [fst snd] in Hb. bool_to_prop.
  repeat split; apply answer_eqb_eq; assumption.
Qed.

(** C29: The amount "nan" passes validation for every code: [float("nan")]
    is a NaN and [NaN > maximum] is false. *)
Theorem validate_acepta_nan k s c :
  py_truthy s = true -> py_truthy c = true ->
  validate_input k s c "nan" = (true, "").
Proof.
  intros Hs Hc. apply validate_input_ok_iff. repeat split; auto.
  exists S754_nan. split; reflexivity.
Qed.

(** C28: Validation does not ask for a positive amount: with a catalog
    whose maxima are positive, every amount [float] reads as zero or
    negative (e.g. "-5", "-inf") passes, for every code. *)
Theorem validate_acepta_no_positivas k s c e x :
  AidCatalogLaws (catalog_of k) ->
  py_truthy s = true -> py_truthy c = true ->
  py_float (py_replace e "," ".") = Some x -> float_nonpos x = true ->
  validate_input k s c e = (true, "").
Proof.
  intros Hlaws Hs Hc Hx Hneg. apply validate_input_ok_iff. repeat split; auto.
  exists x. split; auto. intros m Hm.
  apply gt_int_nonpos; auto.
  pose proof (@max_range _ Hlaws c m Hm). lia.
Qed.

(** C30: Twenty-five described codes of the source have no maximum, and
    for such a code every amount [float] reads passes validation
    (e.g. "1e308", "inf", "-1"). *)
Theorem validate_sin_maximo k s c e x :
  In c (codigos_sin_maximo k) ->
  py_truthy s = true -> py_truthy c = true ->
  py_float (py_replace e "," ".") = Some x ->
  validate_input k s c e = (true, "") /\
  length (codigos_sin_maximo setup_constants) = 25%nat.
Proof.
  intros Hin Hs Hc Hx. split; [|vm_compute; reflexivity].
  unfold codigos_sin_maximo in Hin. apply filter_In in Hin as [_ Hnone].
  apply validate_input_ok_iff. repeat split; auto.
  exists x. split; auto. intros m Hm. unfold py_in in Hnone. rewrite Hm in Hnone. discriminate.
Qed.

(** C33: An empty SIRIA number, code or amount is reported with the
    "introduce todos los datos" message, before the amount is read. *)
Theorem validate_campos_vacios k s c e :
  s = "" \/ c = "" \/ e = "" ->
  validate_input k s c e = (false, msg_faltan_datos).
Proof.
  intros H. unfold validate_input.
  destruct H as [-> | [-> | ->]]; simpl;
    repeat match goal with |- context [py_truthy ?x] => destruct (py_truthy x) end;
    reflexivity.
Qed.

(** ** Witnesses *)

Lemma validate_maximo_y_un_centimo_witness :
  validate_input setup_constants "123456" "ATSANGA" "200" = (true, "") /\
  validate_input setup_constants "123456" "ATSANGA" "200.01" =
    (false, "La cuantía para la ayuda ATSANGA no puede superar los 200 euros.") /\
  validate_input setup_constants "123456" "ATSANGA" "200,01" =
    (false, "La cuantía para la ayuda ATSANGA no puede superar los 200 euros.").
Proof. exact (validate_maximo_y_un_centimo "123456" "ATSANGA" 200 eq_refl eq_refl). Defined.

Lemma validate_acepta_nan_witness :
  validate_input setup_constants "123456" "1FMI" "nan" = (true, "").
Proof. exact (validate_acepta_nan setup_constants "123456" "1FMI" eq_refl eq_refl). Defined.

Lemma validate_acepta_no_positivas_witness :
  validate_input setup_constants "123456" "ATSANTDE" "-5" = (true, "").
Proof.
  exact (validate_acepta_no_positivas setup_constants "123456" "ATSANTDE" "-5"
           (S754_finite true 5629499534213120 (-50)) source_catalog_laws eq_refl eq_refl
           ltac:(vm_compute; reflexivity) eq_refl).
Defined.

Lemma validate_sin_maximo_witness :
  validate_input setup_constants "123456" "ATSANMED" "5000" = (true, "") /\
  length (codigos_sin_maximo setup_constants) = 25%nat.
Proof.
  exact (validate_sin_maximo setup_constants "123456" "ATSANMED" "5000"
           (S754_finite false 5497558138880000 (-40))
           ltac:(vm_compute; tauto) eq_refl eq_refl ltac:(vm_compute; reflexivity)).
Defined.

Lemma validate_campos_vacios_witness :
  validate_input setup_constants "123456" "1FMI" "" = (false, msg_faltan_datos).
Proof. exact (validate_campos_vacios setup_constants "123456" "1FMI" "" (or_intror (or_intror eq_refl))). Defined.
