(* ===== verification/Dates.v ===== *)
(** * Dates: [datetime], [relativedelta] and the formats of [strftime]

    [calculate_age] (lines 236-243) computes
    [relativedelta(datetime.now(), pd.to_datetime(birthdate)).years]; the
    receipt and the output file name format [datetime.now()] with
    [strftime].  This file models the part of Python's [datetime] and of
    dateutil's [relativedelta] these calls run:
    - [datetime] as a record of its seven fields, compared
      lexicographically as Python compares them; [calendar.monthrange] as
      [days_in_month];
    - [relativedelta(dt1, dt2)]: the month difference, the normalisation of
      [_set_months] (years and months with the sign of the total),
      [__add__] of years and months to a date (the day clamped to the
      length of the target month, [ValueError] outside years 1..9999), and
      the [while] loop that steps the month count back while the shifted
      date overshoots;
    - [strftime] with ["%d de %B de %Y"], ["%Y.%m.%d"] and ["%d-%m-%Y"],
      the month names depending on whether [__init__] could set a Spanish
      locale;
    - a reference reader of the file-name stamp ([leer_fecha_fichero]:
      split at the dots, each part all digits), against which the stamp
      is shown to read back.
    Sub-microsecond precision of pandas [Timestamp]s is not modelled. *)

From Stdlib Require Import String Ascii List ZArith Bool Lia.
From S2P Require Import Prelude PyStr.
Import ListNotations.
Open Scope string_scope.
Open Scope Z_scope.

Record datetime := mkdt {
  dt_year : Z; dt_month : Z; dt_day : Z;
  dt_hour : Z; dt_minute : Z; dt_second : Z; dt_micro : Z
}.

(** [calendar.isleap] *)
Definition is_leap (y : Z) : bool :=
  (y mod 4 =? 0) && (negb (y mod 100 =? 0) || (y mod 400 =? 0)).

(** [calendar.monthrange(y, m)[1]] *)
Definition days_in_month (y m : Z) : Z :=
  if (m =? 2) then (if is_leap y then 29 else 28)
  else if (m =? 4) || (m =? 6) || (m =? 9) || (m =? 11) then 30
  else 31.

(** The invariant of a Python [datetime] object. *)
Definition dt_valid (d : datetime) : bool :=
  (1 <=? dt_year d) && (dt_year d <=? 9999) &&
  (1 <=? dt_month d) && (dt_month d <=? 12) &&
  (1 <=? dt_day d) && (dt_day d <=? days_in_month (dt_year d) (dt_month d)) &&
  (0 <=? dt_hour d) && (dt_hour d <? 24) &&
  (0 <=? dt_minute d) && (dt_minute d <? 60) &&
  (0 <=? dt_second d) && (dt_second d <? 60) &&
  (0 <=? dt_micro d) && (dt_micro d <? 1000000).

(** [datetime.__lt__]: lexicographic on the fields. *)
Definition dt_compare (a b : datetime) : comparison :=
  match Z.compare (dt_year a) (dt_year b) with
  | Eq =>
    match Z.compare (dt_month a) (dt_month b) with
    | Eq =>
      match Z.compare (dt_day a) (dt_day b) with
      | Eq =>
        match Z.compare (dt_hour a) (dt_hour b) with
        | Eq =>
          match Z.compare (dt_minute a) (dt_minute b) with
          | Eq =>
            match Z.compare (dt_second a) (dt_second b) with
            | Eq => Z.compare (dt_micro a) (dt_micro b)
            | c => c
            end
          | c => c
          end
        | c => c
        end
      | c => c
      end
    | c => c
    end
  | c => c
  end.

Definition dt_ltb (a b : datetime) : bool :=
  match dt_compare a b with Lt => true | _ => false end.

(** ** [relativedelta] *)

(** [relativedelta._set_months]: the pair [(years, months)]. *)
Definition set_months (months : Z) : Z * Z :=
  if 11 <? Z.abs months then
    let s := Z.sgn months in
    (s * (months * s / 12), s * (months * s mod 12))
  else (0, months).

(** [relativedelta.__add__(dt)] for a delta of [years] and [months] only
    ([None] is the [ValueError] of [replace] or [monthrange]). *)
Definition add_years_months (years months : Z) (d : datetime) : option datetime :=
  let year := dt_year d + years in
  let '(year, month) :=
    if months =? 0 then (year, dt_month d)
    else
      let month := dt_month d + months in
      if 12 <? month then (year + 1, month - 12)
      else if month <? 1 then (year - 1, month + 12)
      else (year, month) in
  if (1 <=? year) && (year <=? 9999) then
    Some {| dt_year := year; dt_month := month;
            dt_day := Z.min (days_in_month year month) (dt_day d);
            dt_hour := dt_hour d; dt_minute := dt_minute d;
            dt_second := dt_second d; dt_micro := dt_micro d |}
  else None.

(** [dt2 + relativedelta(months=k)] after [_set_months(k)]. *)
Definition shift_months (d : datetime) (k : Z) : option datetime :=
  let '(y, m) := set_months k in add_years_months y m d.

Inductive loop_outcome := LoopDone (months : Z) | LoopRaised | LoopFuel.

(** The adjustment loop of [relativedelta.__init__]: [forward] when
    [dt1 < dt2] (compare [gt], increment 1), otherwise compare [lt],
    increment -1.  Each call evaluates [dtm] for [months] and tests the
    loop condition. *)
Fixpoint rd_loop (fuel : nat) (dt1 dt2 : datetime) (forward : bool) (months : Z)
    : loop_outcome :=
  match shift_months dt2 months with
  | None => LoopRaised
  | Some dtm =>
      if (if forward then dt_ltb dtm dt1 else dt_ltb dt1 dtm) then
        match fuel with
        | O => LoopFuel
        | S f => rd_loop f dt1 dt2 forward (if forward then months + 1 else months - 1)
        end
      else LoopDone months
  end.

(** The loop runs its body at most once (theorem [rd_loop_terminates]). *)
Definition rd_fuel : nat := 1.

(** [relativedelta(dt1, dt2).years]; [None] is an exception. *)
Definition relativedelta_years (dt1 dt2 : datetime) : option Z :=
  let months := (dt_year dt1 - dt_year dt2) * 12 + (dt_month dt1 - dt_month dt2) in
  match rd_loop rd_fuel dt1 dt2 (dt_ltb dt1 dt2) months with
  | LoopDone k => Some (fst (set_months k))
  | _ => None
  end.

(** ** [strftime] *)

(** The locale [__init__] ends with: ['es_ES.UTF-8'] or ['spanish'] give
    the Spanish month names, the fallback keeps the C locale. *)
Inductive time_locale := LocaleSpanish | LocaleC.

Definition month_name (loc : time_locale) (m : Z) : string :=
  let names :=
    match loc with
    | LocaleSpanish => ["enero"; "febrero"; "marzo"; "abril"; "mayo"; "junio"; "julio";
                        "agosto"; "septiembre"; "octubre"; "noviembre"; "diciembre"]
    | LocaleC => ["January"; "February"; "March"; "April"; "May"; "June"; "July";
                  "August"; "September"; "October"; "November"; "December"]
    end in
  nth (Z.to_nat (m - 1)) names "".

(** ["%d de %B de %Y"] *)
Definition fmt_fecha_larga (loc : time_locale) (d : datetime) : string :=
  pad2 (dt_day d) ++ " de " ++ month_name loc (dt_month d) ++ " de " ++ py_str_int (dt_year d).

(** ["%Y.%m.%d"] *)
Definition fmt_fecha_fichero (d : datetime) : string :=
  py_str_int (dt_year d) ++ "." ++ pad2 (dt_month d) ++ "." ++ pad2 (dt_day d).

(** ["%d-%m-%Y"] *)
Definition fmt_fecha_nacimiento (d : datetime) : string :=
  pad2 (dt_day d) ++ "-" ++ pad2 (dt_month d) ++ "-" ++ py_str_int (dt_year d).

(** ** Reading a file-name stamp back *)

(** The value of a non-empty string of ASCII digits. *)
Fixpoint digitos_aux (s : string) (acc : Z) : option Z :=
  match s with
  | EmptyString => Some acc
  | String a r =>
      let b := Z.of_N (Ascii.N_of_ascii a) in
      if (48 <=? b) && (b <=? 57) then digitos_aux r (acc * 10 + (b - 48)) else None
  end.

Definition digitos (s : string) : option Z :=
  match s with EmptyString => None | _ => digitos_aux s 0 end.

(** [s.split(".")] *)
Fixpoint partir_punto (s : string) : list string :=
  match s with
  | EmptyString => [EmptyString]
  | String a r =>
      if Ascii.eqb a "."%char then EmptyString :: partir_punto r
      else match partir_punto r with
           | x :: xs => String a x :: xs
           | [] => [String a EmptyString]
           end
  end.

Fixpoint sin_punto (s : string) : bool :=
  match s with
  | EmptyString => true
  | String a r => negb (Ascii.eqb a "."%char) && sin_punto r
  end.

(** The reference reader of a ["%Y.%m.%d"] stamp. *)
Definition leer_fecha_fichero (s : string) : option (Z * Z * Z) :=
  match partir_punto s with
  | [a; b; c] =>
      match digitos a, digitos b, digitos c with
      | Some y, Some m, Some d => Some (y, m, d)
      | _, _, _ => None
      end
  | _ => None
  end.

(** A field written with [n] characters that reads back as [v]. *)
Definition campo_ok (txt : string) (v : Z) (n : nat) : bool :=
  match digitos txt with Some w => Z.eqb w v | None => false end &&
  sin_punto txt && Nat.eqb (String.length txt) n.

(** ** Lemmas on the calendar arithmetic *)

(** The month index of a date: years and months as one count. *)
Definition month_index (d : datetime) : Z := 12 * dt_year d + dt_month d.

Definition same_time (a b : datetime) : Prop :=
  dt_hour a = dt_hour b /\ dt_minute a = dt_minute b /\
  dt_second a = dt_second b /\ dt_micro a = dt_micro b.

Lemma set_months_spec k :
  12 * fst (set_months k) + snd (set_months k) = k /\
  -11 <= snd (set_months k) <= 11 /\
  (0 <= k -> fst (set_months k) = k / 12).
Proof.
  unfold set_months. destruct (11 <? Z.abs k) eqn:E; bool_to_prop; cbn [fst snd].
  - destruct (Z.sgn_spec k) as [[Hk ->] | [[Hk ->] | [Hk ->]]]; [| lia |];
      rewrite ?Z.mul_1_r, ?Z.mul_1_l.
    + pose proof (Z.div_mod k 12 ltac:(lia)). pose proof (Z.mod_pos_bound k 12 ltac:(lia)).
      lia.
    + set (j := k * - (1)) in *. assert (j = - k) by (subst j; lia).
      pose proof (Z.div_mod j 12 ltac:(lia)). pose proof (Z.mod_pos_bound j 12 ltac:(lia)).
      lia.
  - split; [lia|]. split; [lia|]. intros Hk. rewrite Z.div_small; lia.
Qed.

Lemma set_months_years_nonneg k : 0 <= k -> fst (set_months k) = k / 12.
Proof. apply set_months_spec. Qed.

(** The date [shift_months d k] lands on: its month index is [d]'s plus
    [k], its day is [d]'s clamped to the month, its time is [d]'s; it
    exists exactly when that year is within 1..9999. *)
Lemma shift_months_spec d k :
  1 <= dt_month d <= 12 ->
  match shift_months d k with
  | Some d' =>
      month_index d' = month_index d + k /\ 1 <= dt_month d' <= 12 /\
      1 <= dt_year d' <= 9999 /\
      dt_day d' = Z.min (days_in_month (dt_year d') (dt_month d')) (dt_day d) /\
      same_time d' d
  | None =>
      forall y m, 12 * y + m = month_index d + k -> 1 <= m <= 12 -> ~ (1 <= y <= 9999)
  end.
Proof.
  intros Hm. unfold shift_months, month_index.
  pose proof (set_months_spec k) as (Hk & Hb & _).
  destruct (set_months k) as [ys ms]. cbn [fst snd] in *.
  unfold add_years_months.
  destruct (ms =? 0) eqn:E0; [|destruct (12 <? dt_month d + ms) eqn:E1;
    [|destruct (dt_month d + ms <? 1) eqn:E2]]; bool_to_prop;
    match goal with |- context [if ?c then _ else _] => destruct c eqn:E3 end;
    cbn [dt_year dt_month dt_day dt_hour dt_minute dt_second dt_micro];
    unfold same_time;
    first
      [ bool_to_prop; repeat split; lia
      | intros y m Hy Hm'; apply andb_false_iff in E3;
        destruct E3; bool_to_prop; lia ].
Qed.

Lemma dt_compare_idx a b :
  1 <= dt_month a <= 12 -> 1 <= dt_month b <= 12 ->
  month_index a < month_index b -> dt_compare a b = Lt.
Proof.
  unfold month_index, dt_compare. intros Ha Hb Hlt.
  destruct (Z.compare_spec (dt_year a) (dt_year b)); [|reflexivity|lia].
  destruct (Z.compare_spec (dt_month a) (dt_month b)); [lia|reflexivity|lia].
Qed.

Lemma dt_compare_antisym a b : dt_compare b a = CompOpp (dt_compare a b).
Proof.
  unfold dt_compare.
  rewrite (Z.compare_antisym (dt_year a)), (Z.compare_antisym (dt_month a)),
    (Z.compare_antisym (dt_day a)), (Z.compare_antisym (dt_hour a)),
    (Z.compare_antisym (dt_minute a)), (Z.compare_antisym (dt_second a)),
    (Z.compare_antisym (dt_micro a)).
  destruct (dt_year a ?= dt_year b); simpl; auto.
  destruct (dt_month a ?= dt_month b); simpl; auto.
  destruct (dt_day a ?= dt_day b); simpl; auto.
  destruct (dt_hour a ?= dt_hour b); simpl; auto.
  destruct (dt_minute a ?= dt_minute b); simpl; auto.
  destruct (dt_second a ?= dt_second b); simpl; auto.
Qed.

Lemma dt_ltb_idx a b :
  1 <= dt_month a <= 12 -> 1 <= dt_month b <= 12 ->
  month_index a < month_index b -> dt_ltb a b = true /\ dt_ltb b a = false.
Proof.
  intros Ha Hb Hlt. unfold dt_ltb. rewrite (dt_compare_antisym a b).
  rewrite (dt_compare_idx a b Ha Hb Hlt). auto.
Qed.

Lemma dt_valid_spec d :
  dt_valid d = true ->
  1 <= dt_year d <= 9999 /\ 1 <= dt_month d <= 12 /\
  1 <= dt_day d <= days_in_month (dt_year d) (dt_month d).
Proof. unfold dt_valid. intros H. bool_to_prop. lia. Qed.

Lemma ltb_false_idx a b :
  1 <= dt_month a <= 12 -> 1 <= dt_month b <= 12 ->
  dt_ltb a b = false -> month_index b <= month_index a.
Proof.
  intros Ha Hb H. destruct (Z_lt_le_dec (month_index a) (month_index b)) as [Hlt|]; auto.
  destruct (dt_ltb_idx a b Ha Hb Hlt). congruence.
Qed.

Lemma ltb_true_idx a b :
  1 <= dt_month a <= 12 -> 1 <= dt_month b <= 12 ->
  dt_ltb a b = true -> month_index a <= month_index b.
Proof.
  intros Ha Hb H. destruct (Z_lt_le_dec (month_index b) (month_index a)) as [Hlt|]; auto.
  destruct (dt_ltb_idx b a Hb Ha Hlt). congruence.
Qed.

(** Shifting lands on a date whenever the target year is in 1..9999. *)
Lemma shift_months_some d k :
  1 <= dt_month d <= 12 ->
  1 <= (month_index d + k - 1) / 12 <= 9999 ->
  exists a, shift_months d k = Some a /\ month_index a = month_index d + k /\
            1 <= dt_month a <= 12 /\ 1 <= dt_year a <= 9999.
Proof.
  intros Hm Hy. pose proof (shift_months_spec d k Hm) as Hs.
  destruct (shift_months d k) as [a|].
  - destruct Hs as (? & ? & ? & _). eauto.
  - exfalso. set (t := month_index d + k - 1) in *.
    pose proof (Z.div_mod t 12 ltac:(lia)). pose proof (Z.mod_pos_bound t 12 ltac:(lia)).
    apply (Hs (t / 12) (t mod 12 + 1)); lia.
Qed.

Lemma shift_months_year a d k :
  1 <= dt_month d <= 12 -> shift_months d k = Some a ->
  month_index a = month_index d + k /\ 1 <= dt_month a <= 12 /\ 1 <= dt_year a <= 9999.
Proof.
  intros Hm Hs. pose proof (shift_months_spec d k Hm) as H. rewrite Hs in H.
  destruct H as (? & ? & ? & _). auto.
Qed.

(** Shifting a valid date by zero months gives it back. *)
Lemma shift_months_zero d : dt_valid d = true -> shift_months d 0 = Some d.
Proof.
  intros Hv. pose proof (dt_valid_spec d Hv) as (Hy & Hm & Hd).
  unfold shift_months, set_months, add_years_months. simpl.
  rewrite Z.add_0_r.
  replace ((1 <=? dt_year d) && (dt_year d <=? 9999)) with true by (symmetry; bool_to_prop; lia).
  rewrite Z.min_r by lia. destruct d; reflexivity.
Qed.

Lemma months0_idx now birth :
  (dt_year now - dt_year birth) * 12 + (dt_month now - dt_month birth) =
  month_index now - month_index birth.
Proof. unfold month_index. lia. Qed.

(** When [birth <= now], the loop stops after at most one step back, on the
    largest month count [k] whose shifted birth date is not after [now]. *)
Lemma rd_loop_backward now birth :
  dt_valid now = true -> dt_valid birth = true -> dt_ltb now birth = false ->
  exists k, rd_loop rd_fuel now birth false (month_index now - month_index birth) = LoopDone k /\
    0 <= k /\
    (exists a, shift_months birth k = Some a /\ dt_ltb now a = false) /\
    (forall a, shift_months birth (k + 1) = Some a -> dt_ltb now a = true).
Proof.
  intros Hn Hb Hlt.
  pose proof (dt_valid_spec now Hn) as (Hny & Hnm & _).
  pose proof (dt_valid_spec birth Hb) as (Hby & Hbm & _).
  pose proof (ltb_false_idx now birth Hnm Hbm Hlt) as Hidx.
  set (k0 := month_index now - month_index birth).
  destruct (shift_months_some birth k0 Hbm) as (d0 & Hs0 & Hi0 & Hm0 & Hy0);
    [unfold k0, month_index in *; zlia|].
  unfold rd_fuel. simpl. rewrite Hs0.
  destruct (dt_ltb now d0) eqn:E.
  - assert (k0 <> 0).
    { intros Hk. rewrite Hk, shift_months_zero in Hs0 by assumption.
      injection Hs0 as Heq0. subst. congruence. }
    destruct (shift_months_some birth (k0 - 1) Hbm) as (d1 & Hs1 & Hi1 & Hm1 & Hy1);
      [unfold k0, month_index in *; zlia|].
    rewrite Hs1.
    destruct (dt_ltb_idx d1 now Hm1 Hnm ltac:(lia)) as [_ Hd1]. rewrite Hd1.
    exists (k0 - 1). repeat split; [lia|eauto|].
    replace (k0 - 1 + 1) with k0 by lia. intros a Ha. congruence.
  - exists k0. repeat split; [lia|eauto|].
    intros a Ha. destruct (shift_months_year a birth (k0 + 1) Hbm Ha) as (Hia & Hma & _).
    apply (dt_ltb_idx now a Hnm Hma). lia.
Qed.

(** When [now < birth] the loop stops after at most one step forward, on a
    non-positive month count. *)
Lemma rd_loop_forward now birth :
  dt_valid now = true -> dt_valid birth = true -> dt_ltb now birth = true ->
  exists k, rd_loop rd_fuel now birth true (month_index now - month_index birth) = LoopDone k /\
    k <= 0.
Proof.
  intros Hn Hb Hlt.
  pose proof (dt_valid_spec now Hn) as (Hny & Hnm & _).
  pose proof (dt_valid_spec birth Hb) as (Hby & Hbm & _).
  pose proof (ltb_true_idx now birth Hnm Hbm Hlt) as Hidx.
  set (k0 := month_index now - month_index birth).
  destruct (shift_months_some birth k0 Hbm) as (d0 & Hs0 & Hi0 & Hm0 & Hy0);
    [unfold k0, month_index in *; zlia|].
  unfold rd_fuel. simpl. rewrite Hs0.
  destruct (dt_ltb d0 now) eqn:E.
  - assert (k0 <> 0).
    { intros Hk. rewrite Hk, shift_months_zero in Hs0 by assumption.
      injection Hs0 as Heq0. subst. unfold dt_ltb in *. rewrite dt_compare_antisym in Hlt.
      destruct (dt_compare d0 now); simpl in *; congruence. }
    destruct (shift_months_some birth (k0 + 1) Hbm) as (d1 & Hs1 & Hi1 & Hm1 & Hy1);
      [unfold k0, month_index in *; zlia|].
    rewrite Hs1.
    destruct (dt_ltb_idx now d1 Hnm Hm1 ltac:(lia)) as [_ Hd1]. rewrite Hd1.
    exists (k0 + 1). split; [reflexivity|lia].
  - exists k0. split; [reflexivity|lia].
Qed.

Lemma relativedelta_years_loop now birth :
  relativedelta_years now birth =
  match rd_loop rd_fuel now birth (dt_ltb now birth) (month_index now - month_index birth) with
  | LoopDone k => Some (fst (set_months k))
  | _ => None
  end.
Proof. unfold relativedelta_years. rewrite months0_idx. reflexivity. Qed.

(** On two valid datetimes, [relativedelta(dt1, dt2)] raises no
    exception and its adjustment loop ends: it runs its body at most once,
    so [rd_fuel = 1] is enough and the years are always defined. *)
Lemma relativedelta_years_total now birth :
  dt_valid now = true -> dt_valid birth = true ->
  exists y, relativedelta_years now birth = Some y.
Proof.
  intros Hn Hb. rewrite relativedelta_years_loop.
  destruct (dt_ltb now birth) eqn:E.
  - destruct (rd_loop_forward now birth Hn Hb E) as (k & -> & _). eauto.
  - destruct (rd_loop_backward now birth Hn Hb E) as (k & -> & _). eauto.
Qed.

(** For a birth date not after [now], the age [relativedelta] gives is at
    least [n] exactly when the [n]-th anniversary (the same day and time [n]
    years later, the 29th of February clamped to the 28th) is not after
    [now]. *)
Lemma relativedelta_years_ge_iff now birth n :
  dt_valid now = true -> dt_valid birth = true -> dt_ltb now birth = false -> 0 <= n ->
  exists y, relativedelta_years now birth = Some y /\
    (n <= y <-> exists a, shift_months birth (12 * n) = Some a /\ dt_ltb now a = false).
Proof.
  intros Hn Hb Hlt Hn0.
  pose proof (dt_valid_spec now Hn) as (Hny & Hnm & _).
  pose proof (dt_valid_spec birth Hb) as (Hby & Hbm & _).
  destruct (rd_loop_backward now birth Hn Hb Hlt) as (k & Hk & Hk0 & (ak & Hak & Hakle) & Hnext).
  rewrite relativedelta_years_loop, Hlt, Hk, set_months_years_nonneg by lia.
  destruct (shift_months_year ak birth k Hbm Hak) as (Hiak & Hmak & _).
  pose proof (ltb_false_idx now ak Hnm Hmak Hakle) as Hak_now.
  exists (k / 12). split; [reflexivity|]. split.
  - intros Hle. destruct (Z.eq_dec (12 * n) k) as [-> | Hne]; [eauto|].
    destruct (shift_months_some birth (12 * n) Hbm) as (a & Ha & Hia & Hma & _);
      [unfold month_index in *; zlia|].
    exists a. split; auto.
    apply (dt_ltb_idx a now Hma Hnm). zlia.
  - intros (a & Ha & Hale). destruct (Z_le_gt_dec (12 * n) k) as [|Hgt]; [zlia|].
    exfalso. destruct (shift_months_year a birth _ Hbm Ha) as (Hia & Hma & Hya).
    destruct (shift_months_some birth (k + 1) Hbm) as (a1 & Ha1 & Hia1 & Hma1 & _);
      [unfold month_index in *; zlia|].
    pose proof (ltb_true_idx now a1 Hnm Hma1 (Hnext a1 Ha1)).
    pose proof (ltb_false_idx now a Hnm Hma Hale).
    destruct (Z.eq_dec (12 * n) (k + 1)) as [Heq | Hne].
    + rewrite Heq, Ha1 in Ha. injection Ha as Heqa. subst.
      pose proof (Hnext _ Ha1). congruence.
    + destruct (dt_ltb_idx now a Hnm Hma ltac:(lia)). congruence.
Qed.

(** A birth date after [now] gives a non-positive number of years. *)
Lemma relativedelta_years_nonpos now birth :
  dt_valid now = true -> dt_valid birth = true -> dt_ltb now birth = true ->
  exists y, relativedelta_years now birth = Some y /\ y <= 0.
Proof.
  intros Hn Hb Hlt. rewrite relativedelta_years_loop, Hlt.
  destruct (rd_loop_forward now birth Hn Hb Hlt) as (k & -> & Hk).
  pose proof (set_months_spec k) as (Hs & Hb' & _). eexists. split; [reflexivity|]. lia.
Qed.

(** ** Lemmas on file-name stamps *)

Lemma partir_punto_app a r :
  sin_punto a = true -> partir_punto (a ++ String "."%char r) = a :: partir_punto r.
Proof.
  induction a as [|x a IH]; simpl; [reflexivity|]. intros H.
  apply andb_true_iff in H as [Hx Ha]. destruct (Ascii.eqb x "."%char); [discriminate|].
  rewrite IH by exact Ha. reflexivity.
Qed.

Lemma partir_punto_sin a : sin_punto a = true -> partir_punto a = [a].
Proof.
  induction a as [|x a IH]; simpl; [reflexivity|]. intros H.
  apply andb_true_iff in H as [Hx Ha]. destruct (Ascii.eqb x "."%char); [discriminate|].
  rewrite IH by exact Ha. reflexivity.
Qed.

Lemma campo_ok_spec txt v n :
  campo_ok txt v n = true -> digitos txt = Some v /\ sin_punto txt = true /\ String.length txt = n.
Proof.
  unfold campo_ok. intros H. apply andb_true_iff in H as [H Hl]. apply andb_true_iff in H as [Hd Hp].
  apply Nat.eqb_eq in Hl. destruct (digitos txt) as [w|]; [|discriminate].
  apply Z.eqb_eq in Hd. subst. auto.
Qed.

Lemma days_in_month_le y m : days_in_month y m <= 31.
Proof.
  unfold days_in_month. destruct (m =? 2); [destruct (is_leap y)|destruct (_ || _)]; lia.
Qed.

(** Every four-digit year and every number from 1 to 31, written the way
    [%Y] and [%m]/[%d] write them. *)
Lemma anyos_ok : forall_from (fun y => campo_ok (py_str_int y) y 4) 1000 9000 = true.
Proof. vm_compute. reflexivity. Qed.

Lemma dos_cifras_ok : forall_from (fun n => campo_ok (pad2 n) n 2) 1 31 = true.
Proof. vm_compute. reflexivity. Qed.

(** C17: The date in a receipt's file name reads back: for every valid
    date of a four-digit year, ["%Y.%m.%d"] writes exactly ten characters,
    and splitting them at the dots gives back the year, the month and the
    day. *)
Theorem fecha_fichero_ida_vuelta d :
  dt_valid d = true -> 1000 <= dt_year d ->
  leer_fecha_fichero (fmt_fecha_fichero d) = Some (dt_year d, dt_month d, dt_day d) /\
  String.length (fmt_fecha_fichero d) = 10%nat.
Proof.
  intros Hv Hy. destruct (dt_valid_spec d Hv) as (Hy' & Hm & Hd).
  pose proof (days_in_month_le (dt_year d) (dt_month d)).
  destruct (campo_ok_spec _ _ _ (forall_from_spec _ 1000 9000 (dt_year d) anyos_ok
              ltac:(change (Z.of_nat 9000) with 9000; lia))) as (Ay & Py & Ly).
  destruct (campo_ok_spec _ _ _ (forall_from_spec _ 1 31 (dt_month d) dos_cifras_ok
              ltac:(change (Z.of_nat 31) with 31; lia))) as (Am & Pm & Lm).
  destruct (campo_ok_spec _ _ _ (forall_from_spec _ 1 31 (dt_day d) dos_cifras_ok
              ltac:(change (Z.of_nat 31) with 31; lia))) as (Ad & Pd & Ld).
  unfold leer_fecha_fichero, fmt_fecha_fichero. cbn [String.append].
  rewrite partir_punto_app, partir_punto_app, partir_punto_sin by assumption.
  rewrite Ay, Am, Ad. split; [reflexivity|].
  repeat (rewrite str_length_app; cbn [String.length]). rewrite Ly, Lm, Ld. reflexivity.
Qed.

(** Today's stamp. *)
Lemma fecha_fichero_ida_vuelta_witness :
  fmt_fecha_fichero (mkdt 2026 11 9 10 0 0 0) = "2026.11.09" /\
  leer_fecha_fichero "2026.11.09" = Some (2026, 11, 9) /\
  String.length "2026.11.09" = 10%nat.
Proof.
  split; [reflexivity|].
  exact (fecha_fichero_ida_vuelta (mkdt 2026 11 9 10 0 0 0) eq_refl ltac:(cbn; lia)).
Defined.

(** ** Examples *)

(** Born on 29 February 2008: 18 years old on 28 February 2026. *)
Example relativedelta_29_febrero :
  relativedelta_years (mkdt 2026 2 28 10 30 0 0) (mkdt 2008 2 29 0 0 0 0) = Some 18.
Proof. vm_compute. reflexivity. Qed.
