(* ===== verification/Frame.v ===== *)
(** * The workbook as pandas gives it: cells, rows, frames

    [load_excel_file] (lines 209-224) reads the sheet into [self.df] with
    [pd.read_excel(archivo, header=4)], the hidden sheet
    ['LISTADOS (no tocar)'] into [self.df_oculta], and converts the column
    ['Nº SIRIA BENEFICIARIA/O'] to [str]; [load_professional_values]
    (lines 226-234) takes the non-missing cells of rows 3..6 of columns 1
    and 2 of the hidden sheet.  Reading the file is I/O and is not
    modelled: the frames are data here.
    - A cell is what pandas stores: a missing value ([NaN]/[NaT]), an
      [int], a [float], a [str] or a [Timestamp].  Float cells appear in the
      identifier columns that have missing values (pandas then stores the
      whole column as [float64]); they are modelled with integral values,
      written [CFloatInt], whose [str] is the integer followed by [".0"].
    - A row is a dictionary from column names to cells, so that reading a
      column the sheet lacks is the [KeyError] the source would raise.
    - [df[df[col] == v].iloc[0]] is [first_match], which raises
      [KeyError] when the frame lacks the column; [.astype(str)] of the
      identifier column is [normalize_ids].
    - [pd.to_datetime] of a cell: a [Timestamp] is itself; a number is
      nanoseconds since the epoch; a string is parsed by a parser left as a
      parameter of the Section (dateutil's format guessing is not
      modelled). *)

From Stdlib Require Import String List ZArith Bool Lia.
From S2P Require Import Prelude PyStr Dates.
Import ListNotations.
Open Scope string_scope.
Open Scope Z_scope.

Inductive cell :=
| CNaN
| CInt (z : Z)
| CFloatInt (z : Z)
| CStr (s : string)
| CTime (d : datetime).

(** [pd.isna] *)
Definition isna (c : cell) : bool := match c with CNaN => true | _ => false end.

(** [str(x)] / [.astype(str)] of a cell. *)
Definition cell_str (c : cell) : string :=
  match c with
  | CNaN => "nan"
  | CInt z => py_str_int z
  | CFloatInt z => py_str_int z ++ ".0"
  | CStr s => s
  | CTime d => py_str_int (dt_year d) ++ "-" ++ pad2 (dt_month d) ++ "-" ++ pad2 (dt_day d) ++
               " " ++ pad2 (dt_hour d) ++ ":" ++ pad2 (dt_minute d) ++ ":" ++ pad2 (dt_second d)
  end.

(** [cell == s] for a Python [str] [s]: only a [str] cell can be equal. *)
Definition cell_eq_str (c : cell) (s : string) : bool :=
  match c with CStr s' => String.eqb s' s | _ => false end.

Definition row := pydict cell.
Definition frame := list row.

(** The columns the source reads. *)
Definition COL_SIRIA : string := "Nº SIRIA BENEFICIARIA/O".
Definition COL_FECHA : string := "FECHA NACIMIENTO".
Definition COL_TITULAR : string := "Nº DE SIRIA TITULAR UNIDAD FAMILIAR".
Definition COL_NOMBRE : string := "NOMBRE".
Definition COL_APELLIDOS : string := "APELLIDOS".
Definition COL_NIE : string := "NÚMERO NIE".
Definition COL_CADUCIDAD : string := "CADUCIDAD NIE ".
Definition COL_UC : string := "Nº SIRIA  UNIDAD CONVIVENCIAL (SI APLICA)".
Definition COL_OAR : string := "Nº EXPEDIENTE OAR".
Definition COL_SITUACION : string := "SITUACIÓN LEGAL/ADMINISTRATIVA ACTUAL".

(** Exceptions the modelled code can raise and does not catch. *)
Inductive py_exc :=
| KeyError (key : string)
| TypeError (what : string)
| ValueError (what : string).

(** [row[col]] *)
Definition get_col (r : row) (col : string) : cell + py_exc :=
  match r.[col] with Some c => inl c | None => inr (KeyError col) end.

(** The rows of [df] whose cell of [col] is the string [v], in order. *)
Definition filas_con (df : frame) (col v : string) : list row :=
  filter (fun r => match r.[col] with Some c => cell_eq_str c v | None => false end) df.

(** [df[df[col] == v]]: [df[col]] raises [KeyError] when the frame has no
    such column.  The rows of a frame read from a sheet share their
    columns; an empty frame selects nothing. *)
Definition filter_eq (df : frame) (col v : string) : list row + py_exc :=
  if forallb (fun r => py_in r col) df then inl (filas_con df col v) else inr (KeyError col).

(** [.empty] / [.iloc[0]] of that selection (lines 247-252). *)
Definition first_match (df : frame) (col v : string) : option row + py_exc :=
  match filter_eq df col v with
  | inl rs => inl (hd_error rs)
  | inr e => inr e
  end.

(** One row of [df[col].astype(str)]. *)
Definition normalize_row (r : row) : row :=
  match r.[COL_SIRIA] with
  | Some c => r.[COL_SIRIA := CStr (cell_str c)]
  | None => r
  end.

(** [df[col] = df[col].astype(str)]: [None] is the [KeyError] of a
    missing column. *)
Definition normalize_ids (df : frame) : option frame :=
  if forallb (fun r => py_in r COL_SIRIA) df then Some (map normalize_row df) else None.

(** ** [pd.to_datetime] of a cell *)

(** Civil date of a day count since 1970-01-01 (proleptic Gregorian). *)
Definition civil_from_days (z : Z) : Z * Z * Z :=
  let z := z + 719468 in
  let era := z / 146097 in
  let doe := z - era * 146097 in
  let yoe := (doe - doe / 1460 + doe / 36524 - doe / 146096) / 365 in
  let y := yoe + era * 400 in
  let doy := doe - (365 * yoe + yoe / 4 - yoe / 100) in
  let mp := (5 * doy + 2) / 153 in
  let d := doy - (153 * mp + 2) / 5 + 1 in
  let m := if mp <? 10 then mp + 3 else mp - 9 in
  ((if m <=? 2 then y + 1 else y), m, d).

(** [pd.Timestamp(n)] for an integer [n] of nanoseconds since the epoch,
    truncated to microseconds; [None] outside the 64-bit range pandas
    accepts. *)
Definition timestamp_of_ns (n : Z) : option datetime :=
  if (- 2 ^ 63 <? n) && (n <? 2 ^ 63) then
    let us := n / 1000 in
    let days := us / 86400000000 in
    let rem := us mod 86400000000 in
    let '(y, m, d) := civil_from_days days in
    Some (mkdt y m d (rem / 3600000000) (rem / 60000000 mod 60)
               (rem / 1000000 mod 60) (rem mod 1000000))
  else None.

Section ToDatetime.
(** dateutil's parser for strings, left abstract. *)
Variable parse_datetime : string -> option datetime.

(** [pd.to_datetime(c)]; [None] is the exception it raises. *)
Definition to_datetime (c : cell) : option datetime :=
  match c with
  | CTime d => Some d
  | CInt n | CFloatInt n => timestamp_of_ns n
  | CStr s => parse_datetime s
  | CNaN => None
  end.
End ToDatetime.

(** ** [load_professional_values] *)

(** The hidden sheet, read with [header=None]: pandas pads every row to
    the sheet's width with missing values, so a row is read past its end
    as [NaN]. *)
Record hoja := { ncols : nat; filas : list (list cell) }.

(** [df.iloc[3:7, j].dropna().tolist()]: the slice of rows is clamped to
    the sheet, a column index beyond the width is an [IndexError]
    ([None]). *)
Definition iloc_column (h : hoja) (j : nat) : option (list cell) :=
  if Nat.ltb j (ncols h)
  then Some (filter (fun c => negb (isna c)) (map (fun r => nth j r CNaN) (firstn 4 (skipn 3 (filas h)))))
  else None.

(** [valores_b + valores_c] *)
Definition load_professional_values (df_oculta : hoja) : option (list cell) :=
  match iloc_column df_oculta 1, iloc_column df_oculta 2 with
  | Some b, Some c => Some (b ++ c)%list
  | _, _ => None
  end.

(** The SIRIA number of a row, as text. *)
Definition siria_texto (r : row) : option string := option_map cell_str r.[COL_SIRIA].

(** ** Sample data for the examples

    A row with every column the code reads, and a sheet of three people:
    an adult with no holder, a minor whose holder cell is a float (the
    column had missing values) and a minor whose holder cell is text. *)
Definition fila (siria : cell) (nombre apellidos : string) (fecha titular situ : cell) : row :=
  [(COL_SIRIA, siria); (COL_NOMBRE, CStr nombre); (COL_APELLIDOS, CStr apellidos);
   (COL_NIE, CStr "X1234567A"); (COL_CADUCIDAD, CTime (mkdt 2027 1 1 0 0 0 0)); (COL_UC, CNaN);
   (COL_TITULAR, titular); (COL_OAR, CInt 42); (COL_FECHA, fecha); (COL_SITUACION, situ)].

Definition hoja_ejemplo : frame :=
  [fila (CStr "100") "ana" "garcía" (CTime (mkdt 1990 5 3 0 0 0 0)) CNaN (CStr "Apátrida");
   fila (CStr "200") "Ángel" "ñúñez" (CTime (mkdt 2015 7 1 0 0 0 0)) (CFloatInt 100)
        (CStr "Solicitante Protección Temporal");
   fila (CStr "300") "Luis" "Pérez" (CTime (mkdt 2015 7 1 0 0 0 0)) (CStr "100") CNaN].

(** A sheet as [read_excel] gives it: a text identifier with leading
    zeros and an integer one. *)
Definition hoja_numerica : frame :=
  [fila (CStr "007") "Eva" "Ruiz" CNaN CNaN CNaN; fila (CInt 7) "Juan" "Gil" CNaN CNaN CNaN].

(** ** Lemmas *)

Lemma normalize_row_siria r c :
  r.[COL_SIRIA] = Some c -> (normalize_row r).[COL_SIRIA] = Some (CStr (cell_str c)).
Proof. unfold normalize_row. intros ->. apply py_get_set_eq. Qed.

(** [df[df[col] == s].iloc[0]] only finds a row whose cell is the text
    [s]: a numeric cell never equals a [str]. *)
Lemma first_match_texto d col s r :
  first_match d col s = inl (Some r) -> r.[col] = Some (CStr s).
Proof.
  unfold first_match, filter_eq. destruct (forallb (fun r => py_in r col) d); [|discriminate]. intros H.
  assert (Hin : In r (filas_con d col s))
    by (destruct (filas_con d col s); [discriminate | injection H as ->; left; reflexivity]).
  apply filter_In in Hin as [_ Hc]. destruct (r.[col]) as [c|]; [|discriminate].
  destruct c; try discriminate. simpl in Hc. bool_to_prop. reflexivity.
Qed.

(** A frame with the column: the first row whose cell is the text. *)
Lemma first_match_columna df col v :
  forallb (fun r => py_in r col) df = true -> first_match df col v = inl (hd_error (filas_con df col v)).
Proof. unfold first_match, filter_eq. intros ->. reflexivity. Qed.

(** A frame without the column: [KeyError]. *)
Lemma first_match_sin_columna df col v :
  forallb (fun r => py_in r col) df = false -> first_match df col v = inr (KeyError col).
Proof. unfold first_match, filter_eq. intros ->. reflexivity. Qed.

(** [astype(str)] keeps the column in every row. *)
Lemma normalize_ids_columna df df' :
  normalize_ids df = Some df' -> forallb (fun r => py_in r COL_SIRIA) df' = true.
Proof.
  unfold normalize_ids. destruct (forallb (fun r => py_in r COL_SIRIA) df) eqn:Hall; [|discriminate].
  intros H. injection H as <-. rewrite forallb_forall in *. intros r Hr.
  apply in_map_iff in Hr as (r0 & <- & Hr0). specialize (Hall r0 Hr0).
  unfold py_in, normalize_row in *. destruct (r0.[COL_SIRIA]); [|discriminate].
  rewrite py_get_set_eq. reflexivity.
Qed.

(** A sheet that [astype(str)] could not convert has no SIRIA column:
    every lookup raises [KeyError]. *)
Lemma normalize_ids_None df s :
  normalize_ids df = None -> first_match df COL_SIRIA s = inr (KeyError COL_SIRIA).
Proof.
  unfold normalize_ids. destruct (forallb (fun r => py_in r COL_SIRIA) df) eqn:Hall; [discriminate|].
  intros _. apply first_match_sin_columna. exact Hall.
Qed.

(** ** Theorems *)

(** C16: After [load_excel_file] converts the SIRIA column with
    [astype(str)], looking a number up finds the first row whose original
    cell, written as text, is that number: a text cell is found by its
    exact text (leading zeros included), a numeric cell only by its
    decimal writing ([7] by ["7"], never by ["007"]; a float cell [7.0] by
    ["7.0"]). *)
Theorem normalize_ids_consulta df df' s :
  normalize_ids df = Some df' ->
  first_match df' COL_SIRIA s =
    inl (option_map normalize_row
      (hd_error (filter (fun r => match siria_texto r with
                                  | Some t => String.eqb t s
                                  | None => false
                                  end) df))).
Proof.
  intros Hn. rewrite (first_match_columna _ _ _ (normalize_ids_columna _ _ Hn)). f_equal. revert Hn.
  unfold normalize_ids, filas_con.
  destruct (forallb (fun r => py_in r COL_SIRIA) df) eqn:Hall; [|discriminate].
  intros H. injection H as <-. induction df as [|r df IH]; simpl in *; auto.
  apply andb_true_iff in Hall as [Hr Hall].
  unfold py_in, siria_texto in *. destruct (r.[COL_SIRIA]) as [c|] eqn:Hc; [|discriminate].
  rewrite (normalize_row_siria r c Hc). simpl.
  destruct (String.eqb (cell_str c) s); simpl; auto.
Qed.

(** Looking up ["7"] after the conversion finds the integer cell [7], not
    the text ["007"]. *)
Lemma normalize_ids_consulta_witness :
  normalize_ids hoja_numerica = Some (map normalize_row hoja_numerica) /\
  first_match (map normalize_row hoja_numerica) COL_SIRIA "7" =
    inl (Some (normalize_row (fila (CInt 7) "Juan" "Gil" CNaN CNaN CNaN))).
Proof.
  split; [reflexivity|].
  rewrite (normalize_ids_consulta hoja_numerica _ "7" eq_refl). reflexivity.
Defined.
