(* ===== verification/Beneficiary.v ===== *)
(** * The beneficiary repository: [calculate_age], [is_minor], [get_person_data]

    The three methods of [DocumentGenerator] that read [self.df]:
    - [calculate_age] (lines 236-243): [None] for a missing date or when
      [pd.to_datetime] or [relativedelta] raise (its bare [except]), the
      [.years] of [relativedelta(now, birthdate)] otherwise;
    - [is_minor] (lines 245-258): the first row whose SIRIA number is the
      given string, its birth date and holder cells, and whether the age is
      below [EDAD_MAYORIA];
    - [get_person_data] (lines 393-438): the fields of the first matching
      row under the prefix ["titular_"] or ["menor_"], the birth date
      formatted ["%d-%m-%Y"], the six protection markers and, for a minor,
      ["relacion_familiar"].
    [datetime.now()] is the argument [now]; the string parser of
    [pd.to_datetime] is the Section variable [parse_datetime].  A column
    missing from the row is the [KeyError] these methods let escape. *)

From Stdlib Require Import String List ZArith Bool Lia.
From S2P Require Import Prelude PyStr Dates Catalog Frame.
Import ListNotations.
Open Scope string_scope.
Open Scope Z_scope.

(** The values of a receipt context: cells copied from the frame, strings
    built by the code. *)
Inductive ctxval := VCell (c : cell) | VStr (s : string).

Definition context := pydict ctxval.

(** The six protection markers and the categories that set them. *)
Definition marcadores : list (string * list string) := [
  ("sol_pi", ["Solicitante Protección Internacional"]);
  ("ben_pi", ["Beneficiario/a Estatuto Refugiado/a"]);
  ("ben_ps", ["Beneficiario/a Protección Subsidiaria"]);
  ("sol_ap", ["Solicitante Estatuto de Apátrida"]);
  ("apatrida", ["Apátrida"]);
  ("sol_ben_pt", ["Solicitante Protección Temporal"; "Beneficiario/a Protección Temporal"])
].

(** ['X' if tipo_proteccion == ... else ''] for each marker. *)
Definition campos_proteccion (tipo : cell) : context :=
  map (fun '(campo, categorias) =>
         (campo, VStr (if existsb (cell_eq_str tipo) categorias then "X" else "")))
      marcadores.

(** The columns copied into the context, with their key suffix, in the
    order of the dict literal. *)
Definition campos_persona : list (string * string) := [
  ("nombre", COL_NOMBRE); ("apellidos", COL_APELLIDOS); ("nie", COL_NIE);
  ("caducidad_nie", COL_CADUCIDAD); ("numero_siria_beneficiaria", COL_SIRIA);
  ("numero_siria_uc", COL_UC); ("numero_siria_uf", COL_TITULAR); ("oar", COL_OAR)
].

(** Read the columns in order; the first missing one raises. *)
Fixpoint read_cols (r : row) (cols : list (string * string)) : list (string * cell) + py_exc :=
  match cols with
  | [] => inl []
  | (k, col) :: rest =>
      match get_col r col with
      | inr e => inr e
      | inl c => match read_cols r rest with
                 | inr e => inr e
                 | inl l => inl ((k, c) :: l)
                 end
      end
  end.

Section Repository.
Variable parse_datetime : string -> option datetime.

(** [calculate_age(birthdate)] *)
Definition calculate_age (now : datetime) (birthdate : cell) : option Z :=
  if isna birthdate then None
  else match to_datetime parse_datetime birthdate with
       | Some b => relativedelta_years now b
       | None => None
       end.

(** [is_minor(numero_siria)]: [(is_minor, fecha_nacimiento, siria_titular)]. *)
Definition is_minor (k : Constants) (now : datetime) (df : frame) (numero_siria : string)
    : (bool * option cell * option cell) + py_exc :=
  match first_match df COL_SIRIA numero_siria with
  | inr e => inr e
  | inl None => inl (false, None, None)
  | inl (Some persona) =>
      match get_col persona COL_FECHA, get_col persona COL_TITULAR with
      | inr e, _ => inr e
      | inl _, inr e => inr e
      | inl fecha, inl siria_titular =>
          if isna fecha then inl (false, None, None)
          else
            let menor := match calculate_age now fecha with
                         | Some age => age <? EDAD_MAYORIA k
                         | None => false
                         end in
            inl (menor, Some fecha, Some siria_titular)
      end
  end.

(** [get_person_data(numero_siria, is_titular)]: [None] when no row has
    that number. *)
Definition get_person_data (df : frame) (numero_siria : string) (is_titular : bool)
    : option context + py_exc :=
  match first_match df COL_SIRIA numero_siria with
  | inr e => inr e
  | inl None => inl None
  | inl (Some persona) =>
      let prefix := if is_titular then "titular_" else "menor_" in
      match get_col persona COL_FECHA with
      | inr e => inr e
      | inl fecha =>
          let fecha_v :=
            if negb (isna fecha) then
              match to_datetime parse_datetime fecha with
              | Some d => inl (VStr (fmt_fecha_nacimiento d))
              | None => inr (ValueError "to_datetime")
              end
            else inl (VCell fecha) in
          match fecha_v with
          | inr e => inr e
          | inl fv =>
              match get_col persona COL_SITUACION with
              | inr e => inr e
              | inl tipo =>
                  match read_cols persona campos_persona with
                  | inr e => inr e
                  | inl cols =>
                      let data := (map (fun '(k, c) => (String.append prefix k, VCell c)) cols ++
                                   [(String.append prefix "fecha_nacimiento", fv)] ++
                                   campos_proteccion tipo)%list in
                      inl (Some (if is_titular then data
                                 else data.["relacion_familiar" := VStr "Hijo/a"]))
                  end
              end
          end
      end
  end.
End Repository.

(** Whether the [n]-th anniversary of [birth] (the date [relativedelta]
    adds [n] years to) is not after [now]. *)
Definition aniversario_cumplido (n : Z) (now birth : datetime) : bool :=
  match shift_months birth (12 * n) with
  | Some a => negb (dt_ltb now a)
  | None => false
  end.

(** A context entry holding the marker ['X']. *)
Definition es_marca (kv : string * ctxval) : bool :=
  match snd kv with VStr s => String.eqb s "X" | VCell _ => false end.

Definition categorias_proteccion : list string := concat (map snd marcadores).

(** The keys of the dictionary [get_person_data] returns, in order. *)
Definition claves_persona (is_titular : bool) : list string :=
  let prefix := if is_titular then "titular_" else "menor_" in
  (map (fun '(k, _) => String.append prefix k) campos_persona ++
   [String.append prefix "fecha_nacimiento"] ++ map fst marcadores ++
   (if is_titular then [] else ["relacion_familiar"]))%list.

(** ** Lemmas *)

Lemma count_marcas (p : string -> bool) (ms : list (string * list string)) :
  (forall x y, p x = true -> p y = true -> x = y) ->
  NoDup (concat (map snd ms)) ->
  length (filter es_marca
    (map (fun '(campo, cats) => (campo, VStr (if existsb p cats then "X" else ""))) ms)) =
  (if existsb p (concat (map snd ms)) then 1 else 0)%nat.
Proof.
  intros Hp. induction ms as [|[campo cats] ms IH]; simpl; intros Hnd; auto.
  rewrite existsb_app. pose proof (NoDup_app_remove_l _ _ Hnd) as Hnd'.
  destruct (existsb p cats) eqn:E1; simpl; rewrite IH by exact Hnd'; auto.
  destruct (existsb p (concat (map snd ms))) eqn:E2; auto.
  apply existsb_exists in E1 as (x & Hx & Hpx). apply existsb_exists in E2 as (y & Hy & Hpy).
  rewrite (Hp x y Hpx Hpy) in Hx. destruct (NoDup_app_disjoint _ _ y Hnd Hx Hy).
Qed.

Lemma cell_eq_str_unique c x y : cell_eq_str c x = true -> cell_eq_str c y = true -> x = y.
Proof.
  destruct c; simpl; try discriminate. intros H1 H2. bool_to_prop. reflexivity.
Qed.

Lemma categorias_nodup : NoDup categorias_proteccion.
Proof. apply nodupb_NoDup. vm_compute. reflexivity. Qed.

Lemma is_minor_found parse_datetime k now df s persona f t :
  first_match df COL_SIRIA s = inl (Some persona) ->
  get_col persona COL_FECHA = inl f -> get_col persona COL_TITULAR = inl t ->
  isna f = false ->
  is_minor parse_datetime k now df s =
    inl (match calculate_age parse_datetime now f with
         | Some age => age <? EDAD_MAYORIA k
         | None => false
         end, Some f, Some t).
Proof. intros Hm Hf Ht Hna. unfold is_minor. rewrite Hm, Hf, Ht, Hna. reflexivity. Qed.

Lemma read_cols_keys r cols l : read_cols r cols = inl l -> map fst l = map fst cols.
Proof.
  revert l. induction cols as [|[k col] cols IH]; simpl; intros l H.
  - injection H as <-. reflexivity.
  - destruct (get_col r col) as [c|e]; [|discriminate].
    destruct (read_cols r cols) as [l'|e]; [|discriminate].
    injection H as <-. simpl. f_equal. apply IH. reflexivity.
Qed.

(** What [get_person_data] returns when it finds the person: the columns
    read in order, the birth date and the markers, and the relation for a
    minor. *)
Lemma get_person_data_inv parse_datetime d s b ctx :
  get_person_data parse_datetime d s b = inl (Some ctx) ->
  exists cols fv tipo,
    map fst cols = map fst campos_persona /\
    let prefix := if b then "titular_" else "menor_" in
    let data := (map (fun '(k, c) => (String.append prefix k, VCell c)) cols ++
                 [(String.append prefix "fecha_nacimiento", fv)] ++ campos_proteccion tipo)%list in
    ctx = if b then data else data.["relacion_familiar" := VStr "Hijo/a"].
Proof.
  unfold get_person_data. destruct (first_match d COL_SIRIA s) as [[persona|]|e]; try discriminate.
  destruct (get_col persona COL_FECHA) as [fecha|e]; [|discriminate].
  destruct (if negb (isna fecha) then _ else _) as [fv|e]; [|discriminate].
  destruct (get_col persona COL_SITUACION) as [tipo|e]; [|discriminate].
  destruct (read_cols persona campos_persona) as [cols|e] eqn:Hc; [|discriminate].
  intros H. injection H as <-. exists cols, fv, tipo.
  split; [exact (read_cols_keys _ _ _ Hc) | reflexivity].
Qed.

(** The record [get_person_data] returns always has the same keys: the
    prefixed columns, the birth date, the six markers and, for a minor,
    ["relacion_familiar"]. *)
Lemma get_person_data_keys parse_datetime d s b ctx :
  get_person_data parse_datetime d s b = inl (Some ctx) -> py_keys ctx = claves_persona b.
Proof.
  intros H. destruct (get_person_data_inv _ _ _ _ _ H) as (cols & fv & tipo & Hk & ->).
  unfold claves_persona.
  assert (Hmap : forall p, py_keys (map (fun '(k, c) => (String.append p k, VCell c)) cols) =
                           map (fun '(k, _) => String.append p k) campos_persona).
  { intros p. unfold py_keys. rewrite map_map.
    transitivity (map (String.append p) (map fst cols)).
    - rewrite map_map. apply map_ext. intros [k c]. reflexivity.
    - rewrite Hk. unfold campos_persona. reflexivity. }
  destruct b.
  - unfold py_keys in *. rewrite !map_app, Hmap, app_nil_r. reflexivity.
  - rewrite py_keys_set. unfold py_in.
    rewrite py_get_None.
    + unfold py_keys in *. rewrite !map_app, Hmap. rewrite <- !app_assoc. reflexivity.
    + unfold py_keys in *. rewrite !map_app, Hmap. vm_compute. intuition discriminate.
Qed.

(** A minor's record says ["Hijo/a"]. *)
Lemma get_person_data_relacion parse_datetime d s ctx :
  get_person_data parse_datetime d s false = inl (Some ctx) ->
  ctx.["relacion_familiar"] = Some (VStr "Hijo/a").
Proof.
  intros H. destruct (get_person_data_inv _ _ _ _ _ H) as (cols & fv & tipo & _ & ->).
  apply py_get_set_eq.
Qed.

(** ** Theorems *)

(** C27: [get_person_data] marks at most one protection status: the number
    of the six fields [sol_pi], [ben_pi], [ben_ps], [sol_ap], [apatrida],
    [sol_ben_pt] set to ['X'] is 1 when the category cell is one of the
    seven category strings of the source, 0 otherwise (a missing or unknown
    category sets none). *)
Theorem campos_proteccion_exclusivos tipo :
  length (filter es_marca (campos_proteccion tipo)) =
  (if existsb (cell_eq_str tipo) categorias_proteccion then 1 else 0)%nat.
Proof.
  apply count_marcas; [apply cell_eq_str_unique | apply categorias_nodup].
Qed.

(** C15: [calculate_age] fails only where [pd.to_datetime] does: on a
    non-missing cell whose date is valid, [relativedelta] raises nothing
    and its adjustment loop ends (the fuel of one round is enough), so the
    bare [except] of the source never hides another error. *)
Theorem calculate_age_total parse_datetime now c :
  dt_valid now = true -> isna c = false ->
  (forall b, to_datetime parse_datetime c = Some b -> dt_valid b = true) ->
  (calculate_age parse_datetime now c = None <-> to_datetime parse_datetime c = None).
Proof.
  intros Hn Hna Hv. unfold calculate_age. rewrite Hna.
  destruct (to_datetime parse_datetime c) as [b|] eqn:Hb; [|tauto].
  destruct (relativedelta_years_total now b Hn (Hv b eq_refl)) as [y ->].
  split; discriminate.
Qed.

(** C11: For a beneficiary whose birth date cell is a timestamp,
    [is_minor] answers true exactly when the 18th anniversary (the same
    date and time 18 years later, the 29th of February clamped to the 28th)
    is after [now]: exactly 18 years before is an adult, a day later a
    minor; a birth date in the future counts as a minor.  The two cells it
    returns are the birth date and the holder cell of the first matching
    row. *)
Theorem is_minor_aniversario parse_datetime k now df s persona b t :
  EDAD_MAYORIA k = 18 ->
  first_match df COL_SIRIA s = inl (Some persona) ->
  get_col persona COL_FECHA = inl (CTime b) ->
  get_col persona COL_TITULAR = inl t ->
  dt_valid now = true -> dt_valid b = true ->
  is_minor parse_datetime k now df s =
    inl (negb (aniversario_cumplido 18 now b), Some (CTime b), Some t).
Proof.
  intros H18 Hm Hf Ht Hn Hb. rewrite (is_minor_found _ _ _ _ _ _ _ _ Hm Hf Ht eq_refl).
  unfold calculate_age, aniversario_cumplido. cbn [isna negb to_datetime].
  rewrite H18. pose proof (dt_valid_spec now Hn) as (_ & Hnm & _).
  pose proof (dt_valid_spec b Hb) as (_ & Hbm & _).
  destruct (dt_ltb now b) eqn:E.
  - destruct (relativedelta_years_nonpos now b Hn Hb E) as (y & -> & Hy).
    destruct (shift_months b (12 * 18)) as [a|] eqn:Hs; [|do 3 f_equal; apply Z.ltb_lt; lia].
    destruct (shift_months_year a b _ Hbm Hs) as (Hia & Hma & _).
    pose proof (ltb_true_idx now b Hnm Hbm E).
    destruct (dt_ltb_idx now a Hnm Hma ltac:(lia)) as [-> _].
    do 3 f_equal. apply Z.ltb_lt. lia.
  - destruct (relativedelta_years_ge_iff now b 18 Hn Hb E ltac:(lia)) as (y & -> & Hiff).
    do 3 f_equal. destruct (Z.ltb_spec y 18) as [Hlt|Hge].
    + destruct (shift_months b (12 * 18)) as [a|] eqn:Hs; auto.
      destruct (dt_ltb now a) eqn:E2; auto.
      exfalso. assert (18 <= y) by (apply Hiff; eauto). lia.
    + destruct (proj1 Hiff Hge) as (a & Ha & Hle). rewrite Ha, Hle. reflexivity.
Qed.

(** Luis, born 2015-07-01, is a minor on 2026-11-09; his holder cell is
    the text ["100"]. *)
Lemma is_minor_aniversario_witness :
  EDAD_MAYORIA setup_constants = 18 /\
  is_minor (fun _ => None) setup_constants (mkdt 2026 11 9 10 0 0 0) hoja_ejemplo "300" =
    inl (true, Some (CTime (mkdt 2015 7 1 0 0 0 0)), Some (CStr "100")).
Proof.
  split; [reflexivity|].
  rewrite (is_minor_aniversario (fun _ => None) setup_constants (mkdt 2026 11 9 10 0 0 0)
             hoja_ejemplo "300" (fila (CStr "300") "Luis" "Pérez" (CTime (mkdt 2015 7 1 0 0 0 0))
                                   (CStr "100") CNaN)
             (mkdt 2015 7 1 0 0 0 0) (CStr "100")); reflexivity.
Defined.

(** Luis's age on 2026-11-09 from his timestamp cell. *)
Lemma calculate_age_total_witness :
  calculate_age (fun _ => None) (mkdt 2026 11 9 10 0 0 0) (CTime (mkdt 2015 7 1 0 0 0 0)) <> None.
Proof.
  intros H. apply calculate_age_total in H; [discriminate | reflexivity | reflexivity |].
  intros b Hb. injection Hb as <-. reflexivity.
Defined.
