(* ===== verification/Handler.v ===== *)
(** * The effects of a Tk callback: dialogs, files and an early exit

    A widget callback of [DocumentGenerator] runs to completion, talking
    to the user through blocking [messagebox] dialogs and writing files.
    Its observable behaviour is the sequence of those effects, an [event]
    trace, and the way it ends: a [return] of the source or an exception
    it does not catch, which Tk reports and the main loop survives.  This
    file gives the monad [M] the handlers are written in (a state monad
    over the trace with an exit), and a small Hoare-style logic on it:
    [extends P m] says that [m] only appends events satisfying [P], and
    [bind_inv] locates an event of [bind m k] in the continuation when [m]
    cannot produce it.  [Generate] and [Titular] are written in [M]. *)

From Stdlib Require Import String List Bool.
From S2P Require Import Prelude Frame Beneficiary.
Import ListNotations.
Open Scope string_scope.

(** ** Events *)

Inductive event :=
| EvShowError (title msg : string)
| EvShowWarning (title msg : string)
| EvAskYesNo (title msg : string)
| EvPromptTitular
| EvShowInfo (title msg : string)
| EvSave (filename : string) (ctx : context)
| EvArchivoParcial (filename : string)
| EvStartfile (filename : string).

(** How a handler ends: [return] or an uncaught exception. *)
Inductive stop := StopReturn | StopRaise (e : py_exc).

(** ** The handler monad: a trace of events and an early exit *)

Definition M (A : Type) := list event -> list event * (A + stop).

Definition ret {A} (x : A) : M A := fun tr => (tr, inl x).
Definition bind {A B} (m : M A) (k : A -> M B) : M B :=
  fun tr => match m tr with
            | (tr', inl x) => k x tr'
            | (tr', inr s) => (tr', inr s)
            end.
Definition emit (e : event) : M unit := fun tr => ((tr ++ [e])%list, inl tt).
Definition early_return {A} : M A := fun tr => (tr, inr StopReturn).
Definition raise {A} (e : py_exc) : M A := fun tr => (tr, inr (StopRaise e)).
Definition lift {A} (r : A + py_exc) : M A :=
  match r with inl x => ret x | inr e => raise e end.

Notation "x <- m ;; k" := (bind m (fun x => k)) (at level 61, m at next level, right associativity) : py_scope.
Notation "m ;;; k" := (bind m (fun _ => k)) (at level 61, right associativity) : py_scope.

Definition run {A} (m : M A) : list event * (A + stop) := m [].

(** [m] only appends events satisfying [P] to the trace. *)
Definition extends (P : event -> Prop) {A} (m : M A) : Prop :=
  forall tr, exists tr', fst (m tr) = (tr ++ tr')%list /\ Forall P tr'.

(** Every event that writes no file: neither a saved document nor a file
    left truncated by a failed save. *)
Definition no_guarda (e : event) : Prop :=
  match e with EvSave _ _ | EvArchivoParcial _ => False | _ => True end.

(** ** The trace logic *)

(** Running the monad's operations on a trace. *)
Ltac mred := unfold bind, ret, lift, emit, raise, early_return; cbv beta iota delta [negb]; cbn [app].

(** *** A small trace logic *)

Create HintDb handler.

Lemma extends_ret P {A} (x : A) : extends P (ret x).
Proof. intros tr. exists []. rewrite app_nil_r. auto. Qed.

Lemma extends_raise P {A} e : extends P (A := A) (raise e).
Proof. intros tr. exists []. rewrite app_nil_r. auto. Qed.

Lemma extends_early_return P {A} : extends P (A := A) early_return.
Proof. intros tr. exists []. rewrite app_nil_r. auto. Qed.

Lemma extends_lift P {A} (r : A + py_exc) : extends P (lift r).
Proof. destruct r; [apply extends_ret | apply extends_raise]. Qed.

Lemma extends_emit (P : event -> Prop) e : P e -> extends P (emit e).
Proof. intros HP tr. exists [e]. auto. Qed.

Lemma extends_bind P {A B} (m : M A) (k : A -> M B) :
  extends P m -> (forall x, extends P (k x)) -> extends P (bind m k).
Proof.
  intros Hm Hk tr. unfold bind. destruct (Hm tr) as (tr1 & E1 & F1).
  destruct (m tr) as [tr' [x|st]]; simpl in E1; subst tr'; [|exists tr1; auto].
  destruct (Hk x (tr ++ tr1)%list) as (tr2 & E2 & F2). rewrite E2, <- app_assoc.
  exists (tr1 ++ tr2)%list. split; [reflexivity|]. apply Forall_app. auto.
Qed.

#[export] Hint Resolve extends_ret extends_raise extends_early_return extends_lift
  extends_emit extends_bind : handler.
#[export] Hint Extern 1 (no_guarda _) => exact I : handler.

(** Walk a handler: binds, the branches of its matches, and its leaves. *)
Ltac extends_auto :=
  repeat (cbv beta; first
    [ apply extends_bind; intros
    | match goal with |- extends _ (match ?x with _ => _ end) => destruct x end
    | solve [eauto with handler] ]).

(** Under a computation that cannot emit [e], an occurrence of [e] in the
    trace of [bind m k] comes from the continuation. *)
Lemma bind_inv P {A B} (m : M A) (k : A -> M B) tr e :
  extends P m -> ~ P e -> ~ In e tr -> In e (fst (bind m k tr)) ->
  exists x tr1, m tr = (tr1, inl x) /\ ~ In e tr1 /\ In e (fst (k x tr1)).
Proof.
  intros Hm HP Hn. unfold bind. destruct (Hm tr) as (tr1 & E1 & F1).
  assert (Hn1 : ~ In e (tr ++ tr1)%list).
  { rewrite in_app_iff. intros [H|H]; [tauto|]. apply HP. exact (proj1 (Forall_forall _ _) F1 e H). }
  destruct (m tr) as [tr' [x|st]]; simpl in E1; subst tr'; [eauto|]. simpl. tauto.
Qed.

(** One step of a handler that cannot save a document before its end:
    the occurrence [H] of a save comes from the continuation. *)
Ltac sigue H x Hx :=
  apply bind_inv with (P := no_guarda) in H;
  [ destruct H as (x & ?tr & Hx & ?Hn & H)
  | extends_auto | cbn; tauto | first [assumption | intros []] ].

(** Monad laws on a given trace. *)
Lemma bind_assoc_tr {A B C} (m : M A) (k : A -> M B) (h : B -> M C) tr :
  bind (bind m k) h tr = bind m (fun x => bind (k x) h) tr.
Proof. unfold bind. destruct (m tr) as [tr1 [x|st]]; reflexivity. Qed.

Lemma bind_inl {A B} (m : M A) (k : A -> M B) tr tr1 x :
  m tr = (tr1, inl x) -> bind m k tr = k x tr1.
Proof. intros H. unfold bind. rewrite H. reflexivity. Qed.

Lemma bind_inr {A B} (m : M A) (k : A -> M B) tr tr1 s :
  m tr = (tr1, inr s) -> bind m k tr = (tr1, inr s).
Proof. intros H. unfold bind. rewrite H. reflexivity. Qed.

(** A handler that cannot save a document leaves none in its run. *)
Lemma extends_no_guarda_run {A} (m : M A) fn ctx :
  extends no_guarda m -> ~ In (EvSave fn ctx) (fst (run m)).
Proof.
  intros Hm Hin. destruct (Hm []) as (tr' & E & F). unfold run in Hin. rewrite E in Hin.
  exact (proj1 (Forall_forall _ _) F _ Hin).
Qed.

Lemma extends_run {A} P (m : M A) : extends P m -> Forall P (fst (run m)).
Proof. intros Hm. destruct (Hm []) as (tr' & E & F). unfold run. rewrite E. exact F. Qed.
