(* ===== verification/Generate.v ===== *)
(** * The receipt handler [generate_document] and the form's operations

    [generate_document] (lines 458-571) is the callback of the button
    "Generar recibí".  It runs to completion on one click, talking to the
    user through blocking dialogs.  It is written in the monad [M] of
    [Handler], which records the dialogs and file effects as a trace of
    [event]s and ends either normally (the [return]s of the source) or with
    an exception the handler does not catch.  The minor's branch first
    resolves the holder's number ([resolver_titular], whose protocol is
    the subject of [Titular]).  What the environment decides
    is a record [Env]: the clock, the answers to the yes/no question and to
    [prompt_for_titular], whether the template exists, and whether
    rendering, saving or [os.startfile] fail.

    The state the handler reads is [App]: the constants, the frame loaded
    by [load_excel_file] ([None] when loading failed), the professionals
    offered by the combobox, the locale and the [Form] (the widgets'
    contents).  The form operations
    [set_max_cuantia] (lines 603-613), [update_cuantia] (lines 590-601) and
    the [calculate_copago] event are state transformers of [Form]. *)

From Stdlib Require Import String List ZArith Bool Lia.
From S2P Require Import Prelude PyStr PyFloat Catalog Copago Validate Dates Frame Beneficiary Handler.
Import ListNotations.
Open Scope string_scope.

(** ** State, environment, events *)

Record Form := {
  numero_siria_entry : string;
  codigo_ayuda_combobox : string;
  cuantia_ayuda_entry : string;
  valor_combobox : string;
  payment_method_var : string;
  copago_label : string
}.

Record App := {
  consts : Constants;
  df : option frame;
  valores_combined : list cell;
  locale : time_locale;
  form : Form
}.

Record Env := {
  env_now : datetime;
  env_parse_datetime : string -> option datetime;
  env_confirma_titular : bool;
  env_respuesta_titular : option string;
  env_plantilla_existe : bool;
  env_error_render : option string;
  env_error_save : option (bool * string);
  env_error_startfile : option string
}.

(** ** Pieces of [generate_document] *)

(** [context[key][:2].upper()]: only a [str] can be sliced.  The name
    columns hold text, so pandas stores them with the [object] dtype and a
    numeric or missing cell among them is a Python [int] or [float], whose
    slicing raises [TypeError]; a column numeric throughout would give
    numpy scalars and [IndexError], a case the model does not separate
    (dtypes are not modelled). *)
Definition fragmento (ctx : context) (key : string) : M string :=
  match ctx.[key] with
  | None => raise (KeyError key)
  | Some (VStr s) | Some (VCell (CStr s)) => ret (py_upper (py_take 2 s))
  | Some (VCell CNaN) | Some (VCell (CFloatInt _)) => raise (TypeError "'float' object is not subscriptable")
  | Some (VCell (CInt _)) => raise (TypeError "'int' object is not subscriptable")
  | Some (VCell (CTime _)) => raise (TypeError "'Timestamp' object is not subscriptable")
  end.

(** The question of line 477; the f-string writes the cell as [str()]
    does, so the message is given that text. *)
Definition msg_confirmar (siria_titular : string) : string :=
  "Esta persona es menor de edad." ++ String (Ascii.ascii_of_nat 10) EmptyString ++
  "Se ha encontrado el número de SIRIA de la titular: " ++ siria_titular ++
  String (Ascii.ascii_of_nat 10) EmptyString ++ "¿Es correcto?".

Definition msg_requiere_titular : string := "Se requiere el número SIRIA del titular para menores de edad.".
Definition msg_sin_titular : string := "No se encontraron los datos del titular.".
Definition msg_sin_menor : string := "No se encontraron los datos del menor.".
Definition msg_sin_persona : string := "No se encontraron los datos de la persona.".
Definition msg_sin_plantilla : string := "No se encuentra el archivo de plantilla 'plantilla_recibo.docx'".

(** Lines 473-480: the holder's number found in the sheet, if the user
    confirms it. *)
Definition confirmar_titular (env : Env) (siria_titular : option cell) : M (option string) :=
  match siria_titular with
  | Some c =>
      if negb (isna c) then
        emit (EvAskYesNo "Confirmar titular" (msg_confirmar (cell_str c))) ;;;
        ret (if env_confirma_titular env then Some (cell_str c) else None)
      else ret None
  | None => ret None
  end.

(** [prompt_for_titular] (lines 358-391): a modal dialog whose [result] is
    set to the entry's text by "Aceptar"; "Cancelar" and closing the window
    leave it empty.  [None] is a dialog left without "Aceptar". *)
Definition prompt_for_titular (respuesta : option string) : string :=
  match respuesta with
  | Some texto => texto
  | None => ""
  end.

(** Lines 483-484: [prompt_for_titular()] when no number is confirmed. *)
Definition pedir_titular (env : Env) (t1 : option string) : M string :=
  match t1 with
  | Some s => if py_truthy s then ret s
              else emit EvPromptTitular ;;; ret (prompt_for_titular (env_respuesta_titular env))
  | None => emit EvPromptTitular ;;; ret (prompt_for_titular (env_respuesta_titular env))
  end.

(** Lines 472-489: the holder's SIRIA number is confirmed from the sheet
    or typed; without one the handler stops. *)
Definition resolver_titular (env : Env) (siria_titular : option cell) : M string :=
  t1 <- confirmar_titular env siria_titular ;;
  numero_siria_titular <- pedir_titular env t1 ;;
  if negb (py_truthy numero_siria_titular) then
    emit (EvShowError "Error" msg_requiere_titular) ;;; early_return
  else ret numero_siria_titular.

(** The minor's branch (lines 472-505): the holder's number is resolved,
    then both records are merged. *)
Definition rama_menor (env : Env) (d : frame) (numero_siria : string) (siria_titular : option cell)
    : M context :=
  numero_siria_titular <- resolver_titular env siria_titular ;;
    datos_titular <- lift (get_person_data (env_parse_datetime env) d numero_siria_titular true) ;;
    match datos_titular with
    | None => emit (EvShowError "Error" msg_sin_titular) ;;; early_return
    | Some dt =>
        datos_menor <- lift (get_person_data (env_parse_datetime env) d numero_siria false) ;;
        match datos_menor with
        | None => emit (EvShowError "Error" msg_sin_menor) ;;; early_return
        | Some dm => ret ((py_update (py_update [] dt) dm).["relacion_familiar" := VStr "Hijo/a"])
        end
    end.

(** The adult's branch (lines 506-513). *)
Definition rama_adulto (env : Env) (d : frame) (numero_siria : string) : M context :=
  datos_persona <- lift (get_person_data (env_parse_datetime env) d numero_siria true) ;;
  match datos_persona with
  | None => emit (EvShowError "Error" msg_sin_persona) ;;; early_return
  | Some dp => ret ((py_update [] dp).["relacion_familiar" := VStr ""])
  end.

(** The fields every receipt gets (lines 516-523). *)
Definition datos_adicionales (env : Env) (app : App) (descripcion : string) : context :=
  let f := form app in
  [("codigo_ayuda", VStr (codigo_ayuda_combobox f));
   ("descripcion_ayuda", VStr descripcion);
   ("cuantia", VStr (cuantia_ayuda_entry f));
   ("profesional", VStr (valor_combobox f));
   ("metodo_pago", VStr (payment_method_var f));
   ("fecha_actual", VStr (fmt_fecha_larga (locale app) (env_now env)))].

(** The keys [datos_adicionales] writes. *)
Definition claves_formulario : list string :=
  ["codigo_ayuda"; "descripcion_ayuda"; "cuantia"; "profesional"; "metodo_pago"; "fecha_actual"].

(** The [try] block (lines 546-571): the template looked up next to the
    script; [DocxTemplate] and [render] failing ([env_error_render]) write
    nothing; [template.save] failing ([env_error_save]) leaves the output
    file truncated or partly written when the exception comes after
    python-docx opened it for writing ([abierto]), and the code removes
    nothing; then [showinfo] and [os.startfile], all under one
    [except]. *)
Definition guardar (env : Env) (output_filename : string) (ctx : context) : M unit :=
  if negb (env_plantilla_existe env) then
    emit (EvShowError "Error" msg_sin_plantilla) ;;; early_return
  else
    match env_error_render env with
    | Some err => emit (EvShowError "Error" ("Error al generar el documento: " ++ err))
    | None =>
        match env_error_save env with
        | Some (abierto, err) =>
            (if abierto then emit (EvArchivoParcial output_filename) else ret tt) ;;;
            emit (EvShowError "Error" ("Error al generar el documento: " ++ err))
        | None =>
        emit (EvSave output_filename ctx) ;;;
        emit (EvShowInfo "Éxito" ("Documento generado correctamente: " ++ output_filename)) ;;;
        match env_error_startfile env with
        | Some err => emit (EvShowError "Error" ("Error al generar el documento: " ++ err))
        | None => emit (EvStartfile output_filename)
        end
        end
    end.

(** ** [generate_document] *)

Definition generate_document (env : Env) (app : App) : M unit :=
  let f := form app in
  let k := consts app in
  let '(is_valid, error_message) :=
    validate_input k (numero_siria_entry f) (codigo_ayuda_combobox f) (cuantia_ayuda_entry f) in
  if negb is_valid then emit (EvShowError "Error" error_message) ;;; early_return
  else
    let numero_siria := py_replace (py_strip (numero_siria_entry f)) " " "" in
    d <- (match df app with
          | Some d => ret d
          | None => raise (TypeError "'NoneType' object is not subscriptable")
          end) ;;
    r <- lift (is_minor (env_parse_datetime env) k (env_now env) d numero_siria) ;;
    let '(menor, _, siria_titular) := r in
    context <- (if menor then rama_menor env d numero_siria siria_titular
                else rama_adulto env d numero_siria) ;;
    descripcion <- (match (codigos_ayuda_descripcion k).[codigo_ayuda_combobox f] with
                    | Some s => ret s
                    | None => raise (KeyError (codigo_ayuda_combobox f))
                    end) ;;
    let context := py_update context (datos_adicionales env app descripcion) in
    let context := context.["cuantia" := VStr (cuantia_contexto (codigo_ayuda_combobox f)
                                                                (cuantia_ayuda_entry f))] in
    let fecha_actual := fmt_fecha_fichero (env_now env) in
    nombre <- fragmento context "menor_nombre" ;;
    apellido <- fragmento context "menor_apellidos" ;;
    let output_filename :=
      nombre ++ "." ++ apellido ++ "_" ++ numero_siria ++ "_" ++ fecha_actual ++ ".docx" in
    guardar env output_filename context.

(** ** The form's other operations *)

(** [set_max_cuantia]: the maximum into the amount entry, then the label. *)
Definition set_max_cuantia (k : Constants) (f : Form) : Form :=
  match (maximos_ayuda k).[codigo_ayuda_combobox f] with
  | Some max_cuantia =>
      let entrada := py_str_int max_cuantia in
      {| numero_siria_entry := numero_siria_entry f;
         codigo_ayuda_combobox := codigo_ayuda_combobox f;
         cuantia_ayuda_entry := entrada;
         valor_combobox := valor_combobox f;
         payment_method_var := payment_method_var f;
         copago_label := calculate_copago k (codigo_ayuda_combobox f) entrada |}
  | None => f
  end.

(** [update_cuantia]: the predefined amount into the entry, or the entry
    cleared.  No widget event is bound to it. *)
Definition update_cuantia (k : Constants) (f : Form) : Form :=
  {| numero_siria_entry := numero_siria_entry f;
     codigo_ayuda_combobox := codigo_ayuda_combobox f;
     cuantia_ayuda_entry :=
       match (cuantias_predefinidas k).[codigo_ayuda_combobox f] with
       | Some c => py_str_int c
       | None => ""
       end;
     valor_combobox := valor_combobox f;
     payment_method_var := payment_method_var f;
     copago_label := copago_label f |}.


(** ** Sample state for the examples: the sheet [hoja_ejemplo] loaded,
    the source's constants, the 9th of November 2026. *)
Definition env_ejemplo (confirma : bool) (respuesta : option string) : Env :=
  {| env_now := mkdt 2026 11 9 10 0 0 0; env_parse_datetime := fun _ => None;
     env_confirma_titular := confirma; env_respuesta_titular := respuesta;
     env_plantilla_existe := true; env_error_render := None; env_error_save := None;
     env_error_startfile := None |}.

(** The same day, with the [try] block's outcome chosen. *)
Definition env_guardado (plantilla : bool) (render : option string) (save : option (bool * string))
    (startfile : option string) : Env :=
  {| env_now := mkdt 2026 11 9 10 0 0 0; env_parse_datetime := fun _ => None;
     env_confirma_titular := true; env_respuesta_titular := None;
     env_plantilla_existe := plantilla; env_error_render := render; env_error_save := save;
     env_error_startfile := startfile |}.

Definition app_ejemplo (siria codigo cuantia : string) : App :=
  {| consts := setup_constants; df := Some hoja_ejemplo; valores_combined := [CStr "Trabajadora social"];
     locale := LocaleSpanish;
     form := {| numero_siria_entry := siria; codigo_ayuda_combobox := codigo;
                cuantia_ayuda_entry := cuantia; valor_combobox := "Trabajadora social";
                payment_method_var := "Efectivo"; copago_label := "" |} |}.

(** ** Lemmas *)


Lemma confirmar_titular_sin_guardar env st : extends no_guarda (confirmar_titular env st).
Proof. unfold confirmar_titular. extends_auto. Qed.

Lemma pedir_titular_sin_guardar env t1 : extends no_guarda (pedir_titular env t1).
Proof. unfold pedir_titular. extends_auto. Qed.

#[export] Hint Resolve confirmar_titular_sin_guardar pedir_titular_sin_guardar : handler.

Lemma resolver_titular_sin_guardar env st : extends no_guarda (resolver_titular env st).
Proof. unfold resolver_titular. extends_auto. Qed.

#[export] Hint Resolve resolver_titular_sin_guardar : handler.

Lemma rama_menor_sin_guardar env d s t : extends no_guarda (rama_menor env d s t).
Proof. unfold rama_menor. extends_auto. Qed.

Lemma rama_adulto_sin_guardar env d s : extends no_guarda (rama_adulto env d s).
Proof. unfold rama_adulto. extends_auto. Qed.

Lemma fragmento_sin_guardar c key : extends no_guarda (fragmento c key).
Proof. unfold fragmento. extends_auto. Qed.

#[export] Hint Resolve rama_menor_sin_guardar rama_adulto_sin_guardar fragmento_sin_guardar : handler.


(** What the adult's branch returns when it returns. *)
Lemma rama_adulto_inv env d s tr tr1 c :
  rama_adulto env d s tr = (tr1, inl c) ->
  exists dp, get_person_data (env_parse_datetime env) d s true = inl (Some dp) /\
             c = (py_update [] dp).["relacion_familiar" := VStr ""].
Proof.
  unfold rama_adulto. mred.
  destruct (get_person_data _ _ _ _) as [[dp|]|e]; intros H; inversion H; eauto.
Qed.

Lemma fragmento_none c key tr :
  c.[key] = None -> fragmento c key tr = (tr, inr (StopRaise (KeyError key))).
Proof. unfold fragmento. intros ->. reflexivity. Qed.

(** The only document [guardar] saves is the one it is given. *)
Lemma guardar_inv env fn0 ctx0 tr fn ctx :
  ~ In (EvSave fn ctx) tr -> In (EvSave fn ctx) (fst (guardar env fn0 ctx0 tr)) ->
  fn = fn0 /\ ctx = ctx0.
Proof.
  intros Hn. unfold guardar. destruct (env_plantilla_existe env), (env_error_render env);
    [| destruct (env_error_save env) as [[[|] err]|]; [| | destruct (env_error_startfile env)] | |];
    mred; cbn [fst negb]; rewrite ?in_app_iff; simpl; intros; intuition congruence.
Qed.

Lemma claves_adicionales env app desc :
  py_keys (datos_adicionales env app desc) = claves_formulario.
Proof. reflexivity. Qed.

(** A key the handler does not add keeps the value of the branch's
    context. *)
Lemma lookup_contexto_final env app base desc key v :
  ~ In key claves_formulario ->
  ((py_update base (datos_adicionales env app desc)).["cuantia" := v]).[key] = base.[key].
Proof.
  intros Hn. rewrite py_get_set_ne by (intros <-; apply Hn; simpl; tauto).
  rewrite py_get_update by (rewrite claves_adicionales; apply nodupb_NoDup; reflexivity).
  rewrite py_get_None; [reflexivity|]. rewrite claves_adicionales. exact Hn.
Qed.

Lemma claves_persona_nodup b : NoDup (claves_persona b).
Proof. apply nodupb_NoDup. destruct b; vm_compute; reflexivity. Qed.

(** The adult branch's context has no ["menor_nombre"]. *)
Lemma rama_adulto_sin_menor parse_datetime d s dp :
  get_person_data parse_datetime d s true = inl (Some dp) ->
  ((py_update [] dp).["relacion_familiar" := VStr ""]).["menor_nombre"] = None.
Proof.
  intros H. pose proof (get_person_data_keys _ _ _ _ _ H) as Hk.
  rewrite py_get_set_ne by discriminate.
  rewrite py_get_update by (rewrite Hk; apply claves_persona_nodup).
  rewrite py_get_None; [reflexivity|]. rewrite Hk. vm_compute. intuition discriminate.
Qed.

(** The holder's number the two dialogs settle on: the confirmed cell,
    or what was typed in the prompt. *)
Lemma titular_elegido env st tr :
  exists tr1 tit, bind (confirmar_titular env st) (pedir_titular env) tr = (tr1, inl tit) /\
    (tit = prompt_for_titular (env_respuesta_titular env) \/
     exists t, st = Some t /\ isna t = false /\ env_confirma_titular env = true /\ tit = cell_str t).
Proof.
  unfold confirmar_titular, pedir_titular.
  destruct st as [t|]; [destruct (isna t) eqn:Hna; [|destruct (env_confirma_titular env) eqn:Hc]|];
    mred; try destruct (py_truthy (cell_str t)); mred; eauto 10.
Qed.

(** The holder's number the branch goes on with: non-empty, and the
    confirmed cell or what was typed. *)
Lemma titular_resuelto env st tr tr1 tit :
  resolver_titular env st tr = (tr1, inl tit) ->
  py_truthy tit = true /\
  (tit = prompt_for_titular (env_respuesta_titular env) \/
   exists t, st = Some t /\ isna t = false /\ env_confirma_titular env = true /\ tit = cell_str t).
Proof.
  unfold resolver_titular. intros H.
  destruct (titular_elegido env st tr) as (tr2 & n & E & Hn).
  rewrite <- bind_assoc_tr, (bind_inl _ _ _ _ _ E) in H.
  destruct (py_truthy n) eqn:Hp; mred; cbn in H; [injection H as _ <-; auto | discriminate].
Qed.

(** What the minor's branch returns when it returns: the merged records
    of the holder (found under the confirmed or the typed number) and of
    the minor. *)
Lemma rama_menor_inv env d s st tr tr1 c :
  rama_menor env d s st tr = (tr1, inl c) ->
  exists tit dt dm,
    get_person_data (env_parse_datetime env) d tit true = inl (Some dt) /\
    get_person_data (env_parse_datetime env) d s false = inl (Some dm) /\
    c = (py_update (py_update [] dt) dm).["relacion_familiar" := VStr "Hijo/a"] /\
    (tit = prompt_for_titular (env_respuesta_titular env) \/
     exists t, st = Some t /\ isna t = false /\ env_confirma_titular env = true /\ tit = cell_str t).
Proof.
  unfold rama_menor. intros H.
  destruct (resolver_titular env st tr) as [tr2 [tit|x]] eqn:E;
    [|rewrite (bind_inr _ _ _ _ _ E) in H; discriminate].
  rewrite (bind_inl _ _ _ _ _ E) in H. apply titular_resuelto in E as [_ Htit].
  revert H. mred.
  destruct (get_person_data _ d tit true) as [[dt|]|e] eqn:Hdt; mred; try discriminate.
  destruct (get_person_data _ d s false) as [[dm|]|e] eqn:Hdm; mred; try discriminate.
  intros H. injection H as _ <-. exists tit, dt, dm. auto.
Qed.

(** Where a saved document comes from: the minor's branch returned a
    context [c], and the saved one is [c] updated with the form's fields
    and the adjusted amount. *)
Lemma guardado_spec env app fn ctx :
  let f := form app in
  let numero_siria := py_replace (py_strip (numero_siria_entry f)) " " "" in
  In (EvSave fn ctx) (fst (run (generate_document env app))) ->
  fst (validate_input (consts app) (numero_siria_entry f) (codigo_ayuda_combobox f)
         (cuantia_ayuda_entry f)) = true /\
  exists d fecha t tr tr1 c desc pre,
    df app = Some d /\
    is_minor (env_parse_datetime env) (consts app) (env_now env) d numero_siria =
      inl (true, fecha, t) /\
    rama_menor env d numero_siria t tr = (tr1, inl c) /\
    (codigos_ayuda_descripcion (consts app)).[codigo_ayuda_combobox f] = Some desc /\
    ctx = (py_update c (datos_adicionales env app desc)).["cuantia" :=
            VStr (cuantia_contexto (codigo_ayuda_combobox f) (cuantia_ayuda_entry f))] /\
    fn = pre ++ "_" ++ numero_siria ++ "_" ++ fmt_fecha_fichero (env_now env) ++ ".docx".
Proof.
  cbv zeta. unfold run, generate_document. cbv zeta.
  destruct (validate_input _ _ _ _) as [[|] msg]; cbn [negb].
  2: { mred. simpl. intuition discriminate. }
  intros H. sigue H d Hd.
  destruct (df app) as [d'|] eqn:Hdf; inversion Hd; subst; clear Hd.
  sigue H r Hr. unfold lift in Hr.
  destruct (is_minor _ _ _ _ _) as [[[menor fecha] t]|e] eqn:Hm; inversion Hr; subst; clear Hr.
  cbv beta iota in H. sigue H c Hc. sigue H desc Hdesc.
  destruct ((codigos_ayuda_descripcion (consts app)).[_]) eqn:Hd; inversion Hdesc; subst; clear Hdesc.
  sigue H nombre Hnom. sigue H apellido Hap.
  apply guardar_inv in H; [|assumption]. destruct H as [-> ->].
  destruct menor.
  - split; [reflexivity|]. do 8 eexists. repeat split; eauto.
    rewrite !str_app_assoc. reflexivity.
  - apply rama_adulto_inv in Hc as (dp & Hget & ->).
    rewrite fragmento_none in Hnom; [discriminate|].
    rewrite lookup_contexto_final by (unfold claves_formulario; simpl; intuition discriminate).
    exact (rama_adulto_sin_menor _ _ _ _ Hget).
Qed.

(** The amount a saved document states. *)
Lemma guardado_cuantia env app fn ctx :
  In (EvSave fn ctx) (fst (run (generate_document env app))) ->
  ctx.["cuantia"] = Some (VStr (cuantia_contexto (codigo_ayuda_combobox (form app))
                                                 (cuantia_ayuda_entry (form app)))).
Proof.
  intros H. destruct (guardado_spec env app fn ctx H)
    as (_ & d & fecha & t & tr & tr1 & c & desc & pre & _ & _ & _ & _ & Hctx & _).
  rewrite Hctx. apply py_get_set_eq.
Qed.

(** In the merged record of a minor, the minor's keys (the markers and the
    relation included) hold the minor's values and the holder's other keys
    the holder's. *)
Lemma contexto_menor_get dt dm k :
  py_keys dt = claves_persona true -> py_keys dm = claves_persona false ->
  dm.["relacion_familiar"] = Some (VStr "Hijo/a") ->
  let c := (py_update (py_update [] dt) dm).["relacion_familiar" := VStr "Hijo/a"] in
  (In k (claves_persona false) -> c.[k] = dm.[k]) /\
  (~ In k (claves_persona false) -> c.[k] = dt.[k]).
Proof.
  intros Hdt Hdm Hrel. cbv zeta.
  destruct (String.eqb k "relacion_familiar") eqn:E; bool_to_prop.
  - rewrite py_get_set_eq, Hrel. split; [auto|]. intros Hn. exfalso. apply Hn. vm_compute. tauto.
  - rewrite py_get_set_ne by congruence.
    rewrite !py_get_update by (rewrite ?Hdt, ?Hdm; apply claves_persona_nodup). split.
    + rewrite <- Hdm. intros Hin. destruct (py_get_Some_keys _ _ Hin) as [v ->]. reflexivity.
    + intros Hn. rewrite (py_get_None dm) by (rewrite Hdm; exact Hn). cbn. destruct (dt.[k]); reflexivity.
Qed.

Lemma claves_contexto c desc env app v k :
  In k (py_keys ((py_update c (datos_adicionales env app desc)).["cuantia" := v])) <->
  In k (py_keys c) \/ In k claves_formulario.
Proof.
  rewrite py_keys_set_In, py_keys_update_In, claves_adicionales.
  unfold claves_formulario. simpl. intuition (subst; auto).
Qed.

(** The records of people and the form's fields share no key. *)
Lemma claves_persona_formulario b k : In k (claves_persona b) -> ~ In k claves_formulario.
Proof.
  intros Hk Hin. apply existsb_eqb_In in Hin.
  assert (Hall : forallb (fun k => negb (existsb (String.eqb k) claves_formulario)) (claves_persona b) = true)
    by (destruct b; vm_compute; reflexivity).
  pose proof (forallb_In_true _ _ _ Hall Hk) as Hn. cbv beta in Hn. rewrite Hin in Hn. discriminate.
Qed.

(** A key of the minor's record, read from the saved context. *)
Lemma contexto_final_menor env app desc v dt dm k :
  py_keys dt = claves_persona true -> py_keys dm = claves_persona false ->
  dm.["relacion_familiar"] = Some (VStr "Hijo/a") -> In k (claves_persona false) ->
  ((py_update ((py_update (py_update [] dt) dm).["relacion_familiar" := VStr "Hijo/a"])
              (datos_adicionales env app desc)).["cuantia" := v]).[k] = dm.[k].
Proof.
  intros Kt Km Hrel Hk. rewrite lookup_contexto_final by exact (claves_persona_formulario false _ Hk).
  exact (proj1 (contexto_menor_get dt dm k Kt Km Hrel) Hk).
Qed.

(** The run for a minor whose holder is confirmed from the sheet and
    found, up to the [try] block: one question, then [guardar] with the
    file name and the context. *)
Lemma menor_hasta_guardar env app d fecha t dt dm desc nom ape :
  let f := form app in
  let numero_siria := py_replace (py_strip (numero_siria_entry f)) " " "" in
  let ctx := (py_update ((py_update (py_update [] dt) dm).["relacion_familiar" := VStr "Hijo/a"])
                        (datos_adicionales env app desc)).["cuantia" :=
               VStr (cuantia_contexto (codigo_ayuda_combobox f) (cuantia_ayuda_entry f))] in
  let fn := py_upper (py_take 2 nom) ++ "." ++ py_upper (py_take 2 ape) ++ "_" ++ numero_siria ++
            "_" ++ fmt_fecha_fichero (env_now env) ++ ".docx" in
  fst (validate_input (consts app) (numero_siria_entry f) (codigo_ayuda_combobox f)
         (cuantia_ayuda_entry f)) = true ->
  df app = Some d ->
  is_minor (env_parse_datetime env) (consts app) (env_now env) d numero_siria =
    inl (true, fecha, Some t) ->
  isna t = false -> env_confirma_titular env = true -> py_truthy (cell_str t) = true ->
  get_person_data (env_parse_datetime env) d (cell_str t) true = inl (Some dt) ->
  get_person_data (env_parse_datetime env) d numero_siria false = inl (Some dm) ->
  (codigos_ayuda_descripcion (consts app)).[codigo_ayuda_combobox f] = Some desc ->
  dm.["menor_nombre"] = Some (VCell (CStr nom)) -> dm.["menor_apellidos"] = Some (VCell (CStr ape)) ->
  run (generate_document env app) =
    guardar env fn ctx [EvAskYesNo "Confirmar titular" (msg_confirmar (cell_str t))].
Proof.
  cbv zeta. intros Hval Hdf Hm Hna Hc Ht Hdt Hdm Hdesc Hnom Hape.
  pose proof (get_person_data_keys _ _ _ _ _ Hdt) as Kt.
  pose proof (get_person_data_keys _ _ _ _ _ Hdm) as Km.
  pose proof (get_person_data_relacion _ _ _ _ Hdm) as Hrel.
  unfold run, generate_document. cbv zeta.
  destruct (validate_input _ _ _ _) as [valid msg]. simpl in Hval. subst valid.
  rewrite Hdf. mred. rewrite Hm. unfold rama_menor, resolver_titular, confirmar_titular, pedir_titular. mred.
  rewrite Hna, Hc. mred. rewrite Ht. mred. rewrite Ht. mred. rewrite Hdt. mred. rewrite Hdm. mred.
  rewrite Hdesc. mred. unfold fragmento.
  rewrite (contexto_final_menor env app desc _ dt dm "menor_nombre" Kt Km Hrel)
    by (vm_compute; tauto).
  rewrite Hnom. mred.
  rewrite (contexto_final_menor env app desc _ dt dm "menor_apellidos" Kt Km Hrel)
    by (vm_compute; tauto).
  rewrite Hape. mred. reflexivity.
Qed.

(** The same run when the template is there and rendering and opening
    work: the saved document, the success message, the opened file. *)
Lemma exito_menor env app d fecha t dt dm desc nom ape :
  let f := form app in
  let numero_siria := py_replace (py_strip (numero_siria_entry f)) " " "" in
  let ctx := (py_update ((py_update (py_update [] dt) dm).["relacion_familiar" := VStr "Hijo/a"])
                        (datos_adicionales env app desc)).["cuantia" :=
               VStr (cuantia_contexto (codigo_ayuda_combobox f) (cuantia_ayuda_entry f))] in
  let fn := py_upper (py_take 2 nom) ++ "." ++ py_upper (py_take 2 ape) ++ "_" ++ numero_siria ++
            "_" ++ fmt_fecha_fichero (env_now env) ++ ".docx" in
  fst (validate_input (consts app) (numero_siria_entry f) (codigo_ayuda_combobox f)
         (cuantia_ayuda_entry f)) = true ->
  df app = Some d ->
  is_minor (env_parse_datetime env) (consts app) (env_now env) d numero_siria =
    inl (true, fecha, Some t) ->
  isna t = false -> env_confirma_titular env = true -> py_truthy (cell_str t) = true ->
  get_person_data (env_parse_datetime env) d (cell_str t) true = inl (Some dt) ->
  get_person_data (env_parse_datetime env) d numero_siria false = inl (Some dm) ->
  (codigos_ayuda_descripcion (consts app)).[codigo_ayuda_combobox f] = Some desc ->
  dm.["menor_nombre"] = Some (VCell (CStr nom)) -> dm.["menor_apellidos"] = Some (VCell (CStr ape)) ->
  env_plantilla_existe env = true -> env_error_render env = None -> env_error_save env = None ->
  env_error_startfile env = None ->
  run (generate_document env app) =
    ([EvAskYesNo "Confirmar titular" (msg_confirmar (cell_str t)); EvSave fn ctx;
      EvShowInfo "Éxito" ("Documento generado correctamente: " ++ fn); EvStartfile fn], inl tt).
Proof.
  cbv zeta. intros Hval Hdf Hm Hna Hc Ht Hdt Hdm Hdesc Hnom Hape Hpl Hre Hsv Hst.
  rewrite (menor_hasta_guardar env app d fecha t dt dm desc nom ape); try assumption.
  unfold guardar. rewrite Hpl, Hre, Hsv, Hst. mred. reflexivity.
Qed.

(** A [try] block that fails before the output file is opened writes
    no file: the template is missing, or [DocxTemplate], [render] or
    [save] raise first. *)
Lemma guardar_fallido_sin_guardar env fn ctx :
  env_plantilla_existe env = false \/ env_error_render env <> None \/
  (exists err, env_error_save env = Some (false, err)) ->
  extends no_guarda (guardar env fn ctx).
Proof.
  intros H. unfold guardar. destruct (env_plantilla_existe env); [|extends_auto].
  destruct (env_error_render env); [extends_auto|].
  destruct H as [H|[H|(err & H)]]; try congruence. rewrite H. extends_auto.
Qed.

(** ** Theorems *)

(** C26: When [validate_input] rejects the form, the handler shows exactly
    one error dialog with the validation message and returns; nothing
    else happens. *)
Theorem generate_validacion_fallida env app msg :
  validate_input (consts app) (numero_siria_entry (form app))
    (codigo_ayuda_combobox (form app)) (cuantia_ayuda_entry (form app)) = (false, msg) ->
  run (generate_document env app) = ([EvShowError "Error" msg], inr StopReturn).
Proof. intros H. unfold run, generate_document. cbv zeta. rewrite H. reflexivity. Qed.

(** C2: For an adult found in the sheet, the handler raises
    [KeyError('menor_nombre')] before any dialog, render or file: the file
    name reads the minor's name, which the adult's context never has, so
    no adult ever gets a receipt. *)
Theorem generate_adulto_keyerror env app d menor_f menor_t dp desc :
  let f := form app in
  let numero_siria := py_replace (py_strip (numero_siria_entry f)) " " "" in
  fst (validate_input (consts app) (numero_siria_entry f) (codigo_ayuda_combobox f)
         (cuantia_ayuda_entry f)) = true ->
  df app = Some d ->
  is_minor (env_parse_datetime env) (consts app) (env_now env) d numero_siria =
    inl (false, menor_f, menor_t) ->
  get_person_data (env_parse_datetime env) d numero_siria true = inl (Some dp) ->
  (codigos_ayuda_descripcion (consts app)).[codigo_ayuda_combobox f] = Some desc ->
  run (generate_document env app) = ([], inr (StopRaise (KeyError "menor_nombre"))).
Proof.
  cbv zeta. intros Hval Hdf Hmin Hget Hdesc.
  unfold run, generate_document. cbv zeta.
  destruct (validate_input _ _ _ _) as [valid msg]. simpl in Hval. subst valid.
  rewrite Hdf. mred. rewrite Hmin. unfold rama_adulto. mred. rewrite Hget. mred.
  rewrite Hdesc. mred. unfold fragmento.
  rewrite lookup_contexto_final by (unfold claves_formulario; simpl; intuition discriminate).
  rewrite (rama_adulto_sin_menor _ _ _ _ Hget). reflexivity.
Qed.

(** C32: A SIRIA entry made only of whitespace passes [validate_input]
    whenever the same form with a number typed would (the check is on the
    raw text), and the handler then searches for the empty number: in a
    sheet with the SIRIA column and no empty identifier it reports that the
    person was not found, instead of asking for the missing number; in a
    sheet without the column (a partial load) [df[...]] raises
    [KeyError]. *)
Theorem generate_siria_en_blanco env app d s0 :
  let f := form app in
  py_truthy (numero_siria_entry f) = true -> py_strip (numero_siria_entry f) = "" ->
  py_truthy s0 = true ->
  fst (validate_input (consts app) s0 (codigo_ayuda_combobox f) (cuantia_ayuda_entry f)) = true ->
  df app = Some d -> filas_con d COL_SIRIA "" = [] ->
  run (generate_document env app) =
    if forallb (fun r => py_in r COL_SIRIA) d
    then ([EvShowError "Error" msg_sin_persona], inr StopReturn)
    else ([], inr (StopRaise (KeyError COL_SIRIA))).
Proof.
  cbv zeta. intros Ht Hs Ht0 Hval Hdf Hnone.
  rewrite <- (validate_input_siria _ _ _ _ _ (eq_trans Ht (eq_sym Ht0))) in Hval.
  unfold run, generate_document. cbv zeta.
  destruct (validate_input _ _ _ _) as [valid msg]. simpl in Hval. subst valid.
  rewrite Hs, Hdf. change (py_replace "" " " "") with "". mred. unfold is_minor.
  destruct (forallb (fun r => py_in r COL_SIRIA) d) eqn:Hc.
  - rewrite (first_match_columna _ _ _ Hc), Hnone. mred.
    unfold rama_adulto, get_person_data. rewrite (first_match_columna _ _ _ Hc), Hnone. reflexivity.
  - rewrite (first_match_sin_columna _ _ _ Hc). reflexivity.
Qed.

(** C7: The template context of every saved receipt: its keys are
    exactly those of the holder's record, of the minor's record and the
    six form fields; the minor's fields, the protection markers and the
    relation ["Hijo/a"] come from the minor's row, the holder's other
    fields from the row of the holder, found under the number confirmed
    from the sheet or the one typed in the prompt. *)
Theorem generate_contexto_menor env app fn ctx :
  let f := form app in
  let numero_siria := py_replace (py_strip (numero_siria_entry f)) " " "" in
  In (EvSave fn ctx) (fst (run (generate_document env app))) ->
  exists d fecha st tit dt dm,
    df app = Some d /\
    is_minor (env_parse_datetime env) (consts app) (env_now env) d numero_siria = inl (true, fecha, st) /\
    (tit = prompt_for_titular (env_respuesta_titular env) \/
     exists t, st = Some t /\ isna t = false /\ env_confirma_titular env = true /\ tit = cell_str t) /\
    get_person_data (env_parse_datetime env) d tit true = inl (Some dt) /\
    get_person_data (env_parse_datetime env) d numero_siria false = inl (Some dm) /\
    (forall k, In k (py_keys ctx) <-> In k (claves_persona true ++ claves_persona false ++ claves_formulario)) /\
    ctx.["relacion_familiar"] = Some (VStr "Hijo/a") /\
    (forall k, In k (claves_persona false) -> ctx.[k] = dm.[k]) /\
    (forall k, In k (claves_persona true) -> ~ In k (claves_persona false) -> ctx.[k] = dt.[k]).
Proof.
  cbv zeta. intros H.
  destruct (guardado_spec env app fn ctx H)
    as (_ & d & fecha & st & tr & tr1 & c & desc & pre & Hdf & Hm & Hr & _ & -> & _).
  destruct (rama_menor_inv _ _ _ _ _ _ _ Hr) as (tit & dt & dm & Hdt & Hdm & -> & Htit).
  pose proof (get_person_data_keys _ _ _ _ _ Hdt) as Kt.
  pose proof (get_person_data_keys _ _ _ _ _ Hdm) as Km.
  pose proof (get_person_data_relacion _ _ _ _ Hdm) as Hrel.
  assert (Hr_in : In "relacion_familiar" (claves_persona false)) by (vm_compute; tauto).
  exists d, fecha, st, tit, dt, dm.
  refine (conj Hdf (conj Hm (conj Htit (conj Hdt (conj Hdm (conj _ (conj _ (conj _ _)))))))).
  - intros k. rewrite claves_contexto, py_keys_set_In, !py_keys_update_In, Kt, Km, !in_app_iff.
    cbn [py_keys map In]. intuition (subst; auto).
  - rewrite lookup_contexto_final by exact (claves_persona_formulario false _ Hr_in).
    apply py_get_set_eq.
  - intros k Hk. exact (contexto_final_menor env app desc _ dt dm k Kt Km Hrel Hk).
  - intros k Hk Hn. rewrite lookup_contexto_final by exact (claves_persona_formulario true _ Hk).
    exact (proj2 (contexto_menor_get dt dm k Kt Km Hrel) Hn).
Qed.

(** C3: The receipt of a minor: when validation passes, the user
    confirms a holder number found in the sheet, both records are found,
    the template exists and rendering, saving and opening work, the handler asks
    once, saves the document under
    ["<NO>.<AP>_<SIRIA>_<YYYY.MM.DD>.docx"] (the first two letters of the
    minor's name and surname, upper-cased) with the merged records, the
    form's fields and the adjusted amount, reports success and opens the
    file. *)
Theorem generate_menor_exito env app d fecha t dt dm desc nom ape :
  let f := form app in
  let numero_siria := py_replace (py_strip (numero_siria_entry f)) " " "" in
  let ctx := (py_update ((py_update (py_update [] dt) dm).["relacion_familiar" := VStr "Hijo/a"])
                        (datos_adicionales env app desc)).["cuantia" :=
               VStr (cuantia_contexto (codigo_ayuda_combobox f) (cuantia_ayuda_entry f))] in
  let fn := py_upper (py_take 2 nom) ++ "." ++ py_upper (py_take 2 ape) ++ "_" ++ numero_siria ++
            "_" ++ fmt_fecha_fichero (env_now env) ++ ".docx" in
  fst (validate_input (consts app) (numero_siria_entry f) (codigo_ayuda_combobox f)
         (cuantia_ayuda_entry f)) = true ->
  df app = Some d ->
  is_minor (env_parse_datetime env) (consts app) (env_now env) d numero_siria =
    inl (true, fecha, Some t) ->
  isna t = false -> env_confirma_titular env = true -> py_truthy (cell_str t) = true ->
  get_person_data (env_parse_datetime env) d (cell_str t) true = inl (Some dt) ->
  get_person_data (env_parse_datetime env) d numero_siria false = inl (Some dm) ->
  (codigos_ayuda_descripcion (consts app)).[codigo_ayuda_combobox f] = Some desc ->
  dm.["menor_nombre"] = Some (VCell (CStr nom)) -> dm.["menor_apellidos"] = Some (VCell (CStr ape)) ->
  env_plantilla_existe env = true -> env_error_render env = None -> env_error_save env = None ->
  env_error_startfile env = None ->
  run (generate_document env app) =
    ([EvAskYesNo "Confirmar titular" (msg_confirmar (cell_str t)); EvSave fn ctx;
      EvShowInfo "Éxito" ("Documento generado correctamente: " ++ fn); EvStartfile fn], inl tt).
Proof.
  cbv zeta. intros. eapply exito_menor; eassumption.
Qed.

(** C21: For a code without co-payment the receipt states the amount
    exactly as it was typed: it is validated with [float()] but written
    unparsed and unformatted, so ["50,5"] or ["1e2"] reach the document
    as such. *)
Theorem recibo_cuantia_literal env app fn ctx :
  requiere_copago (codigo_ayuda_combobox (form app)) = false ->
  In (EvSave fn ctx) (fst (run (generate_document env app))) ->
  ctx.["cuantia"] = Some (VStr (cuantia_ayuda_entry (form app))).
Proof.
  intros Hc H. rewrite (guardado_cuantia _ _ _ _ H), cuantia_contexto_sin_copago by exact Hc.
  reflexivity.
Qed.

(** An empty SIRIA number shows the "missing data" error. *)
Lemma generate_validacion_fallida_witness :
  validate_input setup_constants "" "1FGBI" "50" = (false, msg_faltan_datos) /\
  run (generate_document (env_ejemplo true None) (app_ejemplo "" "1FGBI" "50")) =
    ([EvShowError "Error" msg_faltan_datos], inr StopReturn).
Proof.
  split; [vm_compute; reflexivity|].
  apply generate_validacion_fallida. vm_compute. reflexivity.
Defined.

(** Ana (SIRIA 100, born 1990) asks for a receipt: the handler raises. *)
Lemma generate_adulto_keyerror_witness :
  run (generate_document (env_ejemplo true None) (app_ejemplo "100" "1FGBI" "50")) =
    ([], inr (StopRaise (KeyError "menor_nombre"))).
Proof. eapply generate_adulto_keyerror; reflexivity. Defined.

(** C1: A receipt is only ever saved for a minor: every [EvSave] in the
    trace of [generate_document] comes from a run where validation passed,
    the sheet was loaded and [is_minor] answered true for the typed SIRIA
    number (spaces removed); the saved context's ["cuantia"] is the
    amount [cuantia_contexto] computes from the code and the entry (net of
    the co-payment for the co-pay codes), and the file name ends with
    ["_<SIRIA>_<YYYY.MM.DD>.docx"]. *)
Theorem generate_solo_menores env app fn ctx :
  let f := form app in
  let numero_siria := py_replace (py_strip (numero_siria_entry f)) " " "" in
  In (EvSave fn ctx) (fst (run (generate_document env app))) ->
  fst (validate_input (consts app) (numero_siria_entry f) (codigo_ayuda_combobox f)
         (cuantia_ayuda_entry f)) = true /\
  (exists d fecha t, df app = Some d /\
     is_minor (env_parse_datetime env) (consts app) (env_now env) d numero_siria =
       inl (true, fecha, t)) /\
  ctx.["cuantia"] = Some (VStr (cuantia_contexto (codigo_ayuda_combobox f) (cuantia_ayuda_entry f))) /\
  (exists pre, fn = pre ++ "_" ++ numero_siria ++ "_" ++ fmt_fecha_fichero (env_now env) ++ ".docx").
Proof.
  cbv zeta. intros H.
  destruct (guardado_spec env app fn ctx H) as (Hv & d & fecha & t & tr & tr1 & c & desc & pre &
                                                Hdf & Hm & _ & _ & -> & ->).
  split; [exact Hv|]. split; [eauto|]. split; [apply py_get_set_eq | eauto].
Qed.

(** Luis (SIRIA 300, a minor whose holder 100 is confirmed) gets his
    receipt for the co-pay code ATSANGA: 50 euros are saved as 42.50. *)
Lemma generate_solo_menores_witness :
  exists ctx,
    In (EvSave "LU.PÉ_300_2026.11.09.docx" ctx)
       (fst (run (generate_document (env_ejemplo true None) (app_ejemplo "300" "ATSANGA" "50")))) /\
    ctx.["cuantia"] = Some (VStr (cuantia_contexto "ATSANGA" "50")) /\
    cuantia_contexto "ATSANGA" "50" = "42.50".
Proof.
  assert (Hin : exists ctx, In (EvSave "LU.PÉ_300_2026.11.09.docx" ctx)
       (fst (run (generate_document (env_ejemplo true None) (app_ejemplo "300" "ATSANGA" "50"))))).
  { vm_compute. eexists. right. left. reflexivity. }
  destruct Hin as [ctx Hin]. exists ctx. split; [exact Hin|].
  split; [exact (proj1 (proj2 (proj2 (generate_solo_menores _ _ _ _ Hin))))|].
  vm_compute. reflexivity.
Defined.

(** C12: The holder protocol for a minor: when the sheet's holder cell is
    missing, or the user rejects it, or it reads as an empty string, and the
    prompt is cancelled, closed or accepted empty, the handler asks (only for a
    present cell), prompts, shows [msg_requiere_titular] and returns
    without saving. *)
Theorem generate_menor_sin_titular env app d fecha t :
  let f := form app in
  let numero_siria := py_replace (py_strip (numero_siria_entry f)) " " "" in
  fst (validate_input (consts app) (numero_siria_entry f) (codigo_ayuda_combobox f)
         (cuantia_ayuda_entry f)) = true ->
  df app = Some d ->
  is_minor (env_parse_datetime env) (consts app) (env_now env) d numero_siria =
    inl (true, fecha, Some t) ->
  (isna t = true \/ env_confirma_titular env = false \/ py_truthy (cell_str t) = false) ->
  py_truthy (prompt_for_titular (env_respuesta_titular env)) = false ->
  run (generate_document env app) =
    (((if isna t then [] else [EvAskYesNo "Confirmar titular" (msg_confirmar (cell_str t))]) ++
      [EvPromptTitular; EvShowError "Error" msg_requiere_titular])%list, inr StopReturn).
Proof.
  cbv zeta. intros Hval Hdf Hm Hrej Htec.
  unfold run, generate_document. cbv zeta.
  destruct (validate_input _ _ _ _) as [valid msg]. simpl in Hval. subst valid.
  rewrite Hdf. mred. rewrite Hm. unfold rama_menor, resolver_titular, confirmar_titular, pedir_titular. mred.
  destruct (isna t); mred; [rewrite Htec; reflexivity|].
  destruct (env_confirma_titular env); mred; [|rewrite Htec; reflexivity].
  destruct Hrej as [Hr|[Hr|Hr]]; try discriminate. rewrite Hr. mred. rewrite Htec. reflexivity.
Qed.

(** C18: A holder number confirmed from the sheet is looked up as the
    cell's [str]: when no row has that text, the handler asks, shows
    [msg_sin_titular] and returns.  A holder column with missing values is
    stored as floats, so the holder 100 is looked up as ["100.0"], which
    the SIRIA column, converted by [astype(str)], holds only if it too was
    read as floats. *)
Theorem generate_titular_no_encontrado env app d fecha t :
  let f := form app in
  let numero_siria := py_replace (py_strip (numero_siria_entry f)) " " "" in
  fst (validate_input (consts app) (numero_siria_entry f) (codigo_ayuda_combobox f)
         (cuantia_ayuda_entry f)) = true ->
  df app = Some d ->
  is_minor (env_parse_datetime env) (consts app) (env_now env) d numero_siria =
    inl (true, fecha, Some t) ->
  isna t = false -> env_confirma_titular env = true -> py_truthy (cell_str t) = true ->
  get_person_data (env_parse_datetime env) d (cell_str t) true = inl None ->
  run (generate_document env app) =
    ([EvAskYesNo "Confirmar titular" (msg_confirmar (cell_str t)); EvShowError "Error" msg_sin_titular],
     inr StopReturn).
Proof.
  cbv zeta. intros Hval Hdf Hm Hna Hc Ht Hget.
  unfold run, generate_document. cbv zeta.
  destruct (validate_input _ _ _ _) as [valid msg]. simpl in Hval. subst valid.
  rewrite Hdf. mred. rewrite Hm. unfold rama_menor, resolver_titular, confirmar_titular, pedir_titular. mred.
  rewrite Hna, Hc. mred. rewrite Ht. mred. rewrite Ht. mred. rewrite Hget. reflexivity.
Qed.

(** Ángel (SIRIA 200) is a minor whose holder cell is the float [100.0];
    the user rejects it and cancels the prompt. *)
Lemma generate_menor_sin_titular_witness :
  run (generate_document (env_ejemplo false None) (app_ejemplo "200" "1FGBI" "50")) =
    ([EvAskYesNo "Confirmar titular" (msg_confirmar (cell_str (CFloatInt 100))); EvPromptTitular;
      EvShowError "Error" msg_requiere_titular], inr StopReturn).
Proof.
  apply (generate_menor_sin_titular _ _ hoja_ejemplo (Some (CTime (mkdt 2015 7 1 0 0 0 0)))
           (CFloatInt 100)); vm_compute; auto.
Defined.

(** The same minor with the holder confirmed: ["100.0"] is not found,
    although row 100 is in the sheet. *)
Lemma generate_titular_no_encontrado_witness :
  first_match hoja_ejemplo COL_SIRIA "100" <> inl None /\
  run (generate_document (env_ejemplo true None) (app_ejemplo "200" "1FGBI" "50")) =
    ([EvAskYesNo "Confirmar titular" (msg_confirmar (cell_str (CFloatInt 100)));
      EvShowError "Error" msg_sin_titular], inr StopReturn).
Proof.
  split; [vm_compute; discriminate|].
  apply (generate_titular_no_encontrado _ _ hoja_ejemplo (Some (CTime (mkdt 2015 7 1 0 0 0 0)))
           (CFloatInt 100)); vm_compute; reflexivity.
Defined.

(** C31: The amount buttons: [set_max_cuantia] writes the code's maximum
    into the entry as an integer and recomputes the co-pay label from it,
    and the form it leaves passes validation when a SIRIA number has been
    typed; [update_cuantia] writes the same amount (the predefined amounts
    are the maxima). *)
Theorem set_max_cuantia_valida f m :
  let c := codigo_ayuda_combobox f in
  py_truthy (numero_siria_entry f) = true ->
  (maximos_ayuda setup_constants).[c] = Some m ->
  let f' := set_max_cuantia setup_constants f in
  cuantia_ayuda_entry f' = py_str_int m /\
  copago_label f' = calculate_copago setup_constants c (py_str_int m) /\
  validate_input setup_constants (numero_siria_entry f') (codigo_ayuda_combobox f')
    (cuantia_ayuda_entry f') = (true, "") /\
  cuantia_ayuda_entry (update_cuantia setup_constants f) = py_str_int m.
Proof.
  cbv zeta. intros Hs Hm. pose proof (boundary_at _ _ Hm) as Hb.
  unfold boundary_ok in Hb. cbn [fst snd] in Hb. bool_to_prop.
  unfold set_max_cuantia, update_cuantia. rewrite cuantias_son_maximos, Hm. cbn.
  repeat split. rewrite (validate_input_siria _ _ "x") by (rewrite Hs; reflexivity).
  apply answer_eqb_eq. assumption.
Qed.

(** The maximum button on the ATSANGA code. *)
Lemma set_max_cuantia_valida_witness :
  let f := {| numero_siria_entry := "300"; codigo_ayuda_combobox := "ATSANGA";
              cuantia_ayuda_entry := ""; valor_combobox := ""; payment_method_var := "Efectivo";
              copago_label := "" |} in
  cuantia_ayuda_entry (set_max_cuantia setup_constants f) = "200" /\
  copago_label (set_max_cuantia setup_constants f) = calculate_copago setup_constants "ATSANGA" "200" /\
  validate_input setup_constants "300" "ATSANGA" "200" = (true, "") /\
  cuantia_ayuda_entry (update_cuantia setup_constants f) = "200".
Proof. intros f. exact (set_max_cuantia_valida f 200 eq_refl eq_refl). Defined.

(** Three spaces typed as the SIRIA number. *)
Lemma generate_siria_en_blanco_witness :
  run (generate_document (env_ejemplo true None) (app_ejemplo "   " "1FGBI" "50")) =
    ([EvShowError "Error" msg_sin_persona], inr StopReturn).
Proof.
  rewrite (generate_siria_en_blanco _ _ hoja_ejemplo "300"); vm_compute; reflexivity.
Defined.

(** Luis's receipt: the holder's name from row 100, the minor's from row
    300, the relation "Hijo/a". *)
Lemma generate_contexto_menor_witness :
  exists ctx,
    In (EvSave "LU.PÉ_300_2026.11.09.docx" ctx)
       (fst (run (generate_document (env_ejemplo true None) (app_ejemplo "300" "ATSANGA" "50")))) /\
    ctx.["titular_nombre"] = Some (VCell (CStr "ana")) /\
    ctx.["menor_nombre"] = Some (VCell (CStr "Luis")) /\
    ctx.["relacion_familiar"] = Some (VStr "Hijo/a").
Proof.
  assert (Hin : exists ctx, In (EvSave "LU.PÉ_300_2026.11.09.docx" ctx)
       (fst (run (generate_document (env_ejemplo true None) (app_ejemplo "300" "ATSANGA" "50")))) /\
       ctx.["titular_nombre"] = Some (VCell (CStr "ana")) /\
       ctx.["menor_nombre"] = Some (VCell (CStr "Luis"))).
  { vm_compute. eexists. split; [right; left; reflexivity | split; reflexivity]. }
  destruct Hin as (ctx & Hin & Ht & Hm). exists ctx. repeat split; [exact Hin | exact Ht | exact Hm |].
  destruct (generate_contexto_menor _ _ _ _ Hin)
    as (d & fecha & st & tit & dt & dm & _ & _ & _ & _ & _ & _ & Hrel & _). exact Hrel.
Defined.

(** The spec's end-to-end case: Luis (300, born 2015) with his holder Ana
    (100) confirmed, code ATSANGA, 50 euros: the receipt states 42.50. *)
Lemma generate_menor_exito_witness :
  exists ctx,
    run (generate_document (env_ejemplo true None) (app_ejemplo "300" "ATSANGA" "50")) =
      ([EvAskYesNo "Confirmar titular" (msg_confirmar "100");
        EvSave "LU.PÉ_300_2026.11.09.docx" ctx;
        EvShowInfo "Éxito" ("Documento generado correctamente: " ++ "LU.PÉ_300_2026.11.09.docx");
        EvStartfile "LU.PÉ_300_2026.11.09.docx"], inl tt) /\
    ctx.["cuantia"] = Some (VStr "42.50").
Proof.
  erewrite (generate_menor_exito (env_ejemplo true None) (app_ejemplo "300" "ATSANGA" "50")
             hoja_ejemplo _ (CStr "100") _ _ _ "Luis" "Pérez").
  2-16: reflexivity.
  eexists. split; [reflexivity | vm_compute; reflexivity].
Defined.

(** Luis's receipt for code 1FGBI with the amount typed ["50,5"]. *)
Lemma recibo_cuantia_literal_witness :
  exists ctx,
    In (EvSave "LU.PÉ_300_2026.11.09.docx" ctx)
       (fst (run (generate_document (env_ejemplo true None) (app_ejemplo "300" "1FGBI" "50,5")))) /\
    ctx.["cuantia"] = Some (VStr "50,5").
Proof.
  assert (Hin : exists ctx, In (EvSave "LU.PÉ_300_2026.11.09.docx" ctx)
       (fst (run (generate_document (env_ejemplo true None) (app_ejemplo "300" "1FGBI" "50,5"))))).
  { vm_compute. eexists. right. left. reflexivity. }
  destruct Hin as [ctx Hin]. exists ctx. split; [exact Hin|].
  exact (recibo_cuantia_literal _ (app_ejemplo "300" "1FGBI" "50,5") _ _ eq_refl Hin).
Defined.

(** C9: When the template is missing, [DocxTemplate] or [render]
    raise, or [template.save] raises before opening the output file, a
    click on "Generar recibí" writes no file at all (no saved document and
    no truncated one), whatever the form, the sheet and the user's
    answers. *)
Theorem generate_fallo_sin_documento env app :
  env_plantilla_existe env = false \/ env_error_render env <> None \/
  (exists err, env_error_save env = Some (false, err)) ->
  Forall no_guarda (fst (run (generate_document env app))).
Proof.
  intros H. apply extends_run.
  pose proof (fun fn ctx => guardar_fallido_sin_guardar env fn ctx H).
  unfold generate_document. extends_auto.
Qed.

(** C23: A document that was saved is reported as not generated when
    [os.startfile] fails: for a minor's receipt that is saved, the
    success message is followed by "Error al generar el documento", the
    message of the same [except] that catches rendering errors. *)
Theorem generate_startfile_fallido env app d fecha t dt dm desc nom ape err :
  let f := form app in
  let numero_siria := py_replace (py_strip (numero_siria_entry f)) " " "" in
  let ctx := (py_update ((py_update (py_update [] dt) dm).["relacion_familiar" := VStr "Hijo/a"])
                        (datos_adicionales env app desc)).["cuantia" :=
               VStr (cuantia_contexto (codigo_ayuda_combobox f) (cuantia_ayuda_entry f))] in
  let fn := py_upper (py_take 2 nom) ++ "." ++ py_upper (py_take 2 ape) ++ "_" ++ numero_siria ++
            "_" ++ fmt_fecha_fichero (env_now env) ++ ".docx" in
  fst (validate_input (consts app) (numero_siria_entry f) (codigo_ayuda_combobox f)
         (cuantia_ayuda_entry f)) = true ->
  df app = Some d ->
  is_minor (env_parse_datetime env) (consts app) (env_now env) d numero_siria =
    inl (true, fecha, Some t) ->
  isna t = false -> env_confirma_titular env = true -> py_truthy (cell_str t) = true ->
  get_person_data (env_parse_datetime env) d (cell_str t) true = inl (Some dt) ->
  get_person_data (env_parse_datetime env) d numero_siria false = inl (Some dm) ->
  (codigos_ayuda_descripcion (consts app)).[codigo_ayuda_combobox f] = Some desc ->
  dm.["menor_nombre"] = Some (VCell (CStr nom)) -> dm.["menor_apellidos"] = Some (VCell (CStr ape)) ->
  env_plantilla_existe env = true -> env_error_render env = None -> env_error_save env = None ->
  env_error_startfile env = Some err ->
  run (generate_document env app) =
    ([EvAskYesNo "Confirmar titular" (msg_confirmar (cell_str t)); EvSave fn ctx;
      EvShowInfo "Éxito" ("Documento generado correctamente: " ++ fn);
      EvShowError "Error" ("Error al generar el documento: " ++ err)], inl tt).
Proof.
  cbv zeta. intros Hval Hdf Hm Hna Hc Ht Hdt Hdm Hdesc Hnom Hape Hpl Hre Hsv Hst.
  rewrite (menor_hasta_guardar env app d fecha t dt dm desc nom ape) by assumption.
  unfold guardar. rewrite Hpl, Hre, Hsv, Hst. mred. reflexivity.
Qed.

(** Luis's receipt with the template missing: one error, no file. *)
Lemma generate_fallo_sin_documento_witness :
  (env_plantilla_existe (env_guardado false None None None) = false \/
   env_error_render (env_guardado false None None None) <> None \/
   (exists err, env_error_save (env_guardado false None None None) = Some (false, err))) /\
  Forall no_guarda (fst (run (generate_document (env_guardado false None None None)
                                                (app_ejemplo "300" "ATSANGA" "50")))).
Proof.
  assert (H : env_plantilla_existe (env_guardado false None None None) = false \/
              env_error_render (env_guardado false None None None) <> None \/
              (exists err, env_error_save (env_guardado false None None None) = Some (false, err)))
    by (left; reflexivity).
  split; [exact H | exact (generate_fallo_sin_documento _ _ H)].
Defined.

(** Luis's receipt saved, Word not installed. *)
Lemma generate_startfile_fallido_witness :
  exists ctx,
    run (generate_document (env_guardado true None None (Some "No application is associated"))
                           (app_ejemplo "300" "ATSANGA" "50")) =
      ([EvAskYesNo "Confirmar titular" (msg_confirmar "100");
        EvSave "LU.PÉ_300_2026.11.09.docx" ctx;
        EvShowInfo "Éxito" ("Documento generado correctamente: " ++ "LU.PÉ_300_2026.11.09.docx");
        EvShowError "Error" ("Error al generar el documento: " ++ "No application is associated")],
       inl tt).
Proof.
  eexists.
  erewrite (generate_startfile_fallido (env_guardado true None None (Some "No application is associated"))
             (app_ejemplo "300" "ATSANGA" "50") hoja_ejemplo _ (CStr "100") _ _ _ "Luis" "Pérez").
  2-16: reflexivity.
  reflexivity.
Defined.

(** C24: A save that fails leaves what python-docx had written: for a
    minor's receipt whose [template.save] raises after opening the output
    file, the handler leaves that file truncated under the receipt's name
    (overwriting an earlier receipt of the same name) and shows "Error al
    generar el documento"; it removes nothing, against the
    specification's rule of no partial output. *)
Theorem generate_save_parcial env app d fecha t dt dm desc nom ape abierto err :
  let f := form app in
  let numero_siria := py_replace (py_strip (numero_siria_entry f)) " " "" in
  let ctx := (py_update ((py_update (py_update [] dt) dm).["relacion_familiar" := VStr "Hijo/a"])
                        (datos_adicionales env app desc)).["cuantia" :=
               VStr (cuantia_contexto (codigo_ayuda_combobox f) (cuantia_ayuda_entry f))] in
  let fn := py_upper (py_take 2 nom) ++ "." ++ py_upper (py_take 2 ape) ++ "_" ++ numero_siria ++
            "_" ++ fmt_fecha_fichero (env_now env) ++ ".docx" in
  fst (validate_input (consts app) (numero_siria_entry f) (codigo_ayuda_combobox f)
         (cuantia_ayuda_entry f)) = true ->
  df app = Some d ->
  is_minor (env_parse_datetime env) (consts app) (env_now env) d numero_siria =
    inl (true, fecha, Some t) ->
  isna t = false -> env_confirma_titular env = true -> py_truthy (cell_str t) = true ->
  get_person_data (env_parse_datetime env) d (cell_str t) true = inl (Some dt) ->
  get_person_data (env_parse_datetime env) d numero_siria false = inl (Some dm) ->
  (codigos_ayuda_descripcion (consts app)).[codigo_ayuda_combobox f] = Some desc ->
  dm.["menor_nombre"] = Some (VCell (CStr nom)) -> dm.["menor_apellidos"] = Some (VCell (CStr ape)) ->
  env_plantilla_existe env = true -> env_error_render env = None ->
  env_error_save env = Some (abierto, err) ->
  run (generate_document env app) =
    (([EvAskYesNo "Confirmar titular" (msg_confirmar (cell_str t))] ++
      (if abierto then [EvArchivoParcial fn] else []) ++
      [EvShowError "Error" ("Error al generar el documento: " ++ err)])%list, inl tt).
Proof.
  cbv zeta. intros Hval Hdf Hm Hna Hc Ht Hdt Hdm Hdesc Hnom Hape Hpl Hre Hsv.
  rewrite (menor_hasta_guardar env app d fecha t dt dm desc nom ape) by assumption.
  unfold guardar. rewrite Hpl, Hre, Hsv. destruct abierto; mred; reflexivity.
Qed.

(** Luis's receipt on a full disk: the save raises after python-docx
    opened the file for writing. *)
Lemma generate_save_parcial_witness :
  run (generate_document (env_guardado true None (Some (true, "[Errno 28] No space left on device")) None)
                         (app_ejemplo "300" "ATSANGA" "50")) =
    ([EvAskYesNo "Confirmar titular" (msg_confirmar "100");
      EvArchivoParcial "LU.PÉ_300_2026.11.09.docx";
      EvShowError "Error" ("Error al generar el documento: " ++ "[Errno 28] No space left on device")], inl tt).
Proof.
  erewrite (generate_save_parcial (env_guardado true None (Some (true, "[Errno 28] No space left on device")) None)
             (app_ejemplo "300" "ATSANGA" "50") hoja_ejemplo _ (CStr "100") _ _ _ "Luis" "Pérez").
  2-15: reflexivity.
  reflexivity.
Defined.
