(* ===== verification/Titular.v ===== *)
(** * The holder-resolution protocol, and the handler's refinement of it

    For a minor, [generate_document] needs the SIRIA number of the family
    unit's holder (lines 472-489, [Generate.resolver_titular]).  The
    specification describes this as a two-state protocol: a number found
    in the sheet is tentative until the user confirms it; on rejection, or
    when the sheet has none, the user is asked to type one; without a
    number in the end the receipt is refused with an error.

    [resolucion] states that protocol as an inductive relation between
    the candidate found in the sheet, the dialogs shown, and the outcome
    ([Some] number, or [None] for a refusal), for given answers of the
    user to the yes/no question and to the prompt.  [manual] is its manual
    state.  The refinement theorem shows that every run of
    [resolver_titular] is a run of the protocol: the same dialogs in the
    same order and the same outcome, whenever the sheet's candidate is
    not an empty text.  An empty text is the one case where the code
    leaves the protocol: confirming it still leads to the prompt. *)

From Stdlib Require Import String List ZArith Bool.
From S2P Require Import Prelude PyStr Frame Beneficiary Handler Generate.
Import ListNotations.
Open Scope string_scope.

(** ** The candidate the sheet offers *)

(** [pd.notna(siria_titular)] and [str(siria_titular)] (lines 476-479). *)
Definition candidato (siria_titular : option cell) : option string :=
  match siria_titular with
  | Some c => if isna c then None else Some (cell_str c)
  | None => None
  end.

(** ** The protocol *)

Definition pregunta (c : string) : event := EvAskYesNo "Confirmar titular" (msg_confirmar c).

Section Protocolo.

(** The user's answer to the yes/no question, and what the prompt returns
    ([None]: the dialog was left without "Aceptar"). *)
Variable confirma : bool.
Variable respuesta : option string.

(** Manual entry: one prompt; a number if one was typed, a refusal with
    an error otherwise. *)
Inductive manual : list event -> option string -> Prop :=
| manual_tecleado s :
    respuesta = Some s -> s <> "" -> manual [EvPromptTitular] (Some s)
| manual_sin_numero :
    respuesta = None \/ respuesta = Some "" ->
    manual [EvPromptTitular; EvShowError "Error" msg_requiere_titular] None.

(** The whole protocol, from the candidate of the sheet. *)
Inductive resolucion : option string -> list event -> option string -> Prop :=
| confirmado c :
    confirma = true -> resolucion (Some c) [pregunta c] (Some c)
| rechazado c tr r :
    confirma = false -> manual tr r -> resolucion (Some c) (pregunta c :: tr) r
| sin_candidato tr r :
    manual tr r -> resolucion None tr r.

End Protocolo.

(** How a run of the protocol ends the handler's step: with the number,
    or with the [return] of line 489. *)
Definition fin (r : option string) : string + stop :=
  match r with Some s => inl s | None => inr StopReturn end.

(** ** What the protocol guarantees *)

Lemma manual_numero R tr s : manual R tr (Some s) -> R = Some s /\ s <> "".
Proof. inversion 1; auto. Qed.

(** A number the protocol settles on is not empty, and is the confirmed
    candidate or the typed text. *)
Lemma resolucion_numero b R cand tr s :
  resolucion b R cand tr (Some s) ->
  s <> "" /\ (cand = Some s /\ b = true \/ R = Some s) \/ (cand = Some "" /\ s = "" /\ b = true).
Proof.
  inversion 1 as [c Hb| c tr' r Hb Hm | tr' r Hm]; subst;
    try (apply manual_numero in Hm as [? ?]; auto).
  destruct (String.eqb s "") eqn:E; [apply String.eqb_eq in E; subst; auto|].
  apply String.eqb_neq in E. auto.
Qed.

(** ** The handler refines the protocol *)

Lemma py_truthy_true s : s <> "" -> py_truthy s = true.
Proof. intros H. destruct (py_truthy s) eqn:E; [reflexivity|]. apply py_truthy_false in E. congruence. Qed.

(** The prompt and the guard of line 487, from any trace. *)
Lemma pedir_refina env tr :
  exists tr' r,
    bind (emit EvPromptTitular ;;; ret (prompt_for_titular (env_respuesta_titular env)))
      (fun n => if negb (py_truthy n)
                then emit (EvShowError "Error" msg_requiere_titular) ;;; early_return
                else ret n) tr = ((tr ++ tr')%list, fin r) /\
    manual (env_respuesta_titular env) tr' r.
Proof.
  destruct (env_respuesta_titular env) as [s|] eqn:Hr; mred; cbn [prompt_for_titular].
  - destruct (py_truthy s) eqn:Hs; cbn.
    + exists [EvPromptTitular], (Some s). split; [reflexivity|].
      apply manual_tecleado; [reflexivity | intros E; apply py_truthy_false in E; congruence].
    + apply py_truthy_false in Hs. subst s.
      exists [EvPromptTitular; EvShowError "Error" msg_requiere_titular], None.
      rewrite <- app_assoc. split; [reflexivity|]. constructor. auto.
  - cbn. exists [EvPromptTitular; EvShowError "Error" msg_requiere_titular], None.
    rewrite <- app_assoc. split; [reflexivity|]. constructor. auto.
Qed.

(** C8: Holder resolution refines the specification's protocol: for any
    answers of the user and any holder cell of the sheet whose text is not
    empty, [resolver_titular] shows exactly the dialogs of a run of
    [resolucion] from the sheet's candidate, in order, and ends as that
    run does: with the confirmed or typed number, or with the error and
    a [return] when no number is available. *)
Theorem resolver_titular_refina env st tr :
  (forall c, candidato st = Some c -> c <> "") ->
  exists tr' r,
    resolver_titular env st tr = ((tr ++ tr')%list, fin r) /\
    resolucion (env_confirma_titular env) (env_respuesta_titular env) (candidato st) tr' r.
Proof.
  intros Hc. unfold resolver_titular.
  assert (Hm : forall tr0, exists tr' r,
    bind (pedir_titular env None)
      (fun n => if negb (py_truthy n)
                then emit (EvShowError "Error" msg_requiere_titular) ;;; early_return
                else ret n) tr0 = ((tr0 ++ tr')%list, fin r) /\
    manual (env_respuesta_titular env) tr' r) by (intros; apply pedir_refina).
  destruct st as [t|]; [destruct (isna t) eqn:Hna|]; cbn [candidato] in *; rewrite ?Hna in *;
    unfold confirmar_titular; rewrite ?Hna; mred; cbn [negb].
  - destruct (Hm tr) as (tr' & r & E & M). exists tr', r. split; [exact E | apply sin_candidato; exact M].
  - specialize (Hc _ eq_refl). destruct (env_confirma_titular env) eqn:Hb; mred.
    + unfold pedir_titular. rewrite (py_truthy_true _ Hc). mred. cbn [negb].
      rewrite (py_truthy_true _ Hc). exists [pregunta (cell_str t)], (Some (cell_str t)).
      split; [reflexivity | apply confirmado; reflexivity].
    + destruct (Hm (tr ++ [pregunta (cell_str t)])%list) as (tr' & r & E & M).
      exists (pregunta (cell_str t) :: tr'), r. rewrite <- app_assoc in E.
      split; [exact E | apply rechazado; [reflexivity | exact M]].
  - destruct (Hm tr) as (tr' & r & E & M). exists tr', r. split; [exact E | apply sin_candidato; exact M].
Qed.

(** C25: Where the code leaves the protocol: for a holder cell holding the
    empty text, the user's answer to the question is ignored.  Whatever
    the answers, the handler asks about the empty number and then runs
    the manual part of the protocol, as after a rejection; the protocol's
    run for a confirmed candidate, the question alone, never happens. *)
Theorem resolver_titular_candidato_vacio env tr :
  exists tr' r,
    resolver_titular env (Some (CStr "")) tr = ((tr ++ pregunta "" :: tr')%list, fin r) /\
    manual (env_respuesta_titular env) tr' r /\
    ~ resolucion true (env_respuesta_titular env) (Some "") [pregunta ""] r.
Proof.
  unfold resolver_titular, confirmar_titular. cbn [isna negb cell_str]. mred.
  assert (E : forall t1, (if env_confirma_titular env then Some "" else None) = t1 ->
              pedir_titular env t1 = pedir_titular env None)
    by (intros t1 <-; destruct (env_confirma_titular env); reflexivity).
  rewrite (E _ eq_refl).
  destruct (pedir_refina env (tr ++ [pregunta ""])%list) as (tr' & r & Er & M).
  exists tr', r. rewrite <- app_assoc in Er. split; [exact Er|]. split; [exact M|].
  intros Hr. inversion Hr as [c Hb| c tr0 r0 Hb Hm0|]; subst; [|discriminate].
  inversion M; congruence.
Qed.

(** ** Examples *)

(** A float holder number [100.0] rejected, and ["200"] typed. *)
Lemma resolver_titular_refina_witness :
  (forall c, candidato (Some (CFloatInt 100%Z)) = Some c -> c <> "") /\
  exists tr' r,
    resolver_titular (env_ejemplo false (Some "200")) (Some (CFloatInt 100%Z)) [] = (([] ++ tr')%list, fin r) /\
    resolucion false (Some "200") (candidato (Some (CFloatInt 100%Z))) tr' r.
Proof.
  assert (H : forall c, candidato (Some (CFloatInt 100%Z)) = Some c -> c <> "")
    by (intros c E; vm_compute in E; injection E as <-; discriminate).
  split; [exact H | exact (resolver_titular_refina (env_ejemplo false (Some "200")) _ [] H)].
Defined.
