(* ===== verification/Controller.v ===== *)
(** * The application's life cycle: start-up, loading the workbook, widget events

    [DocumentGenerator.__init__] (lines 23-36) sets the time locale,
    builds the constants and calls [init_ui] (lines 260-278), which sets
    the window's icon, creates the widgets ([create_input_fields], lines
    280-345: the code combobox opened on its first value, the payment
    radio buttons on ["Efectivo"]), loads the workbook with
    [load_excel_file] (lines 209-224) and fills the label with
    [calculate_copago].  [arranque] is [DocumentGenerator()] itself,
    which raises when Tk cannot load the icon.  After that the program
    is the Tk main loop: each widget event runs one handler to
    completion.  The handlers are modelled as one step function [paso]
    on [App]; the states reached from a state by events are the
    inductive [desde], and the states of the running program,
    [alcanzable], are those reached from a [DocumentGenerator()] that
    returned.

    Editing the amount entry and refreshing the label are two events, as
    Tk delivers them: the entry's text changes on a key press, a deletion
    or a paste ([EditarCuantia]), and [calculate_copago] runs only when a
    [<KeyRelease>] reaches the entry ([SoltarTecla], the binding of line
    315).  A key released after the focus has moved, or a middle-click
    paste, changes the amount without a refresh, so the label may show
    the co-payment of an earlier amount.

    [root.quit()] (line 275), run when loading fails, is called before
    [root.mainloop()] (line 617) has started; Tk's main loop clears the
    quit request when it starts, so the window opens all the same.
    [init] models this: the state after a failed load is a running
    form. *)

From Stdlib Require Import String Ascii List ZArith Bool Lia.
From S2P Require Import Prelude PyStr PyFloat Catalog Copago Validate Dates Frame Beneficiary Handler Generate.
Import ListNotations.
Open Scope string_scope.

(** ** Updating the state *)

Definition set_form (app : App) (f : Form) : App :=
  {| consts := consts app; df := df app; valores_combined := valores_combined app;
     locale := locale app; form := f |}.

Definition set_df (app : App) (d : option frame) : App :=
  {| consts := consts app; df := d; valores_combined := valores_combined app;
     locale := locale app; form := form app |}.

Definition set_valores (app : App) (vs : list cell) : App :=
  {| consts := consts app; df := df app; valores_combined := vs;
     locale := locale app; form := form app |}.

Definition with_siria (f : Form) (s : string) : Form :=
  {| numero_siria_entry := s; codigo_ayuda_combobox := codigo_ayuda_combobox f;
     cuantia_ayuda_entry := cuantia_ayuda_entry f; valor_combobox := valor_combobox f;
     payment_method_var := payment_method_var f; copago_label := copago_label f |}.

Definition with_codigo (f : Form) (c : string) : Form :=
  {| numero_siria_entry := numero_siria_entry f; codigo_ayuda_combobox := c;
     cuantia_ayuda_entry := cuantia_ayuda_entry f; valor_combobox := valor_combobox f;
     payment_method_var := payment_method_var f; copago_label := copago_label f |}.

Definition with_cuantia (f : Form) (s : string) : Form :=
  {| numero_siria_entry := numero_siria_entry f; codigo_ayuda_combobox := codigo_ayuda_combobox f;
     cuantia_ayuda_entry := s; valor_combobox := valor_combobox f;
     payment_method_var := payment_method_var f; copago_label := copago_label f |}.

Definition with_valor (f : Form) (v : string) : Form :=
  {| numero_siria_entry := numero_siria_entry f; codigo_ayuda_combobox := codigo_ayuda_combobox f;
     cuantia_ayuda_entry := cuantia_ayuda_entry f; valor_combobox := v;
     payment_method_var := payment_method_var f; copago_label := copago_label f |}.

Definition with_pago (f : Form) (p : string) : Form :=
  {| numero_siria_entry := numero_siria_entry f; codigo_ayuda_combobox := codigo_ayuda_combobox f;
     cuantia_ayuda_entry := cuantia_ayuda_entry f; valor_combobox := valor_combobox f;
     payment_method_var := p; copago_label := copago_label f |}.

(** [self.calculate_copago()]: the label recomputed from the form. *)
Definition calc_label (k : Constants) (f : Form) : Form :=
  {| numero_siria_entry := numero_siria_entry f; codigo_ayuda_combobox := codigo_ayuda_combobox f;
     cuantia_ayuda_entry := cuantia_ayuda_entry f; valor_combobox := valor_combobox f;
     payment_method_var := payment_method_var f;
     copago_label := calculate_copago k (codigo_ayuda_combobox f) (cuantia_ayuda_entry f) |}.

(** ** [load_excel_file] *)

(** What [pd.read_excel] returns for the two sheets of the chosen file, or
    the text of the exception it raises. *)
Record Libro := {
  hoja_principal : frame + string;
  hoja_oculta : hoja + string
}.

Definition msg_sin_archivo : string := "No se seleccionó ningún archivo.".
Definition msg_carga (e : string) : string := "No se pudo cargar el archivo Excel: " ++ e.

(** [str(e)] of the exceptions raised inside the [try]. *)
Definition exc_str (e : py_exc) : string :=
  match e with
  | KeyError k => "'" ++ k ++ "'"
  | TypeError w | ValueError w => w
  end.

Definition msg_indexer : string := "single positional indexer is out-of-bounds".

(** The assignments of the [try] block happen in order: a failure after
    [self.df = pd.read_excel(...)] leaves that raw frame in [self.df]. *)
Definition load_excel_file (archivo : string) (libro : Libro) (app : App) : App * bool * list event :=
  if negb (py_truthy archivo) then (app, false, [EvShowError "Error" msg_sin_archivo])
  else
    match hoja_principal libro with
    | inr e => (app, false, [EvShowError "Error" (msg_carga e)])
    | inl d =>
        let app1 := set_df app (Some d) in
        match hoja_oculta libro with
        | inr e => (app1, false, [EvShowError "Error" (msg_carga e)])
        | inl h =>
            match normalize_ids d with
            | None => (app1, false, [EvShowError "Error" (msg_carga (exc_str (KeyError COL_SIRIA)))])
            | Some d' =>
                let app2 := set_df app (Some d') in
                match load_professional_values h with
                | None => (app2, false, [EvShowError "Error" (msg_carga msg_indexer)])
                | Some vs => (set_valores app2 vs, true, [])
                end
            end
        end
    end.

(** ** Start-up *)

Definition msg_idioma : string := "No se pudo configurar el idioma español para las fechas.".

(** [locale.setlocale] with ['es_ES.UTF-8'], then ['spanish'], then a
    warning. *)
Definition init_locale (es_ES_utf8 spanish : bool) : time_locale * list event :=
  if es_ES_utf8 || spanish then (LocaleSpanish, [])
  else (LocaleC, [EvShowWarning "Advertencia" msg_idioma]).

(** The widgets as [create_input_fields] leaves them. *)
Definition form_inicial (k : Constants) : Form :=
  {| numero_siria_entry := ""; cuantia_ayuda_entry := "";
     codigo_ayuda_combobox := match codigo_por_defecto k with Some c => c | None => "" end;
     valor_combobox := ""; payment_method_var := "Efectivo"; copago_label := "" |}.

(** [os.path.join(base, name)] of Windows ([ntpath.join]) for a [name]
    with no drive and no leading separator, as ["mi_icono.ico"]: the name
    is appended after a backslash unless [base] is empty, a bare drive
    ["X:"], or ends with a separator.  This is [ntpath.join] for every
    [base] that [os.path.abspath] or PyInstaller's [_MEIPASS] produce
    (a drive or a complete UNC share and a path). *)
Definition es_separador (a : Ascii.ascii) : bool :=
  Ascii.eqb a "\"%char || Ascii.eqb a "/"%char.

Definition ntpath_join (base name : string) : string :=
  if String.eqb base "" then name
  else if Nat.eqb (String.length base) 2 &&
          match String.get 1 base with Some a => Ascii.eqb a ":"%char | None => false end
  then base ++ name
  else match String.get (String.length base - 1)%nat base with
       | Some a => if es_separador a then base ++ name else base ++ "\" ++ name
       | None => base ++ "\" ++ name
       end.

(** [resource_path] (lines 13-21): under PyInstaller's unpacking directory
    [sys._MEIPASS] when the program is frozen, and otherwise under
    [os.path.abspath(".")], the process's working directory. *)
Definition resource_path (meipass : option string) (cwd : string) (relative_path : string) : string :=
  let base_path := match meipass with Some b => b | None => cwd end in
  ntpath_join base_path relative_path.

(** [init_ui] after the window's icon (lines 268-278): the widgets, the
    workbook and the first label.  The result of [load_excel_file] is
    ignored by the state, since [root.quit()] does not stop the loop that
    has not started. *)
Definition init_ui (k : Constants) (loc : time_locale) (archivo : string) (libro : Libro)
    : App * list event :=
  let app0 := {| consts := k; df := None; valores_combined := []; locale := loc;
                 form := form_inicial k |} in
  let '(app1, _, ev1) := load_excel_file archivo libro app0 in
  (set_form app1 (calc_label k (form app1)), ev1).

(** [__init__] (lines 23-36) once the icon has loaded. *)
Definition init (k : Constants) (es_ES_utf8 spanish : bool) (archivo : string) (libro : Libro)
    : App * list event :=
  let '(loc, ev0) := init_locale es_ES_utf8 spanish in
  let '(app, ev1) := init_ui k loc archivo libro in
  (app, (ev0 ++ ev1)%list).

(** [app = DocumentGenerator()] (line 616), icon included: when Tk cannot
    load the icon, [iconbitmap] (line 266) raises [TclError] out of the
    constructor, after the locale warning and before any widget, file
    dialog or main loop ([None]).  [icono_cargable] says which paths hold
    an icon Tk reads. *)
Definition arranque (k : Constants) (es_ES_utf8 spanish : bool) (meipass : option string)
    (cwd : string) (icono_cargable : string -> bool) (archivo : string) (libro : Libro)
    : list event * option App :=
  let '(loc, ev0) := init_locale es_ES_utf8 spanish in
  if icono_cargable (resource_path meipass cwd "mi_icono.ico") then
    let '(app, ev1) := init_ui k loc archivo libro in ((ev0 ++ ev1)%list, Some app)
  else (ev0, None).

(** ** The widget events *)

Inductive accion :=
| TeclearSiria (s : string)          (** typing in the SIRIA entry *)
| ElegirCodigo (c : string)          (** [<<ComboboxSelected>>] on the code *)
| EditarCuantia (s : string)         (** the amount entry's text becomes [s]: a key pressed,
                                         text deleted or pasted; no handler runs *)
| SoltarTecla                        (** a [<KeyRelease>] reaching the amount entry (line 315) *)
| PulsarMaximo                       (** the "Máximo" button *)
| ElegirProfesional (v : string)     (** the professional combobox *)
| ElegirPago (p : string)            (** the payment radio buttons *)
| PulsarGenerar (env : Env).         (** the "Generar recibí" button *)

(** What the widgets let the user do: the comboboxes are read-only and the
    radio buttons have two values. *)
Definition accion_posible (app : App) (a : accion) : bool :=
  match a with
  | ElegirCodigo c => existsb (String.eqb c) (py_keys (codigos_ayuda_descripcion (consts app)))
  | ElegirProfesional v => existsb (String.eqb v) (map cell_str (valores_combined app))
  | ElegirPago p => existsb (String.eqb p) ["Efectivo"; "Banco"]
  | _ => true
  end.

(** One event handled to completion: the new state and the dialogs and
    files.  [generate_document] changes no attribute of the application;
    an exception it raises ends the callback and Tk reports it. *)
Definition paso (app : App) (a : accion) : App * list event :=
  let k := consts app in
  let f := form app in
  match a with
  | TeclearSiria s => (set_form app (with_siria f s), [])
  | ElegirCodigo c => (set_form app (calc_label k (with_codigo f c)), [])
  | EditarCuantia s => (set_form app (with_cuantia f s), [])
  | SoltarTecla => (set_form app (calc_label k f), [])
  | PulsarMaximo => (set_form app (set_max_cuantia k f), [])
  | ElegirProfesional v => (set_form app (with_valor f v), [])
  | ElegirPago p => (set_form app (with_pago f p), [])
  | PulsarGenerar env => (app, fst (run (generate_document env app)))
  end.

(** The states reached from [app0] by widget events. *)
Inductive desde (app0 : App) : App -> Prop :=
| desde_inicio : desde app0 app0
| desde_paso app a : desde app0 app -> accion_posible app a = true -> desde app0 (fst (paso app a)).

(** The states of the running program (lines 615-617): [DocumentGenerator()]
    returned, with any locale, icon, choice in the file dialog and
    workbook, then the main loop handled any events. *)
Definition alcanzable (app : App) : Prop :=
  exists es spanish meipass cwd cargable archivo libro ev app0,
    arranque setup_constants es spanish meipass cwd cargable archivo libro = (ev, Some app0) /\
    desde app0 app.

(** What holds of the form in every state: the source's constants, a code
    of the combobox, a label that [calculate_copago] computed for the
    selected code from some amount (the amount the entry held at the last
    refresh, which may since have changed), a payment method of the radio
    buttons, and a professional of the loaded list or none. *)
Definition form_inv (app : App) : Prop :=
  let k := consts app in
  let f := form app in
  k = setup_constants /\
  In (codigo_ayuda_combobox f) (py_keys (codigos_ayuda_descripcion k)) /\
  (exists s, copago_label f = calculate_copago k (codigo_ayuda_combobox f) s) /\
  In (payment_method_var f) ["Efectivo"; "Banco"] /\
  (valor_combobox f = "" \/ In (valor_combobox f) (map cell_str (valores_combined app))).

(** ** Sample workbook for the examples: the sheet [hoja_ejemplo] and a
    hidden sheet listing three professionals in rows 4-5 of columns B and
    C. *)
Definition libro_ejemplo : Libro :=
  {| hoja_principal := inl hoja_ejemplo;
     hoja_oculta := inl {| ncols := 3;
                           filas := [[]; []; [];
                                     [CNaN; CStr "Trabajadora social"; CStr "Educador"];
                                     [CNaN; CNaN; CStr "Psicóloga"]] |} |}.

(** A workbook without the hidden sheet, whose identifiers are the text
    ["007"] and the number [7]. *)
Definition libro_sin_listados : Libro :=
  {| hoja_principal := inl hoja_numerica;
     hoja_oculta := inr "Worksheet named 'LISTADOS (no tocar)' not found" |}.

(** ** Lemmas *)

(** Loading touches only [df] and the professionals. *)
Lemma load_excel_file_form archivo libro app :
  let app' := fst (fst (load_excel_file archivo libro app)) in
  consts app' = consts app /\ form app' = form app /\ locale app' = locale app /\
  (valores_combined app' = valores_combined app \/
   exists h, hoja_oculta libro = inl h /\ load_professional_values h = Some (valores_combined app')).
Proof.
  unfold load_excel_file.
  destruct (negb (py_truthy archivo)); [cbn; intuition eauto|].
  destruct (hoja_principal libro) as [d|e]; [|cbn; intuition eauto].
  destruct (hoja_oculta libro) as [h|e] eqn:Hh; [|cbn; intuition eauto].
  destruct (normalize_ids d); [|cbn; intuition eauto].
  destruct (load_professional_values h) eqn:Hp; cbn; intuition eauto.
Qed.

Lemma form_inv_init es spanish archivo libro :
  form_inv (fst (init setup_constants es spanish archivo libro)).
Proof.
  unfold init, init_ui. destruct (init_locale es spanish) as [loc ev0].
  match goal with |- context [load_excel_file archivo libro ?a] =>
    pose proof (load_excel_file_form archivo libro a) as (Hk & Hf & _) end.
  destruct (load_excel_file _ _ _) as [[app1 ok] ev1]. cbn in Hk, Hf |- *.
  unfold form_inv. cbn. rewrite Hk, Hf. cbn.
  repeat split; eauto.
Qed.

(** Every widget event keeps the invariant. *)
Lemma form_inv_paso app a :
  form_inv app -> accion_posible app a = true -> form_inv (fst (paso app a)).
Proof.
  unfold form_inv. intros (Hk & Hc & [s0 Hl] & Hp & Hv) Ha.
  destruct a; unfold accion_posible in Ha; rewrite ?existsb_eqb_In in Ha; cbn [paso fst].
  5: unfold set_max_cuantia; destruct ((maximos_ayuda (consts app)).[_]).
  all: cbn; repeat split; eauto.
Qed.

(** Events change the form only: the sheet, the professionals, the
    constants and the locale stay as start-up left them. *)
Lemma paso_sesion app a :
  let app' := fst (paso app a) in
  df app' = df app /\ valores_combined app' = valores_combined app /\
  consts app' = consts app /\ locale app' = locale app.
Proof. destruct a; repeat split. Qed.

Lemma desde_sesion app0 app :
  desde app0 app ->
  df app = df app0 /\ valores_combined app = valores_combined app0 /\
  consts app = consts app0 /\ locale app = locale app0.
Proof.
  induction 1 as [| app a _ (IHd & IHv & IHk & IHl) _]; [auto|].
  destruct (paso_sesion app a) as (-> & -> & -> & ->). auto.
Qed.

(** Cancelling the file dialog at start-up: an error, then a form with no
    sheet. *)
Lemma init_sin_archivo k es spanish libro :
  df (fst (init k es spanish "" libro)) = None /\ consts (fst (init k es spanish "" libro)) = k /\
  In (EvShowError "Error" msg_sin_archivo) (snd (init k es spanish "" libro)).
Proof.
  unfold init, init_ui. destruct (init_locale es spanish) as [loc ev0]. cbn.
  repeat split. apply in_or_app. right. left. reflexivity.
Qed.

(** With no sheet, the handler fails on [self.df[...]] in [is_minor]. *)
Lemma generate_sin_hoja env app :
  df app = None ->
  fst (validate_input (consts app) (numero_siria_entry (form app)) (codigo_ayuda_combobox (form app))
         (cuantia_ayuda_entry (form app))) = true ->
  run (generate_document env app) = ([], inr (StopRaise (TypeError "'NoneType' object is not subscriptable"))).
Proof.
  intros Hdf Hval. unfold run, generate_document. cbv zeta.
  destruct (validate_input _ _ _ _) as [valid msg]. simpl in Hval. subst valid.
  rewrite Hdf. reflexivity.
Qed.

(** When the icon loads, the constructor is [init]. *)
Lemma arranque_init k es spanish meipass cwd cargable archivo libro ev app :
  arranque k es spanish meipass cwd cargable archivo libro = (ev, Some app) ->
  app = fst (init k es spanish archivo libro) /\ ev = snd (init k es spanish archivo libro).
Proof.
  unfold arranque, init. destruct (init_locale es spanish) as [loc ev0].
  destruct (cargable _); [|discriminate].
  destruct (init_ui k loc archivo libro) as [app1 ev1]. intros H. injection H as <- <-. auto.
Qed.

Lemma alcanzable_inv app : alcanzable app -> form_inv app.
Proof.
  intros (es & spanish & meipass & cwd & cargable & archivo & libro & ev & app0 & Ha & H).
  apply arranque_init in Ha as [-> _].
  induction H as [| app a _ IH Ha]; [apply form_inv_init | apply form_inv_paso; assumption].
Qed.

(** ** Theorems *)

(** [ntpath.join] on a directory that does not end with a separator. *)
Lemma ntpath_join_dir base name :
  (3 <= String.length base)%nat ->
  (forall a, String.get (String.length base - 1)%nat base = Some a -> es_separador a = false) ->
  ntpath_join base name = base ++ "\" ++ name.
Proof.
  intros Hl Hs. unfold ntpath_join.
  destruct (String.eqb_spec base "") as [->|_]; [cbn in Hl; lia|].
  replace (Nat.eqb (String.length base) 2) with false by (symmetry; apply Nat.eqb_neq; lia).
  cbn [andb]. destruct (String.get _ base) as [a|] eqn:E; [rewrite (Hs a eq_refl)|]; reflexivity.
Qed.

(** C6: In every state the running program reaches ([DocumentGenerator()]
    returned, the workbook loaded or not, then any sequence of widget
    events), the selected code is one of the catalogue, the label is the
    one [calculate_copago] computes for the selected code from some
    amount (so for a code without co-payment it is that code's
    description), the payment method is ["Efectivo"] or ["Banco"] and the
    professional is empty or one of the loaded list.  The amount may be
    stale: the label is refreshed only by a [<KeyRelease>] on the entry. *)
Theorem alcanzable_form_inv app : alcanzable app -> form_inv app.
Proof. exact (alcanzable_inv app). Qed.

(** C19: Cancelling the file dialog does not end the program: after the
    error dialog the form stays open with no sheet loaded, and from then on
    every click on "Generar recibí" with a form that passes validation
    raises [TypeError] inside the handler, with no dialog and no
    document. *)
Theorem sin_archivo_typeerror es spanish libro app env :
  desde (fst (init setup_constants es spanish "" libro)) app ->
  fst (validate_input (consts app) (numero_siria_entry (form app)) (codigo_ayuda_combobox (form app))
         (cuantia_ayuda_entry (form app))) = true ->
  In (EvShowError "Error" msg_sin_archivo) (snd (init setup_constants es spanish "" libro)) /\
  run (generate_document env app) =
    ([], inr (StopRaise (TypeError "'NoneType' object is not subscriptable"))).
Proof.
  intros Hd Hval. destruct (init_sin_archivo setup_constants es spanish libro) as (Hnone & _ & Hin).
  split; [exact Hin|]. apply generate_sin_hoja; [|exact Hval].
  rewrite (proj1 (desde_sesion _ _ Hd)). exact Hnone.
Qed.

(** C20: A load that fails after the main sheet was read leaves that raw
    sheet in [self.df]: when the hidden sheet is missing or the SIRIA
    column is absent, [load_excel_file] shows one error and answers
    [False], but [df] is the sheet as read, without the conversion to
    text.  A lookup in it then only ever finds a row whose identifier
    cell is the typed text (numeric identifiers are never found), and
    when the column is absent every lookup raises [KeyError]. *)
Theorem load_excel_file_parcial archivo libro app d :
  py_truthy archivo = true -> hoja_principal libro = inl d ->
  (exists e, hoja_oculta libro = inr e) \/
  (exists h, hoja_oculta libro = inl h /\ normalize_ids d = None) ->
  let '(app', ok, evs) := load_excel_file archivo libro app in
  ok = false /\ df app' = Some d /\ (exists m, evs = [EvShowError "Error" m]) /\
  (forall s r, first_match d COL_SIRIA s = inl (Some r) -> r.[COL_SIRIA] = Some (CStr s)) /\
  (normalize_ids d = None -> forall s, first_match d COL_SIRIA s = inr (KeyError COL_SIRIA)).
Proof.
  intros Ha Hp Hcase. unfold load_excel_file. rewrite Ha, Hp. cbn [negb].
  destruct Hcase as [(e & He) | (h & Hh & Hn)]; [rewrite He | rewrite Hh, Hn];
    (split; [reflexivity | split; [reflexivity | split; [eexists; reflexivity | split]]]);
    [apply first_match_texto | intros; apply normalize_ids_None; assumption
    |apply first_match_texto | intros; apply normalize_ids_None; assumption].
Qed.

(** ** Witnesses *)

(** Started from [C:\Users\ana\recibos] with the icon and the workbook,
    the code ATSANGA chosen, 5 typed (the key released in the entry),
    then 50 pasted: the label still asks for the co-payment of 5. *)
Lemma alcanzable_form_inv_witness :
  let app0 := fst (init setup_constants true false "recibos.xlsx" libro_ejemplo) in
  let app := fst (paso (fst (paso (fst (paso (fst (paso app0 (ElegirCodigo "ATSANGA")))
                                               (EditarCuantia "5"))) SoltarTecla))
                       (EditarCuantia "50")) in
  form_inv app /\ copago_label (form app) = "Copago (15%): 0.75€. Introduce total factura." /\
  cuantia_ayuda_entry (form app) = "50".
Proof.
  intros app0 app. split; [|vm_compute; split; reflexivity].
  apply alcanzable_form_inv.
  exists true, false, None, "C:\Users\ana\recibos", (fun _ => true), "recibos.xlsx", libro_ejemplo,
    (snd (init setup_constants true false "recibos.xlsx" libro_ejemplo)), app0.
  split; [vm_compute; reflexivity|].
  repeat (apply desde_paso; [|vm_compute; reflexivity]). apply desde_inicio.
Defined.

(** The file dialog cancelled, then SIRIA 300 and 50 euros typed. *)
Lemma sin_archivo_typeerror_witness :
  let app := fst (paso (fst (paso (fst (init setup_constants true false "" libro_ejemplo))
                                  (TeclearSiria "300"))) (EditarCuantia "50")) in
  run (generate_document (env_ejemplo true None) app) =
    ([], inr (StopRaise (TypeError "'NoneType' object is not subscriptable"))).
Proof.
  intros app. apply (sin_archivo_typeerror true false libro_ejemplo app).
  - apply desde_paso; [apply desde_paso; [apply desde_inicio | reflexivity] | reflexivity].
  - vm_compute. reflexivity.
Defined.

(** The workbook without its hidden sheet: the error is shown, the raw
    sheet stays loaded, and the number 7 typed as ["7"] is not found. *)
Lemma load_excel_file_parcial_witness :
  let '(app', ok, evs) := load_excel_file "recibos.xlsx" libro_sin_listados
                            (fst (init setup_constants true false "" libro_sin_listados)) in
  ok = false /\ df app' = Some hoja_numerica /\ (exists m, evs = [EvShowError "Error" m]) /\
  (forall s r, first_match hoja_numerica COL_SIRIA s = inl (Some r) -> r.[COL_SIRIA] = Some (CStr s)) /\
  (normalize_ids hoja_numerica = None ->
   forall s, first_match hoja_numerica COL_SIRIA s = inr (KeyError COL_SIRIA)).
Proof.
  apply load_excel_file_parcial; [reflexivity | reflexivity | left; eexists; reflexivity].
Defined.

(** In that sheet the row of identifier 7 is not found by ["7"]. *)
Example hoja_cruda_sin_7 : first_match hoja_numerica COL_SIRIA "7" = inl None.
Proof. vm_compute. reflexivity. Qed.

(** C22: The window's icon is read from the working directory: run as a
    script (no [_MEIPASS]) from a directory [cwd], [DocumentGenerator()]
    starts as [init] when Tk can load [cwd\mi_icono.ico], and otherwise
    raises [TclError] after at most the locale warning, before the file
    dialog and without a window. *)
Theorem arranque_sin_meipass k es spanish cwd cargable archivo libro :
  (3 <= String.length cwd)%nat ->
  (forall a, String.get (String.length cwd - 1)%nat cwd = Some a -> es_separador a = false) ->
  arranque k es spanish None cwd cargable archivo libro =
    if cargable (cwd ++ "\mi_icono.ico")
    then (snd (init k es spanish archivo libro), Some (fst (init k es spanish archivo libro)))
    else (snd (init_locale es spanish), None).
Proof.
  intros Hl Hs. unfold arranque, init, resource_path. rewrite ntpath_join_dir by assumption.
  destruct (init_locale es spanish) as [loc ev0].
  destruct (cargable _); [destruct (init_ui k loc archivo libro)|]; reflexivity.
Qed.

(** The program launched from [C:\Users\ana\recibos] while the icon is
    in [C:\Users\ana]: it stops before asking for the workbook. *)
Lemma arranque_sin_meipass_witness :
  arranque setup_constants true false None "C:\Users\ana\recibos"
    (fun p => String.eqb p "C:\Users\ana\mi_icono.ico") "recibos.xlsx" libro_ejemplo = ([], None).
Proof.
  rewrite (arranque_sin_meipass setup_constants true false "C:\Users\ana\recibos").
  - vm_compute. reflexivity.
  - vm_compute. lia.
  - intros a E. vm_compute in E. injection E as <-. reflexivity.
Defined.

